(** * A shallow embedding of the buffer manager (buffer_mgr.c)

    The frames of a pool form a circular doubly linked list that is built
    once by [createPageFrame] and never relinked afterwards.  A frame
    pointer is therefore modelled as the position of the frame in creation
    order, [frame->next] as the cyclic successor of that position and
    [frame->prev] as its cyclic predecessor.  The [data] pointer of a frame
    never changes either, so a pointer to a page buffer is the position of
    its frame, and the buffer itself is a field of the frame.

    The storage manager is an external collaborator and enters as an
    interface.  Allocation is taken to succeed.  An [int] is a [Z] that
    wraps around at 32 bits.  Every loop of the source is a function with
    fuel, one unit for each run of its body; a function of the module
    returns [None] where the C code dereferences a NULL pointer or where a
    loop has not ended after as many runs as the ring has frames. *)

From Stdlib Require Import ZArith Lia Strings.String Strings.Byte.
From stdpp Require Import base list.

Local Open Scope Z_scope.

(** ** C integers *)

Definition INT_MAX : Z := 2147483647.
Definition INT_MIN : Z := -2147483648.

(** Two's-complement wrap-around of a 32-bit [int]. *)
Definition wrap_int (z : Z) : Z := (z + 2147483648) mod 4294967296 - 2147483648.

Definition incr (z : Z) : Z := wrap_int (z + 1).
Definition decr (z : Z) : Z := wrap_int (z - 1).

(** ** Return codes, strategies, handles *)

(** Modelled from the spec: dberror.h is not part of the sources; the
    codes that the buffer manager names, and [RC_ERROR] for any other code
    the storage manager may hand back. *)
Inductive RC : Type :=
| RC_OK
| RC_FILE_NOT_FOUND
| RC_WRITE_FAILED
| RC_READ_NON_EXISTING_PAGE
| RC_ERROR (code : Z).

Definition rc_is_ok (rc : RC) : bool :=
  match rc with RC_OK => true | _ => false end.

(** Modelled from the spec: buffer_mgr.h is not part of the sources; the
    three strategies that [pinPage] dispatches on, and [RS_OTHER] for any
    further enumerator of the header, for which the switch has no case. *)
Inductive ReplacementStrategy : Type :=
| RS_FIFO
| RS_LRU
| RS_CLOCK
| RS_OTHER.

Definition PageNumber : Type := Z.
Definition NO_PAGE : PageNumber := -1.

(** The bytes of one page. *)
Definition PageData : Type := list byte.

(** Modelled from the spec: [BM_PageHandle] of buffer_mgr.h, with the two
    fields the code assigns: the page number and the [data] pointer, which
    points to the buffer of a frame and is that frame's position. *)
Record BM_PageHandle : Type := mkHandle {
  ph_pageNum : PageNumber;
  ph_data : nat
}.

(** ** The storage manager *)

(** The functions of storage_mgr.h that the buffer manager calls, and the
    constant [PAGE_SIZE].  [World] is the state of the file system
    together with the file handle the calls work on.  [readBlock] receives
    the buffer it reads into and gives back its new contents; the result
    codes of [closePageFile] and [ensureCapacity] are never inspected by
    the buffer manager. *)
Class StorageMgr : Type := {
  World : Type;
  PAGE_SIZE : nat;
  openPageFile : option string -> World -> RC * World;
  closePageFile : World -> World;
  readBlock : PageNumber -> PageData -> World -> RC * PageData * World;
  writeBlock : PageNumber -> PageData -> World -> RC * World;
  ensureCapacity : Z -> World -> World
}.

(** ** Frames and pools *)

Record PageFrame : Type := mkFrame {
  frameNum : Z;
  pageNum : PageNumber;
  dirtyFlagSignal : Z;
  fixCount : Z;
  referenceBit : Z;
  data : PageData
}.

Definition set_pageNum (p : PageNumber) (f : PageFrame) : PageFrame :=
  mkFrame (frameNum f) p (dirtyFlagSignal f) (fixCount f) (referenceBit f) (data f).
Definition set_dirty (d : Z) (f : PageFrame) : PageFrame :=
  mkFrame (frameNum f) (pageNum f) d (fixCount f) (referenceBit f) (data f).
Definition set_fixCount (c : Z) (f : PageFrame) : PageFrame :=
  mkFrame (frameNum f) (pageNum f) (dirtyFlagSignal f) c (referenceBit f) (data f).
Definition set_referenceBit (r : Z) (f : PageFrame) : PageFrame :=
  mkFrame (frameNum f) (pageNum f) (dirtyFlagSignal f) (fixCount f) r (data f).
Definition set_data (d : PageData) (f : PageFrame) : PageFrame :=
  mkFrame (frameNum f) (pageNum f) (dirtyFlagSignal f) (fixCount f) (referenceBit f) d.

(** [frame->fixCount++] and [frame->fixCount--]. *)
Definition fix_up (f : PageFrame) : PageFrame := set_fixCount (incr (fixCount f)) f.
Definition fix_down (f : PageFrame) : PageFrame := set_fixCount (decr (fixCount f)) f.

#[global] Instance PageFrame_inhabited : Inhabited PageFrame :=
  populate (mkFrame 0 NO_PAGE 0 0 0 []).

(** [BM_BufferPool_Mgmt].  [frames] lists the nodes of the circular list in
    creation order; [head], [tail] and [start] are positions in it. *)
Record BM_BufferPool_Mgmt : Type := mkMgmt {
  occupiedFrameCount : Z;
  frames : list PageFrame;
  head : nat;
  tail : nat;
  start : nat;
  getNumReadIO : Z;
  getNumWriteIO : Z
}.

Definition set_frames (fs : list PageFrame) (m : BM_BufferPool_Mgmt) :=
  mkMgmt (occupiedFrameCount m) fs (head m) (tail m) (start m)
         (getNumReadIO m) (getNumWriteIO m).
Definition set_head (h : nat) (m : BM_BufferPool_Mgmt) :=
  mkMgmt (occupiedFrameCount m) (frames m) h (tail m) (start m)
         (getNumReadIO m) (getNumWriteIO m).
Definition set_tail (t : nat) (m : BM_BufferPool_Mgmt) :=
  mkMgmt (occupiedFrameCount m) (frames m) (head m) t (start m)
         (getNumReadIO m) (getNumWriteIO m).
Definition set_occupied (c : Z) (m : BM_BufferPool_Mgmt) :=
  mkMgmt c (frames m) (head m) (tail m) (start m)
         (getNumReadIO m) (getNumWriteIO m).
Definition set_reads (c : Z) (m : BM_BufferPool_Mgmt) :=
  mkMgmt (occupiedFrameCount m) (frames m) (head m) (tail m) (start m)
         c (getNumWriteIO m).
Definition set_writes (c : Z) (m : BM_BufferPool_Mgmt) :=
  mkMgmt (occupiedFrameCount m) (frames m) (head m) (tail m) (start m)
         (getNumReadIO m) c.

(** The frame a pointer refers to, and an update through a pointer. *)
Definition frame_at (m : BM_BufferPool_Mgmt) (i : nat) : PageFrame := frames m !!! i.
Definition upd (g : PageFrame -> PageFrame) (i : nat) (m : BM_BufferPool_Mgmt) :=
  set_frames (alter g i (frames m)) m.

(** Modelled from the spec: [BM_BufferPool] of buffer_mgr.h, with the four
    fields the code uses; [mgmtData] and [pageFile] are NULL after
    shutdown. *)
Record BM_BufferPool : Type := mkPool {
  pageFile : option string;
  numPages : Z;
  strategy : ReplacementStrategy;
  mgmtData : option BM_BufferPool_Mgmt
}.

Definition set_mgmt (m : BM_BufferPool_Mgmt) (bm : BM_BufferPool) : BM_BufferPool :=
  mkPool (pageFile bm) (numPages bm) (strategy bm) (Some m).

(** ** The circular list *)

(** [frame->next] and [frame->prev] in a ring of [n] nodes. *)
Definition next (n i : nat) : nat := if (S i <? n)%nat then S i else 0%nat.
Definition prev (n i : nat) : nat := if (i =? 0)%nat then (n - 1)%nat else (i - 1)%nat.

(** The loop shape shared by the searches of the module:
    [do { if (test(frame)) <leave with frame>; frame = frame->next; }
     while (frame != stop);]
    One unit of fuel pays for one run of the body.  [Some (inl f)] leaves
    from inside the body at [f]; [Some (inr f)] is the exit through the
    loop condition, with the pointer [f] where the loop stopped. *)
Fixpoint scan (fuel n : nat) (test : nat -> bool) (stop frame : nat)
  : option (nat + nat) :=
  match fuel with
  | O => None
  | S fuel' =>
      if test frame then Some (inl frame)
      else
        let frame' := next n frame in
        if (frame' =? stop)%nat then Some (inr frame')
        else scan fuel' n test stop frame'
  end.

(** The inner loop of the CLOCK replacement:
    [while (frame->referenceBit != 0) { frame->referenceBit = 0; frame = frame->next; }] *)
Fixpoint clock_sweep (fuel n : nat) (fs : list PageFrame) (frame : nat)
  : option (list PageFrame * nat) :=
  if negb (referenceBit (fs !!! frame) =? 0) then
    match fuel with
    | O => None
    | S fuel' =>
        clock_sweep fuel' n (alter (set_referenceBit 0) frame fs) (next n frame)
    end
  else Some (fs, frame).

(** The statistics loops: [k] frames starting at [frame], following [next]. *)
Fixpoint walk {A : Type} (g : PageFrame -> A) (fs : list PageFrame)
  (k frame : nat) : list A :=
  match k with
  | O => []
  | S k' => g (fs !!! frame) :: walk g fs k' (next (length fs) frame)
  end.

Section BufferManager.

Context {SM : StorageMgr}.

(** What the first half of a pin routine hands to its second half: either
    the routine has returned early with a code, or it goes on to the disk
    read with the local variable [frame]. *)
Inductive placed : Type :=
| Abort (rc : RC) (m : BM_BufferPool_Mgmt) (w : World)
| Proceed (m : BM_BufferPool_Mgmt) (w : World) (frame : nat).

(** The management data behind [bm->mgmtData]; dereferencing a NULL
    [mgmtData], or the NULL [head] of a pool without frames, is undefined
    and gives [None]. *)
Definition mgmt_of (bm : BM_BufferPool) : option BM_BufferPool_Mgmt :=
  match mgmtData bm with
  | Some m => match frames m with [] => None | _ :: _ => Some m end
  | None => None
  end.

Definition nframes (m : BM_BufferPool_Mgmt) : nat := length (frames m).

(** The tests of the search loops. *)
Definition holds (m : BM_BufferPool_Mgmt) (p : PageNumber) (i : nat) : bool :=
  pageNum (frame_at m i) =? p.
Definition unfixed (m : BM_BufferPool_Mgmt) (i : nat) : bool :=
  fixCount (frame_at m i) =? 0.

(** The first loop of every routine: the frames from [head] once around. *)
Definition find_page (m : BM_BufferPool_Mgmt) (p : PageNumber) : option (nat + nat) :=
  scan (nframes m) (nframes m) (holds m p) (head m) (head m).

(** ** createPageFrame, initBufferPool *)

(** The new frame goes to the end of the list and becomes [tail]; [head] is
    reset to [start], the first frame.  In the list that was empty the new
    frame is all three. *)
Definition createPageFrame (m : BM_BufferPool_Mgmt) : BM_BufferPool_Mgmt :=
  let newFrame := mkFrame 0 (-1) 0 0 0 (repeat x00 PAGE_SIZE) in
  mkMgmt (occupiedFrameCount m) (frames m ++ [newFrame])
         (start m) (length (frames m)) (start m)
         (getNumReadIO m) (getNumWriteIO m).

Definition initBufferPool (bm : BM_BufferPool) (pageFileName : string)
  (numPages : Z) (strategy : ReplacementStrategy) (w : World)
  : RC * BM_BufferPool * World :=
  let '(status, w) := openPageFile (Some pageFileName) w in
  if negb (rc_is_ok status) then (status, bm, w)
  else
    let m := Nat.iter (Z.to_nat numPages) createPageFrame (mkMgmt 0 [] 0 0 0 0 0) in
    let m := set_tail (head m) m in
    let m := set_occupied 0 m in
    let m := set_reads 0 m in
    let m := set_writes 0 m in
    (RC_OK, mkPool (Some pageFileName) numPages strategy (Some m), closePageFile w).

(** ** forceFlushPool, shutdownBufferPool *)

(** The loop of [forceFlushPool]; a failed write closes the file and
    returns from inside the loop. *)
Fixpoint flush_loop (fuel n : nat) (m : BM_BufferPool_Mgmt) (w : World)
  (currentFrame : nat) : option (RC * BM_BufferPool_Mgmt * World) :=
  match fuel with
  | O => None
  | S fuel' =>
      let f := frame_at m currentFrame in
      let body :=
        if (dirtyFlagSignal f =? 1) && (fixCount f =? 0) then
          let '(rc, w) := writeBlock (pageNum f) (data f) w in
          if rc_is_ok rc then
            let m := upd (set_dirty 0) currentFrame m in
            inr (set_writes (incr (getNumWriteIO m)) m, w)
          else inl (closePageFile w)
        else inr (m, w) in
      match body with
      | inl w => Some (RC_WRITE_FAILED, m, w)
      | inr (m, w) =>
          let currentFrame := next n currentFrame in
          if (currentFrame =? head m)%nat then Some (RC_OK, m, w)
          else flush_loop fuel' n m w currentFrame
      end
  end.

Definition forceFlushPool (bm : BM_BufferPool) (w : World)
  : option (RC * BM_BufferPool * World) :=
  match mgmt_of bm with
  | None => None
  | Some m =>
      let '(rc, w) := openPageFile (pageFile bm) w in
      if negb (rc_is_ok rc) then Some (RC_FILE_NOT_FOUND, bm, w)
      else
        match flush_loop (nframes m) (nframes m) m w (head m) with
        | None => None
        | Some (RC_OK, m, w) => Some (RC_OK, set_mgmt m bm, closePageFile w)
        | Some (rc, m, w) => Some (rc, set_mgmt m bm, w)
        end
  end.

(** [head == NULL] is the pool without frames.  After a successful flush
    every frame and the management record are freed and the pool is reset. *)
Definition shutdownBufferPool (bm : BM_BufferPool) (w : World)
  : option (RC * BM_BufferPool * World) :=
  match mgmtData bm with
  | None => None
  | Some m =>
      match frames m with
      | [] => Some (RC_OK, bm, w)
      | _ :: _ =>
          match forceFlushPool bm w with
          | None => None
          | Some (status, bm, w) =>
              if negb (rc_is_ok status) then Some (status, bm, w)
              else Some (RC_OK, mkPool None 0 (strategy bm) None, w)
          end
      end
  end.

(** ** markDirty, unpinPage, forcePage *)

Definition markDirty (bm : BM_BufferPool) (page : BM_PageHandle)
  : option (RC * BM_BufferPool) :=
  match mgmt_of bm with
  | None => None
  | Some m =>
      match find_page m (ph_pageNum page) with
      | None => None
      | Some (inl frame) => Some (RC_OK, set_mgmt (upd (set_dirty 1) frame m) bm)
      | Some (inr _) => Some (RC_OK, bm)
      end
  end.

Definition unpinPage (bm : BM_BufferPool) (page : BM_PageHandle)
  : option (RC * BM_BufferPool) :=
  match mgmt_of bm with
  | None => None
  | Some m =>
      match find_page m (ph_pageNum page) with
      | None => None
      | Some (inl frame) => Some (RC_OK, set_mgmt (upd fix_down frame m) bm)
      | Some (inr _) => Some (RC_OK, bm)
      end
  end.

Definition forcePage (bm : BM_BufferPool) (page : BM_PageHandle) (w : World)
  : option (RC * BM_BufferPool * World) :=
  match mgmt_of bm with
  | None => None
  | Some m =>
      let '(rc, w) := openPageFile (pageFile bm) w in
      if negb (rc_is_ok rc) then Some (RC_FILE_NOT_FOUND, bm, w)
      else
        let test i := holds m (ph_pageNum page) i
                      && (dirtyFlagSignal (frame_at m i) =? 1) in
        match scan (nframes m) (nframes m) test (head m) (head m) with
        | None => None
        | Some (inl Frame) =>
            let f := frame_at m Frame in
            let '(rc, w) := writeBlock (pageNum f) (data f) w in
            if negb (rc_is_ok rc) then Some (RC_WRITE_FAILED, bm, closePageFile w)
            else
              let m := set_writes (incr (getNumWriteIO m)) m in
              let m := upd (set_dirty 0) Frame m in
              Some (RC_OK, set_mgmt m bm, closePageFile w)
        | Some (inr _) => Some (RC_OK, bm, closePageFile w)
        end
  end.

(** ** The pin routines *)

(** The hit branch common to the three routines:
    [frame->pageNum = pageNum; frame->fixCount++;] *)
Definition rebind (pageNum : PageNumber) (f : PageFrame) : PageFrame :=
  fix_up (set_pageNum pageNum f).

(** The branch for a pool that is not yet full; [ref] is the CLOCK variant,
    which also sets the reference bit. *)
Definition fill_frame (ref : bool) (m : BM_BufferPool_Mgmt) (pageNum : PageNumber)
  : BM_BufferPool_Mgmt * nat :=
  let frame := head m in
  let m := upd (set_pageNum pageNum) frame m in
  let m := if ref then upd (set_referenceBit 1) frame m else m in
  let m := if negb (next (nframes m) frame =? head m)%nat
           then set_head (next (nframes m) frame) m else m in
  let m := upd fix_up frame m in
  let m := set_occupied (incr (occupiedFrameCount m)) m in
  (m, frame).

(** Writing a dirty victim back before it is replaced. *)
Definition write_victim (m : BM_BufferPool_Mgmt) (w : World) (frame : nat)
  : placed + BM_BufferPool_Mgmt * World :=
  let f := frame_at m frame in
  if dirtyFlagSignal f =? 1 then
    let w := ensureCapacity (pageNum f) w in
    let '(rc, w) := writeBlock (pageNum f) (data f) w in
    if negb (rc_is_ok rc) then inl (Abort RC_WRITE_FAILED m (closePageFile w))
    else inr (set_writes (incr (getNumWriteIO m)) m, w)
  else inr (m, w).

(** The end of every routine: [ensureCapacity], [readBlock] into the buffer
    of [frame], the read counter and the handle.  [close_on_failure] is
    false for [pinPageLRU], which returns without closing the file. *)
Definition read_page (close_on_failure : bool) (m : BM_BufferPool_Mgmt)
  (w : World) (frame : nat) (page : BM_PageHandle) (pageNum : PageNumber)
  : RC * BM_BufferPool_Mgmt * BM_PageHandle * World :=
  let w := ensureCapacity (wrap_int (pageNum + 1)) w in
  let '(rc, buf, w) := readBlock pageNum (data (frame_at m frame)) w in
  let m := upd (set_data buf) frame m in
  if negb (rc_is_ok rc) then
    (RC_READ_NON_EXISTING_PAGE, m, page,
     if close_on_failure then closePageFile w else w)
  else
    (RC_OK, set_reads (incr (getNumReadIO m)) m, mkHandle pageNum frame,
     closePageFile w).

Definition finish (close_on_failure : bool) (bm : BM_BufferPool)
  (page : BM_PageHandle) (pageNum : PageNumber) (r : option placed)
  : option (RC * BM_BufferPool * BM_PageHandle * World) :=
  match r with
  | None => None
  | Some (Abort rc m w) => Some (rc, set_mgmt m bm, page, w)
  | Some (Proceed m w frame) =>
      let '(rc, m, page, w) := read_page close_on_failure m w frame page pageNum in
      Some (rc, set_mgmt m bm, page, w)
  end.

(** The replacement branch of [pinPageFIFO]: from [tail] up to [head]. *)
Definition replace_FIFO (m : BM_BufferPool_Mgmt) (w : World) (pageNum : PageNumber)
  : option placed :=
  match scan (nframes m) (nframes m) (unfixed m) (head m) (tail m) with
  | None => None
  | Some (inr frame) => Some (Proceed m w frame)
  | Some (inl frame) =>
      match write_victim m w frame with
      | inl a => Some a
      | inr (m, w) =>
          let m := upd (rebind pageNum) frame m in
          let m := set_tail (next (nframes m) frame) m in
          let m := set_head frame m in
          Some (Proceed m w frame)
      end
  end.

(** The miss of [pinPageFIFO] up to the read: an empty frame while the pool
    is not full, a replacement otherwise. *)
Definition place_FIFO (bm : BM_BufferPool) (m : BM_BufferPool_Mgmt) (w : World)
  (pageNum : PageNumber) : option placed :=
  if occupiedFrameCount m <? numPages bm then
    let '(m, frame) := fill_frame false m pageNum in
    Some (Proceed m w frame)
  else replace_FIFO m w pageNum.

Definition pinPageFIFO (bm : BM_BufferPool) (page : BM_PageHandle)
  (pageNum : PageNumber) (w : World)
  : option (RC * BM_BufferPool * BM_PageHandle * World) :=
  match mgmt_of bm with
  | None => None
  | Some m =>
      let w := snd (openPageFile (pageFile bm) w) in
      match find_page m pageNum with
      | None => None
      | Some (inl frame) =>
          Some (RC_OK, set_mgmt (upd (rebind pageNum) frame m) bm,
                mkHandle pageNum frame, w)
      | Some (inr _) =>
          finish true bm page pageNum (place_FIFO bm m w pageNum)
      end
  end.

(** The replacement branch of [pinPageLRU]: from [tail] once around. *)
Definition replace_LRU (m : BM_BufferPool_Mgmt) (w : World) (pageNum : PageNumber)
  : option placed :=
  match scan (nframes m) (nframes m) (unfixed m) (tail m) (tail m) with
  | None => None
  | Some (inr frame) => Some (Proceed m w frame)
  | Some (inl frame) =>
      match write_victim m w frame with
      | inl a => Some a
      | inr (m, w) =>
          if negb (tail m =? head m)%nat then
            let m := upd (rebind pageNum) frame m in
            let m := set_tail frame m in
            let m := set_tail (next (nframes m) frame) m in
            Some (Proceed m w frame)
          else
            let frame := next (nframes m) frame in
            let m := upd (rebind pageNum) frame m in
            let m := set_tail frame m in
            let m := set_head frame m in
            let m := set_tail (prev (nframes m) frame) m in
            Some (Proceed m w frame)
      end
  end.

Definition place_LRU (bm : BM_BufferPool) (m : BM_BufferPool_Mgmt) (w : World)
  (pageNum : PageNumber) : option placed :=
  if occupiedFrameCount m <? numPages bm then
    let '(m, frame) := fill_frame false m pageNum in
    Some (Proceed m w frame)
  else replace_LRU m w pageNum.

Definition pinPageLRU (bm : BM_BufferPool) (currPage : BM_PageHandle)
  (pageNum : PageNumber) (w : World)
  : option (RC * BM_BufferPool * BM_PageHandle * World) :=
  match mgmt_of bm with
  | None => None
  | Some buffPoolMgmt =>
      let w := snd (openPageFile (pageFile bm) w) in
      match find_page buffPoolMgmt pageNum with
      | None => None
      | Some (inl frame) =>
          let m := upd (rebind pageNum) frame buffPoolMgmt in
          let m := set_tail (next (nframes m) (head m)) m in
          let m := set_head frame m in
          Some (RC_OK, set_mgmt m bm, mkHandle pageNum frame, w)
      | Some (inr _) =>
          finish false bm currPage pageNum (place_LRU bm buffPoolMgmt w pageNum)
      end
  end.

(** The replacement branch of [pinPageCLOCK], a loop from [head]. *)
Fixpoint replace_CLOCK (fuel : nat) (m : BM_BufferPool_Mgmt) (w : World)
  (pageNum : PageNumber) (frame : nat) : option placed :=
  match fuel with
  | O => None
  | S fuel' =>
      if negb (fixCount (frame_at m frame) =? 0) then
        let frame := next (nframes m) frame in
        if (frame =? head m)%nat then Some (Proceed m w frame)
        else replace_CLOCK fuel' m w pageNum frame
      else
        match clock_sweep (nframes m) (nframes m) (frames m) frame with
        | None => None
        | Some (fs, frame) =>
            let m := set_frames fs m in
            if referenceBit (frame_at m frame) =? 0 then
              match write_victim m w frame with
              | inl a => Some a
              | inr (m, w) =>
                  let m := upd (set_referenceBit 1) frame m in
                  let m := upd (rebind pageNum) frame m in
                  let m := set_head (next (nframes m) frame) m in
                  Some (Proceed m w frame)
              end
            else if (frame =? head m)%nat then Some (Proceed m w frame)
            else replace_CLOCK fuel' m w pageNum frame
        end
  end.

Definition place_CLOCK (bm : BM_BufferPool) (m : BM_BufferPool_Mgmt) (w : World)
  (pageNum : PageNumber) : option placed :=
  if occupiedFrameCount m <? numPages bm then
    let '(m, frame) := fill_frame true m pageNum in
    Some (Proceed m w frame)
  else replace_CLOCK (nframes m) m w pageNum (head m).

Definition pinPageCLOCK (bm : BM_BufferPool) (currPage : BM_PageHandle)
  (pageNum : PageNumber) (w : World)
  : option (RC * BM_BufferPool * BM_PageHandle * World) :=
  match mgmt_of bm with
  | None => None
  | Some buffPoolMgmt =>
      let w := snd (openPageFile (pageFile bm) w) in
      match find_page buffPoolMgmt pageNum with
      | None => None
      | Some (inl frame) =>
          let m := upd (set_referenceBit 1) frame buffPoolMgmt in
          let m := upd (rebind pageNum) frame m in
          Some (RC_OK, set_mgmt m bm, mkHandle pageNum frame, w)
      | Some (inr _) =>
          finish true bm currPage pageNum (place_CLOCK bm buffPoolMgmt w pageNum)
      end
  end.

(** The switch of [pinPage]: the routine of the pool's strategy, with the
    code that routine returns; no case, and no effect, for another strategy. *)
Definition pin_switch (bm : BM_BufferPool) (page : BM_PageHandle)
  (pageNum : PageNumber) (w : World)
  : option (RC * BM_BufferPool * BM_PageHandle * World) :=
  match strategy bm with
  | RS_FIFO => pinPageFIFO bm page pageNum w
  | RS_LRU => pinPageLRU bm page pageNum w
  | RS_CLOCK => pinPageCLOCK bm page pageNum w
  | RS_OTHER => Some (RC_OK, bm, page, w)
  end.

(** The placement of the routine [pin_switch] calls; [None] where the
    switch calls no routine. *)
Definition place_switch (bm : BM_BufferPool) (m : BM_BufferPool_Mgmt) (w : World)
  (pageNum : PageNumber) : option placed :=
  match strategy bm with
  | RS_FIFO => place_FIFO bm m w pageNum
  | RS_LRU => place_LRU bm m w pageNum
  | RS_CLOCK => place_CLOCK bm m w pageNum
  | RS_OTHER => None
  end.

(** [pinPage] runs the switch, drops the code of the routine and returns
    [RC_OK]. *)
Definition pinPage (bm : BM_BufferPool) (page : BM_PageHandle)
  (pageNum : PageNumber) (w : World)
  : option (RC * BM_BufferPool * BM_PageHandle * World) :=
  match pin_switch bm page pageNum w with
  | None => None
  | Some (_, bm, page, w) => Some (RC_OK, bm, page, w)
  end.

(** ** Statistics *)

Definition getFrameContents (bm : BM_BufferPool) : option (list PageNumber) :=
  match mgmtData bm with
  | None => None
  | Some m => Some (walk pageNum (frames m) (Z.to_nat (numPages bm)) (start m))
  end.

Definition getDirtyFlags (bm : BM_BufferPool) : option (list bool) :=
  match mgmtData bm with
  | None => None
  | Some m =>
      Some (walk (fun f => negb (dirtyFlagSignal f =? 0)) (frames m)
              (Z.to_nat (numPages bm)) (start m))
  end.

Definition getFixCounts (bm : BM_BufferPool) : option (list Z) :=
  match mgmtData bm with
  | None => None
  | Some m => Some (walk fixCount (frames m) (Z.to_nat (numPages bm)) (start m))
  end.

Definition getNumReadIO' (bm : BM_BufferPool) : option Z :=
  option_map getNumReadIO (mgmtData bm).

Definition getNumWriteIO' (bm : BM_BufferPool) : option Z :=
  option_map getNumWriteIO (mgmtData bm).

(** ** Sessions *)

(** A call of a client; the handle of [Unpin], [Dirty] and [Force] carries
    the page number given.  A pin leaves its page pinned. *)
Inductive call : Type :=
| Pin (p : PageNumber)
| Unpin (p : PageNumber)
| Dirty (p : PageNumber)
| Force (p : PageNumber)
| Flush.

Definition run1 (c : call) (s : BM_BufferPool * World)
  : option (BM_BufferPool * World) :=
  let '(bm, w) := s in
  match c with
  | Pin p =>
      match pinPage bm (mkHandle 0 0) p w with
      | Some (_, bm, _, w) => Some (bm, w)
      | None => None
      end
  | Unpin p =>
      match unpinPage bm (mkHandle p 0) with
      | Some (_, bm) => Some (bm, w)
      | None => None
      end
  | Dirty p =>
      match markDirty bm (mkHandle p 0) with
      | Some (_, bm) => Some (bm, w)
      | None => None
      end
  | Force p =>
      match forcePage bm (mkHandle p 0) w with
      | Some (_, bm, w) => Some (bm, w)
      | None => None
      end
  | Flush =>
      match forceFlushPool bm w with
      | Some (_, bm, w) => Some (bm, w)
      | None => None
      end
  end.

Fixpoint run (cs : list call) (s : BM_BufferPool * World)
  : option (BM_BufferPool * World) :=
  match cs with
  | [] => Some s
  | c :: cs' =>
      match run1 c s with
      | Some s' => run cs' s'
      | None => None
      end
  end.

End BufferManager.

(** ** A storage manager to run the code on *)

(** One page file kept in memory: [Some blocks] while the file is there,
    [None] once it is gone, in which case every call fails.  Block [i] of a
    grown file is zero-filled. *)
Module MemDisk.

Definition page_size : nat := 2.

Definition in_file (p : PageNumber) (blocks : list PageData) : bool :=
  (0 <=? p) && (p <? Z.of_nat (length blocks)).

Definition open (name : option string) (w : option (list PageData))
  : RC * option (list PageData) :=
  match w with
  | Some _ => (RC_OK, w)
  | None => (RC_FILE_NOT_FOUND, w)
  end.

Definition read (p : PageNumber) (buf : PageData) (w : option (list PageData))
  : RC * PageData * option (list PageData) :=
  match w with
  | Some blocks =>
      if in_file p blocks then (RC_OK, blocks !!! Z.to_nat p, w)
      else (RC_READ_NON_EXISTING_PAGE, buf, w)
  | None => (RC_ERROR 2, buf, w)
  end.

Definition write (p : PageNumber) (buf : PageData) (w : option (list PageData))
  : RC * option (list PageData) :=
  match w with
  | Some blocks =>
      if in_file p blocks then (RC_OK, Some (<[Z.to_nat p := buf]> blocks))
      else (RC_WRITE_FAILED, w)
  | None => (RC_ERROR 2, w)
  end.

Definition ensure (k : Z) (w : option (list PageData)) : option (list PageData) :=
  match w with
  | Some blocks =>
      Some (blocks ++ repeat (repeat x00 page_size) (Z.to_nat k - length blocks))
  | None => None
  end.

#[local] Instance mem : StorageMgr := {|
  World := option (list PageData);
  PAGE_SIZE := page_size;
  openPageFile := open;
  closePageFile := fun w => w;
  readBlock := read;
  writeBlock := write;
  ensureCapacity := ensure
|}.

(** A file of six pages; page [i] holds the byte [i] twice. *)
Definition six_pages : option (list PageData) :=
  Some [[x00; x00]; [x01; x01]; [x02; x02]; [x03; x03]; [x04; x04]; [x05; x05]].

(** A fresh pool of [n] frames over the six-page file, then the calls. *)
Definition session (strat : ReplacementStrategy) (n : Z) (cs : list call)
  : option (BM_BufferPool * option (list PageData)) :=
  let '(_, bm, w) :=
    initBufferPool (mkPool None 0 strat None) "test.bin"%string n strat six_pages in
  run cs (bm, w).

(** What the statistics interface shows of a pool. *)
Definition stats (s : option (BM_BufferPool * option (list PageData)))
  : option (list PageNumber * list Z * list bool * Z * Z) :=
  match s with
  | Some (bm, _) =>
      match getFrameContents bm, getFixCounts bm, getDirtyFlags bm,
            getNumReadIO' bm, getNumWriteIO' bm with
      | Some c, Some f, Some d, Some r, Some wr => Some (c, f, d, r, wr)
      | _, _, _, _, _ => None
      end
  | None => None
  end.

(** The buffers of the frames, in creation order. *)
Definition buffers (s : option (BM_BufferPool * option (list PageData)))
  : option (list PageData) :=
  match s with
  | Some (bm, _) => option_map (fun m => map data (frames m)) (mgmtData bm)
  | None => None
  end.

(** The reference bits of the frames, in creation order. *)
Definition reference_bits (s : option (BM_BufferPool * option (list PageData)))
  : option (list Z) :=
  match s with
  | Some (bm, _) => option_map (fun m => map referenceBit (frames m)) (mgmtData bm)
  | None => None
  end.

(** The pool a session ends with, and its management record. *)
Definition pool_after (strat : ReplacementStrategy) (n : Z) (cs : list call)
  : BM_BufferPool :=
  match session strat n cs with
  | Some (bm, _) => bm
  | None => mkPool None 0 strat None
  end.

Definition mgmt_after (strat : ReplacementStrategy) (n : Z) (cs : list call)
  : BM_BufferPool_Mgmt :=
  match mgmtData (pool_after strat n cs) with
  | Some m => m
  | None => mkMgmt 0 [] 0 0 0 0 0
  end.

(** A pool of three frames in which frame 0 holds page 1 with fix count 0. *)
Definition released : BM_BufferPool := Eval vm_compute in
  pool_after RS_FIFO 3 [Pin 1; Unpin 1].
Definition released_m : BM_BufferPool_Mgmt := Eval vm_compute in
  mgmt_after RS_FIFO 3 [Pin 1; Unpin 1].

(** A pool of three frames whose frame 0 is fixed on page 1. *)
Definition in_use : BM_BufferPool := Eval vm_compute in pool_after RS_FIFO 3 [Pin 1].

(** A fresh pool of three frames. *)
Definition fresh : BM_BufferPool := Eval vm_compute in pool_after RS_FIFO 3 [].
Definition fresh_m : BM_BufferPool_Mgmt := Eval vm_compute in mgmt_after RS_FIFO 3 [].

(** The pool of three frames after page 1 was pinned and marked dirty and
    page 2 was pinned, marked dirty and unpinned. *)
Definition two_dirty : BM_BufferPool := Eval vm_compute in
  pool_after RS_FIFO 3 [Pin 1; Dirty 1; Pin 2; Dirty 2; Unpin 2].
Definition two_dirty_m : BM_BufferPool_Mgmt := Eval vm_compute in
  mgmt_after RS_FIFO 3 [Pin 1; Dirty 1; Pin 2; Dirty 2; Unpin 2].

(** The fresh pool after the placement of page 1. *)
Definition fresh_placed : BM_BufferPool_Mgmt := Eval vm_compute in
    match place_switch fresh fresh_m None 1 with
    | Some (Proceed m1 _ _) => m1
    | _ => fresh_m
    end.

End MemDisk.

(** ** Vocabulary of the statements *)

(** The pointers of a live pool point into its ring of frames. *)
Definition well_formed (bm : BM_BufferPool) : bool :=
  match mgmtData bm with
  | Some m =>
      (0 <? length (frames m))%nat && (head m <? length (frames m))%nat
      && (tail m <? length (frames m))%nat
  | None => false
  end.

(** The same, of the management record. *)
Definition wf_mgmt (m : BM_BufferPool_Mgmt) : Prop :=
  (0 < nframes m /\ head m < nframes m /\ tail m < nframes m)%nat.

(** The frame reached from [frame] by following [next] [k] times. *)
Definition hop (n k frame : nat) : nat := Nat.iter k (next n) frame.

(** The number of [next] steps, at least one, that lead from [frame] to [stop]. *)
Definition dist (n frame stop : nat) : nat :=
  if (frame <? stop)%nat then (stop - frame)%nat else (n + stop - frame)%nat.

(** The page [p] sits in frame [f] and in no other frame. *)
Definition resident_in (m : BM_BufferPool_Mgmt) (p : PageNumber) (f : nat) : Prop :=
  (f < nframes m)%nat /\ pageNum (frame_at m f) = p
  /\ forall g, (g < nframes m)%nat -> pageNum (frame_at m g) = p -> g = f.

(** A frame that a flush has to write: occupied, not fixed, dirty. *)
Definition flushable (f : PageFrame) : bool :=
  negb (pageNum f =? NO_PAGE) && (fixCount f =? 0) && (dirtyFlagSignal f =? 1).

(** A frame is in order when it is occupied or clean. *)
Definition frame_ok (f : PageFrame) : bool :=
  negb (pageNum f =? NO_PAGE) || (dirtyFlagSignal f =? 0).

(** No empty frame carries the dirty flag. *)
Definition clean_when_empty (m : BM_BufferPool_Mgmt) : bool :=
  forallb frame_ok (frames m).

(** The state of a pool between two calls: live, its pointers in the
    ring, its empty frames clean. *)
Definition inv (m : BM_BufferPool_Mgmt) : Prop :=
  wf_mgmt m /\ clean_when_empty m = true.

Definition pool_inv (bm : BM_BufferPool) : bool :=
  well_formed bm
  && match mgmtData bm with
     | Some m => clean_when_empty m
     | None => false
     end.

(** A call whose page number is one a page can have. *)
Definition valid_call (c : call) : bool :=
  match c with
  | Pin p | Unpin p | Dirty p | Force p => 0 <=? p
  | Flush => true
  end.

(** The frames of a ring of [n] in the order a loop from [h] meets them. *)
Definition ring_order (n h : nat) : list nat :=
  map (fun j => hop n j h) (seq 0 n).

(** The flushable frames of a pool, in the order from [head]. *)
Definition flush_order (m : BM_BufferPool_Mgmt) : list nat :=
  List.filter (fun g => flushable (frame_at m g))
              (ring_order (nframes m) (head m)).

(** Writing the given frames to disk one after the other, up to the first
    write that fails: the number of writes that succeeded and the world
    after the last write tried. *)
Fixpoint write_back {SM : StorageMgr} (fs : list PageFrame) (w : World)
  : nat * World :=
  match fs with
  | [] => (O, w)
  | f :: fs' =>
      let '(rc, w) := writeBlock (pageNum f) (data f) w in
      if rc_is_ok rc then
        let '(k, w) := write_back fs' w in (S k, w)
      else (O, w)
  end.

(** Clearing the dirty flag of the frames [gs], in that order. *)
Definition clear_all (gs : list nat) (fs : list PageFrame) : list PageFrame :=
  foldl (fun fs g => alter (set_dirty 0) g fs) fs gs.

(** The test the loop of [forceFlushPool] applies to a frame. *)
Definition loop_test (f : PageFrame) : bool :=
  (dirtyFlagSignal f =? 1) && (fixCount f =? 0).

(** The pool after the first [c] frames of [todo] have been written: their
    dirty flags are cleared and the write counter has gone up [c] times. *)
Definition flushed (c : nat) (todo : list nat) (m : BM_BufferPool_Mgmt) :=
  set_writes (Nat.iter c incr (getNumWriteIO m))
             (set_frames (clear_all (take c todo) (frames m)) m).

(** What a placement leaves behind when the routine goes on to the read:
    the read counter is as before and either the page has been bound to a
    frame [f], whose fix count went up, or no frame changed its page. *)
Definition placement_of (p : PageNumber) (m m1 : BM_BufferPool_Mgmt) : Prop :=
  getNumReadIO m1 = getNumReadIO m
  /\ ((exists f, (f < nframes m)%nat /\ pageNum (frame_at m1 f) = p
                 /\ fixCount (frame_at m1 f) = incr (fixCount (frame_at m f)))
      \/ (forall g, pageNum (frame_at m1 g) = pageNum (frame_at m g))).

(** What a placement has to hand on: a pool in order and a pointer into
    its ring. *)
Definition placed_inv {SM : StorageMgr} (r : placed) : Prop :=
  match r with
  | Abort _ m _ => inv m
  | Proceed m _ frame => inv m /\ (frame < nframes m)%nat
  end.

(** The page numbers of the frames, in creation order. *)
Definition pages (m : BM_BufferPool_Mgmt) : list PageNumber :=
  map pageNum (frames m).

(** No page number other than [NO_PAGE] occurs twice. *)
Definition distinct_pages (l : list PageNumber) : Prop :=
  forall i j x, l !! i = Some x -> l !! j = Some x -> x <> NO_PAGE -> i = j.

(** What a pin leaves of the page numbers: all as they were, or the
    requested page, which no frame held, in the place of one of them. *)
Definition pages_after (p : PageNumber) (m m' : BM_BufferPool_Mgmt) : Prop :=
  pages m' = pages m
  \/ ((forall i, pages m !! i <> Some p)
      /\ exists f, pages m' = <[f:=p]> (pages m)).

(** The page numbers a placement hands on, after a miss. *)
Definition placed_pages {SM : StorageMgr} (p : PageNumber)
  (m : BM_BufferPool_Mgmt) (r : placed) : Prop :=
  match r with
  | Abort _ m' _ => pages m' = pages m
  | Proceed m' _ _ => pages m' = pages m \/ exists f, pages m' = <[f:=p]> (pages m)
  end.

(** ** Vocabulary of the further properties *)

(** The fix counts, dirty flags and buffers of the frames, in creation
    order. *)
Definition fix_counts (m : BM_BufferPool_Mgmt) : list Z := map fixCount (frames m).
Definition dirty_flags (m : BM_BufferPool_Mgmt) : list Z :=
  map dirtyFlagSignal (frames m).
Definition page_buffers (m : BM_BufferPool_Mgmt) : list PageData :=
  map data (frames m).

(** No frame of the pool holds page [p]. *)
Definition no_holder (m : BM_BufferPool_Mgmt) (p : PageNumber) : Prop :=
  forall g, (g < nframes m)%nat -> pageNum (frame_at m g) <> p.

(** The ring has the size the pool records, and the statistics start at
    the first frame. *)
Definition shaped (bm : BM_BufferPool) (m : BM_BufferPool_Mgmt) : Prop :=
  start m = 0%nat /\ numPages bm = Z.of_nat (nframes m).

(** What a pin that fails on the write of its victim leaves of the pool:
    everything but the reference bits. *)
Definition quiet (m m' : BM_BufferPool_Mgmt) : Prop :=
  pages m' = pages m /\ fix_counts m' = fix_counts m
  /\ dirty_flags m' = dirty_flags m /\ page_buffers m' = page_buffers m
  /\ occupiedFrameCount m' = occupiedFrameCount m
  /\ getNumReadIO m' = getNumReadIO m /\ getNumWriteIO m' = getNumWriteIO m
  /\ head m' = head m /\ tail m' = tail m /\ start m' = start m.

(** No frame carries the dirty flag 1. *)
Definition all_clean (m : BM_BufferPool_Mgmt) : Prop :=
  forall d, In d (dirty_flags m) -> d <> 1.

(** What a placement does besides binding the page. *)
Definition placed_effect {SM : StorageMgr} (m : BM_BufferPool_Mgmt) (r : placed)
  : Prop :=
  match r with
  | Abort rc m' _ => rc = RC_WRITE_FAILED /\ quiet m m'
  | Proceed m' _ _ =>
      dirty_flags m' = dirty_flags m /\ page_buffers m' = page_buffers m
      /\ start m' = start m /\ length (frames m') = length (frames m)
      /\ getNumReadIO m' = getNumReadIO m
      /\ (getNumWriteIO m' = getNumWriteIO m
          \/ getNumWriteIO m' = incr (getNumWriteIO m))
      /\ (all_clean m -> getNumWriteIO m' = getNumWriteIO m)
  end.

(** What a pin does to the pool besides page numbers and fix counts. *)
Definition pin_effect (rc : RC) (m m' : BM_BufferPool_Mgmt) : Prop :=
  dirty_flags m' = dirty_flags m
  /\ start m' = start m /\ length (frames m') = length (frames m)
  /\ (getNumWriteIO m' = getNumWriteIO m
      \/ getNumWriteIO m' = incr (getNumWriteIO m))
  /\ (all_clean m -> getNumWriteIO m' = getNumWriteIO m)
  /\ (getNumReadIO m' = getNumReadIO m
      \/ (rc = RC_OK /\ getNumReadIO m' = incr (getNumReadIO m)))
  /\ (rc = RC_WRITE_FAILED -> quiet m m').

(** The page [p] has taken the frame [g]: it is bound there with one more
    fix, the dirty flag of [g] is what it was, and every other frame has
    its page, fix count, dirty flag and buffer as before. *)
Definition takes_frame (p : PageNumber) (g : nat) (m m' : BM_BufferPool_Mgmt) : Prop :=
  pageNum (frame_at m' g) = p
  /\ fixCount (frame_at m' g) = incr (fixCount (frame_at m g))
  /\ dirtyFlagSignal (frame_at m' g) = dirtyFlagSignal (frame_at m g)
  /\ forall g', g' <> g ->
       pageNum (frame_at m' g') = pageNum (frame_at m g')
       /\ fixCount (frame_at m' g') = fixCount (frame_at m g')
       /\ dirtyFlagSignal (frame_at m' g') = dirtyFlagSignal (frame_at m g')
       /\ data (frame_at m' g') = data (frame_at m g').

(** The pool a placement hands on. *)
Definition placed_mgmt {SM : StorageMgr} (r : placed) : BM_BufferPool_Mgmt :=
  match r with
  | Abort _ m _ => m
  | Proceed m _ _ => m
  end.

(** The occupied frames are the first [occupiedFrameCount] frames in
    creation order, and while there is an empty frame [head] points to the
    first of them. *)
Definition filled_in_order (m : BM_BufferPool_Mgmt) : Prop :=
  exists k : nat,
    occupiedFrameCount m = Z.of_nat k /\ (k <= nframes m)%nat
    /\ ((k < nframes m)%nat -> head m = k)
    /\ forall g, (g < nframes m)%nat ->
         (pageNum (frame_at m g) = NO_PAGE <-> (k <= g)%nat).

(** The frames that the replacement of a strategy looks at for a fix
    count of 0, in the order of its loop: FIFO from [tail] up to the frame
    before [head], LRU from [tail] once around, CLOCK from [head] once
    around. *)
Definition search_path (bm : BM_BufferPool) (m : BM_BufferPool_Mgmt) : list nat :=
  match strategy bm with
  | RS_FIFO =>
      map (fun j => hop (nframes m) j (tail m))
          (seq 0 (dist (nframes m) (tail m) (head m)))
  | RS_LRU => ring_order (nframes m) (tail m)
  | RS_CLOCK => ring_order (nframes m) (head m)
  | RS_OTHER => []
  end.

(** The search meets a frame with fix count 0. *)
Definition victim_found (bm : BM_BufferPool) (m : BM_BufferPool_Mgmt) : bool :=
  existsb (unfixed m) (search_path bm m).

(** ** Pools of the further runs *)

(** The pool [two_dirty] after a flush, and after a pin of page 3. *)
Definition two_dirty_flushed : BM_BufferPool := Eval vm_compute in
  MemDisk.pool_after RS_FIFO 3 [Pin 1; Dirty 1; Pin 2; Dirty 2; Unpin 2; Flush].
Definition two_dirty_pinned : BM_BufferPool := Eval vm_compute in
  MemDisk.pool_after RS_FIFO 3 [Pin 1; Dirty 1; Pin 2; Dirty 2; Unpin 2; Pin 3].

(** A full FIFO pool of two frames, none fixed, page 1 in frame 0 dirty;
    and the same pool after a pin of page 3. *)
Definition dirty_full : BM_BufferPool := Eval vm_compute in
  MemDisk.pool_after RS_FIFO 2 [Pin 1; Dirty 1; Unpin 1; Pin 2; Unpin 2].
Definition dirty_full_m : BM_BufferPool_Mgmt := Eval vm_compute in
  MemDisk.mgmt_after RS_FIFO 2 [Pin 1; Dirty 1; Unpin 1; Pin 2; Unpin 2].
Definition dirty_full_pinned : BM_BufferPool := Eval vm_compute in
  MemDisk.pool_after RS_FIFO 2 [Pin 1; Dirty 1; Unpin 1; Pin 2; Unpin 2; Pin 3].

(** The same calls under LRU: [tail] and [head] are both frame 0. *)
Definition lru_full : BM_BufferPool := Eval vm_compute in
  MemDisk.pool_after RS_LRU 2 [Pin 1; Dirty 1; Unpin 1; Pin 2; Unpin 2].
Definition lru_full_m : BM_BufferPool_Mgmt := Eval vm_compute in
  MemDisk.mgmt_after RS_LRU 2 [Pin 1; Dirty 1; Unpin 1; Pin 2; Unpin 2].

(** A full CLOCK pool of three frames, none fixed, all reference bits set. *)
Definition clock_full : BM_BufferPool := Eval vm_compute in
  MemDisk.pool_after RS_CLOCK 3 [Pin 1; Unpin 1; Pin 2; Unpin 2; Pin 3; Unpin 3].
Definition clock_full_m : BM_BufferPool_Mgmt := Eval vm_compute in
  MemDisk.mgmt_after RS_CLOCK 3 [Pin 1; Unpin 1; Pin 2; Unpin 2; Pin 3; Unpin 3].

(** A CLOCK pool of three frames with the reference bits 1, 1 and 0. *)
Definition clock_two_m : BM_BufferPool_Mgmt := Eval vm_compute in
  MemDisk.mgmt_after RS_CLOCK 3 [Pin 1; Unpin 1; Pin 2; Unpin 2].

(** A full FIFO pool of three frames, all fixed. *)
Definition all_fixed : BM_BufferPool := Eval vm_compute in
  MemDisk.pool_after RS_FIFO 3 [Pin 1; Pin 2; Pin 3].
Definition all_fixed_m : BM_BufferPool_Mgmt := Eval vm_compute in
  MemDisk.mgmt_after RS_FIFO 3 [Pin 1; Pin 2; Pin 3].

(** A full FIFO pool of two frames, none fixed, none dirty, and what its
    replacement hands to the read when page 3 is asked for. *)
Definition clean_full : BM_BufferPool := Eval vm_compute in
  MemDisk.pool_after RS_FIFO 2 [Pin 1; Unpin 1; Pin 2; Unpin 2].
Definition clean_full_m : BM_BufferPool_Mgmt := Eval vm_compute in
  MemDisk.mgmt_after RS_FIFO 2 [Pin 1; Unpin 1; Pin 2; Unpin 2].
Definition clean_full_placed : BM_BufferPool_Mgmt := Eval vm_compute in
  match place_switch (SM := MemDisk.mem) clean_full clean_full_m None 3 with
  | Some (Proceed m1 _ _) => m1
  | _ => clean_full_m
  end.

(** * Properties *)

(** ** The ring *)

Section Ring.

Local Open Scope nat_scope.

Variable n : nat.
Hypothesis n_pos : 0 < n.

Lemma next_lt (i : nat) : next n i < n.
Proof. unfold next. destruct (Nat.ltb_spec (S i) n); lia. Qed.

Lemma hop_S (k frame : nat) : hop n (S k) frame = hop n k (next n frame).
Proof. unfold hop. now rewrite Nat.iter_succ_r. Qed.

Lemma hop_closed (k frame : nat) :
  frame < n -> k <= n ->
  hop n k frame = if frame + k <? n then frame + k else frame + k - n.
Proof.
  intros Hf. induction k as [|k IH]; intros Hk.
  - unfold hop, Nat.iter. cbn [nat_rect]. destruct (Nat.ltb_spec (frame + 0) n); lia.
  - unfold hop in *. rewrite Nat.iter_succ, IH by lia. unfold next.
    destruct (Nat.ltb_spec (frame + k) n);
      repeat match goal with |- context [?a <? ?b] => destruct (Nat.ltb_spec a b) end; lia.
Qed.

Lemma hop_lt (k frame : nat) : frame < n -> hop n k frame < n.
Proof.
  intros Hf. destruct k as [|k]; [exact Hf|].
  unfold hop. rewrite Nat.iter_succ. apply next_lt.
Qed.

Lemma hop_reaches (frame g : nat) :
  frame < n -> g < n -> exists j, j < n /\ hop n j frame = g.
Proof.
  intros Hf Hg.
  exists (if frame <=? g then g - frame else n + g - frame).
  destruct (Nat.leb_spec frame g).
  - split; [lia|]. rewrite hop_closed by lia.
    destruct (Nat.ltb_spec (frame + (g - frame)) n); lia.
  - split; [lia|]. rewrite hop_closed by lia.
    destruct (Nat.ltb_spec (frame + (n + g - frame)) n); lia.
Qed.

Lemma hop_inj (i j frame : nat) :
  frame < n -> i < n -> j < n -> hop n i frame = hop n j frame -> i = j.
Proof.
  intros Hf Hi Hj. rewrite !hop_closed by lia.
  repeat match goal with |- context [?a <? ?b] => destruct (Nat.ltb_spec a b) end; lia.
Qed.

Lemma hop_full (frame : nat) : frame < n -> hop n n frame = frame.
Proof.
  intros Hf. rewrite hop_closed by lia.
  destruct (Nat.ltb_spec (frame + n) n); lia.
Qed.

Lemma dist_bounds (frame stop : nat) :
  frame < n -> stop < n -> 1 <= dist n frame stop <= n.
Proof. intros. unfold dist. destruct (Nat.ltb_spec frame stop); lia. Qed.

Lemma dist_self (frame : nat) : frame < n -> dist n frame frame = n.
Proof. intros. unfold dist. destruct (Nat.ltb_spec frame frame); lia. Qed.

Lemma dist_next (frame stop : nat) :
  frame < n -> stop < n ->
  (next n frame = stop /\ dist n frame stop = 1)
  \/ (next n frame <> stop /\ dist n frame stop = S (dist n (next n frame) stop)).
Proof.
  intros. unfold dist, next.
  repeat match goal with |- context [?a <? ?b] => destruct (Nat.ltb_spec a b) end; lia.
Qed.

(** What a search loop returns, given fuel for the way to [stop]: it leaves
    at the first frame on that way that passes the test, or it runs through
    to [stop] past frames that all fail it. *)
Lemma scan_spec (test : nat -> bool) (stop : nat) :
  stop < n ->
  forall fuel frame,
    frame < n -> dist n frame stop <= fuel ->
    (exists k, k < dist n frame stop
       /\ scan fuel n test stop frame = Some (inl (hop n k frame))
       /\ test (hop n k frame) = true
       /\ forall j, j < k -> test (hop n j frame) = false)
    \/ (scan fuel n test stop frame = Some (inr stop)
        /\ forall j, j < dist n frame stop -> test (hop n j frame) = false).
Proof.
  intros Hstop. induction fuel as [|fuel IH]; intros frame Hf Hd.
  - pose proof (dist_bounds frame stop Hf Hstop). lia.
  - cbn [scan]. destruct (test frame) eqn:Ht.
    + left. exists 0. pose proof (dist_bounds frame stop Hf Hstop).
      repeat split; [lia | exact Ht | intros; lia].
    + destruct (dist_next frame stop Hf Hstop) as [[Hn Hd1]|[Hn Hd1]].
      * right. rewrite Hn, Nat.eqb_refl. split; [reflexivity|].
        intros j Hj. assert (j = 0) by lia. subst j. exact Ht.
      * apply Nat.eqb_neq in Hn as Hn'. rewrite Hn'.
        pose proof (next_lt frame) as Hnl.
        destruct (IH (next n frame) Hnl ltac:(lia))
          as [(k & Hk & Hs & Htk & Hbefore)|(Hs & Hall)].
        -- left. exists (S k). rewrite hop_S. repeat split; [lia|exact Hs|exact Htk|].
           intros [|j] Hj; [exact Ht|]. rewrite hop_S. apply Hbefore. lia.
        -- right. split; [exact Hs|].
           intros [|j] Hj; [exact Ht|]. rewrite hop_S. apply Hall. lia.
Qed.

End Ring.

(** ** Frames behind pointers *)

Lemma well_formed_mgmt (bm : BM_BufferPool) :
  well_formed bm = true ->
  exists m, mgmtData bm = Some m /\ mgmt_of bm = Some m /\ wf_mgmt m.
Proof.
  unfold well_formed, mgmt_of, wf_mgmt, nframes.
  destruct (mgmtData bm) as [m|]; [|discriminate].
  intros H. apply andb_prop in H as [H Ht]. apply andb_prop in H as [Hn Hh].
  apply Nat.ltb_lt in Hn, Hh, Ht.
  exists m. destruct (frames m); [cbn in Hn; lia|]. auto.
Qed.

Lemma frame_at_upd_eq (g : PageFrame -> PageFrame) (m : BM_BufferPool_Mgmt) (i : nat) :
  (i < nframes m)%nat -> frame_at (upd g i m) i = g (frame_at m i).
Proof. intros. unfold frame_at, upd. cbn. now apply list_lookup_total_alter_eq. Qed.

Lemma frame_at_upd_ne (g : PageFrame -> PageFrame) (m : BM_BufferPool_Mgmt) (i j : nat) :
  i <> j -> frame_at (upd g i m) j = frame_at m j.
Proof. intros. unfold frame_at, upd. cbn. now apply list_lookup_total_alter_ne. Qed.

Lemma nframes_upd (g : PageFrame -> PageFrame) (m : BM_BufferPool_Mgmt) (i : nat) :
  nframes (upd g i m) = nframes m.
Proof. unfold nframes, upd. cbn. apply length_alter. Qed.

(** ** Every loop comes to an end *)

Lemma find_page_total (m : BM_BufferPool_Mgmt) (p : PageNumber) :
  wf_mgmt m ->
  (exists frame, find_page m p = Some (inl frame) /\ (frame < nframes m)%nat
                 /\ pageNum (frame_at m frame) = p)
  \/ (find_page m p = Some (inr (head m))
      /\ forall g, (g < nframes m)%nat -> pageNum (frame_at m g) <> p).
Proof.
  intros (Hn & Hh & Ht). unfold find_page.
  destruct (scan_spec (nframes m) Hn (holds m p) (head m) Hh (nframes m) (head m) Hh)
    as [(k & Hk & Hs & Htest & _)|(Hs & Hall)].
  - rewrite dist_self; lia.
  - left. exists (hop (nframes m) k (head m)). split; [exact Hs|].
    split; [now apply hop_lt|]. unfold holds in Htest. now apply Z.eqb_eq in Htest.
  - right. split; [exact Hs|]. intros g Hg.
    destruct (hop_reaches (nframes m) Hn (head m) g Hh Hg) as (j & Hj & <-).
    rewrite dist_self in Hall by lia. specialize (Hall j Hj).
    unfold holds in Hall. now apply Z.eqb_neq in Hall.
Qed.

Lemma clock_sweep_total_gen (n : nat) (s : nat) :
  (0 < n)%nat -> (s < n)%nat ->
  forall fuel k fs,
    (k + fuel = n)%nat -> length fs = n ->
    (forall j, (j < k)%nat -> referenceBit (fs !!! hop n j s) = 0) ->
    exists fs' frame',
      clock_sweep fuel n fs (hop n k s) = Some (fs', frame')
      /\ length fs' = n /\ (frame' < n)%nat /\ referenceBit (fs' !!! frame') = 0.
Proof.
  intros Hn Hs. induction fuel as [|fuel IH]; intros k fs Hk Hlen Hclear.
  - assert (k = n) by lia. subst k. rewrite hop_full by assumption.
    cbn [clock_sweep]. specialize (Hclear 0%nat Hn). cbn in Hclear.
    rewrite Hclear. cbn. exists fs, s. auto.
  - cbn [clock_sweep].
    destruct (referenceBit (fs !!! hop n k s) =? 0) eqn:Href; cbn [negb].
    + exists fs, (hop n k s). apply Z.eqb_eq in Href.
      repeat split; [exact Hlen|now apply hop_lt|exact Href].
    + replace (next n (hop n k s)) with (hop n (S k) s)
        by (unfold hop; now rewrite Nat.iter_succ).
      apply IH; [lia|now rewrite length_alter|].
      intros j Hj. destruct (Nat.eq_dec j k) as [->|Hne].
      * rewrite list_lookup_total_alter_eq; [reflexivity|].
        rewrite Hlen. now apply hop_lt.
      * rewrite list_lookup_total_alter_ne; [apply Hclear; lia|].
        intros Heq. apply hop_inj in Heq; lia.
Qed.

Lemma clock_sweep_total (fs : list PageFrame) (frame : nat) :
  (frame < length fs)%nat ->
  exists fs' frame',
    clock_sweep (length fs) (length fs) fs frame = Some (fs', frame')
    /\ length fs' = length fs /\ (frame' < length fs)%nat
    /\ referenceBit (fs' !!! frame') = 0.
Proof.
  intros Hf.
  apply (clock_sweep_total_gen (length fs) frame ltac:(lia) Hf (length fs) 0%nat fs);
    [lia|reflexivity|intros; lia].
Qed.

Section Totality.

Context {SM : StorageMgr}.

Lemma replace_FIFO_total (m : BM_BufferPool_Mgmt) (w : World) (p : PageNumber) :
  wf_mgmt m -> exists r, replace_FIFO m w p = Some r.
Proof.
  intros (Hn & Hh & Ht). unfold replace_FIFO.
  pose proof (dist_bounds (nframes m) Hn (tail m) (head m) Ht Hh) as Hd.
  destruct (scan_spec (nframes m) Hn (unfixed m) (head m) Hh (nframes m) (tail m) Ht)
    as [(k & _ & -> & _)|(-> & _)]; [lia| |eauto].
  destruct (write_victim m w _) as [a|[m' w']]; eauto.
Qed.

Lemma replace_LRU_total (m : BM_BufferPool_Mgmt) (w : World) (p : PageNumber) :
  wf_mgmt m -> exists r, replace_LRU m w p = Some r.
Proof.
  intros (Hn & Hh & Ht). unfold replace_LRU.
  pose proof (dist_bounds (nframes m) Hn (tail m) (tail m) Ht Ht) as Hd.
  destruct (scan_spec (nframes m) Hn (unfixed m) (tail m) Ht (nframes m) (tail m) Ht)
    as [(k & _ & -> & _)|(-> & _)]; [lia| |eauto].
  destruct (write_victim m w _) as [a|[m' w']]; [eauto|].
  destruct (negb _); eauto.
Qed.

Lemma replace_CLOCK_total (m : BM_BufferPool_Mgmt) (w : World) (p : PageNumber) :
  wf_mgmt m ->
  forall fuel frame,
    (frame < nframes m)%nat -> (dist (nframes m) frame (head m) <= fuel)%nat ->
    exists r, replace_CLOCK fuel m w p frame = Some r.
Proof.
  intros (Hn & Hh & Ht). induction fuel as [|fuel IH]; intros frame Hf Hd.
  - pose proof (dist_bounds (nframes m) Hn frame (head m) Hf Hh). lia.
  - cbn [replace_CLOCK]. destruct (negb (fixCount (frame_at m frame) =? 0)).
    + destruct (dist_next (nframes m) Hn frame (head m) Hf Hh) as [[He _]|[Hne Hd']].
      * apply Nat.eqb_eq in He. rewrite He. eauto.
      * apply Nat.eqb_neq in Hne as Hne'. rewrite Hne'.
        apply IH; [now apply next_lt|lia].
    + destruct (clock_sweep_total (frames m) frame Hf) as (fs' & frame' & Hs & _ & _ & Hr).
      unfold nframes. rewrite Hs. unfold frame_at at 1. cbn [frames set_frames].
      rewrite Hr. cbn.
      destruct (write_victim _ w frame') as [a|[m' w']]; eauto.
Qed.

End Totality.

(** ** pinPage *)

Section PinPage.

Context {SM : StorageMgr}.

Lemma finish_total (c : bool) (bm : BM_BufferPool) (page : BM_PageHandle)
  (p : PageNumber) (r : option placed) :
  (exists x, r = Some x) -> exists out, finish c bm page p r = Some out.
Proof.
  intros [[rc m w|m w frame] ->]; cbn; [eauto|].
  destruct (read_page c m w frame page p) as [[[rc m'] page'] w']. eauto.
Qed.

Lemma pin_switch_total (bm : BM_BufferPool) (page : BM_PageHandle)
  (p : PageNumber) (w : World) :
  well_formed bm = true -> exists out, pin_switch bm page p w = Some out.
Proof.
  intros Hwf. destruct (well_formed_mgmt bm Hwf) as (m & _ & Hm & Hw).
  unfold pin_switch, pinPageFIFO, pinPageLRU, pinPageCLOCK. rewrite Hm.
  destruct (find_page_total m p Hw) as [(frame & -> & _)|(-> & _)];
    destruct (strategy bm); eauto; apply finish_total;
    unfold place_FIFO, place_LRU, place_CLOCK;
    destruct (occupiedFrameCount m <? numPages bm);
    try (destruct (fill_frame _ m p); eauto).
  - now apply replace_FIFO_total.
  - now apply replace_LRU_total.
  - destruct Hw as (Hn & Hh & Ht). apply replace_CLOCK_total; [easy|easy|].
    rewrite dist_self; lia.
Qed.

(** C10. On a live pool with its pointers in the ring, [pinPage] comes back
    with [RC_OK], whatever the page number, the handle and the state of the
    disk: the routine it dispatches to produces some code [rc], and
    [pinPage] hands on the pool, handle and world of that routine with
    [RC_OK] in the place of [rc]. *)
Theorem pinPage_always_OK (bm : BM_BufferPool) (page : BM_PageHandle)
  (pageNum : PageNumber) (w : World) :
  well_formed bm = true ->
  exists rc bm' page' w',
    pin_switch bm page pageNum w = Some (rc, bm', page', w')
    /\ pinPage bm page pageNum w = Some (RC_OK, bm', page', w').
Proof.
  intros Hwf.
  destruct (pin_switch_total bm page pageNum w Hwf) as [[[[rc bm'] page'] w'] H].
  exists rc, bm', page', w'. split; [exact H|].
  unfold pinPage. now rewrite H.
Qed.

End PinPage.

(** ** int arithmetic *)

Lemma incr_no_overflow (z : Z) : INT_MIN <= z < INT_MAX -> incr z = z + 1.
Proof.
  unfold incr, wrap_int, INT_MIN, INT_MAX. intros H.
  rewrite Z.mod_small; lia.
Qed.

Lemma decr_no_overflow (z : Z) : INT_MIN < z <= INT_MAX -> decr z = z - 1.
Proof.
  unfold decr, wrap_int, INT_MIN, INT_MAX. intros H.
  rewrite Z.mod_small; lia.
Qed.

(** ** The hit path *)

Lemma find_page_resident (m : BM_BufferPool_Mgmt) (p : PageNumber) (f : nat) :
  wf_mgmt m -> resident_in m p f -> find_page m p = Some (inl f).
Proof.
  intros Hw (Hf & Hp & Huniq).
  destruct (find_page_total m p Hw) as [(g & Hs & Hg & Hgp)|(_ & Hnone)].
  - now rewrite Hs, (Huniq g Hg Hgp).
  - now destruct (Hnone f Hf).
Qed.

Section Hit.

Context {SM : StorageMgr}.

(** C8. Pinning a page that is resident in frame [f] (and in no other
    frame) gives the handle [(p, buffer of f)], adds one to the fix count of
    [f] and returns [RC_OK]; the read and write counters, the dirty flag and
    the buffer of [f], and all other frames, are as before.  This holds for
    each of the three strategies. *)
Theorem pin_resident_page (bm : BM_BufferPool) (page : BM_PageHandle)
  (p : PageNumber) (w : World) (m : BM_BufferPool_Mgmt) (f : nat) :
  well_formed bm = true ->
  mgmtData bm = Some m ->
  strategy bm <> RS_OTHER ->
  resident_in m p f ->
  INT_MIN <= fixCount (frame_at m f) < INT_MAX ->
  exists m' w',
    pinPage bm page p w = Some (RC_OK, set_mgmt m' bm, mkHandle p f, w')
    /\ fixCount (frame_at m' f) = fixCount (frame_at m f) + 1
    /\ pageNum (frame_at m' f) = p
    /\ dirtyFlagSignal (frame_at m' f) = dirtyFlagSignal (frame_at m f)
    /\ data (frame_at m' f) = data (frame_at m f)
    /\ getNumReadIO m' = getNumReadIO m
    /\ getNumWriteIO m' = getNumWriteIO m
    /\ occupiedFrameCount m' = occupiedFrameCount m
    /\ forall g, g <> f -> frame_at m' g = frame_at m g.
Proof.
  intros Hwf Hm Hstrat Hres Hfix.
  destruct (well_formed_mgmt bm Hwf) as (m0 & Hm0 & Hmo & Hw).
  assert (m0 = m) by congruence. subst m0.
  pose proof (find_page_resident m p f Hw Hres) as Hfind.
  destruct Hres as (Hf & Hp & _).
  unfold pinPage, pin_switch, pinPageFIFO, pinPageLRU, pinPageCLOCK.
  rewrite Hmo, Hfind.
  destruct (strategy bm); [| | |congruence]; eexists; eexists;
    (split; [reflexivity|]); cbn [getNumReadIO getNumWriteIO occupiedFrameCount
      upd set_frames set_tail set_head];
    unfold frame_at; cbn [frames upd set_frames set_tail set_head];
    rewrite ?list_lookup_total_alter_eq
      by (rewrite ?length_alter; exact Hf);
    unfold rebind, fix_up; cbn;
    rewrite incr_no_overflow by exact Hfix;
    repeat split; try reflexivity;
    intros g Hg; rewrite ?list_lookup_total_alter_ne by congruence; reflexivity.
Qed.

End Hit.

(** ** forceFlushPool *)

Lemma next_hop_head (n h k : nat) :
  (h < n)%nat -> (k < n)%nat ->
  (next n (hop n k h) =? h)%nat = (S k =? n)%nat.
Proof.
  intros Hh Hk.
  replace (next n (hop n k h)) with (hop n (S k) h)
    by (unfold hop; now rewrite Nat.iter_succ).
  rewrite hop_closed by lia.
  destruct (Nat.ltb_spec (h + S k) n), (Nat.eqb_spec (S k) n);
    try apply Nat.eqb_neq; try apply Nat.eqb_eq; lia.
Qed.

Lemma clear_all_other (gs : list nat) (fs : list PageFrame) (g : nat) :
  ~ In g gs -> clear_all gs fs !!! g = fs !!! g.
Proof.
  revert fs. induction gs as [|a gs IH]; intros fs Hin; [reflexivity|].
  cbn [clear_all foldl]. fold (clear_all gs (alter (set_dirty 0) a fs)).
  rewrite IH by (intros H; apply Hin; now right).
  apply list_lookup_total_alter_ne. intros ->. apply Hin. now left.
Qed.

Lemma clear_all_length (gs : list nat) (fs : list PageFrame) :
  length (clear_all gs fs) = length fs.
Proof.
  revert fs. induction gs as [|a gs IH]; intros fs; [reflexivity|].
  cbn [clear_all foldl]. fold (clear_all gs (alter (set_dirty 0) a fs)).
  now rewrite IH, length_alter.
Qed.

Lemma clear_all_member (gs : list nat) (fs : list PageFrame) (g : nat) :
  In g gs -> (g < length fs)%nat ->
  clear_all gs fs !!! g = set_dirty 0 (fs !!! g).
Proof.
  revert fs. induction gs as [|a gs IH]; intros fs Hin Hg; [destruct Hin|].
  cbn [clear_all foldl]. fold (clear_all gs (alter (set_dirty 0) a fs)).
  destruct (in_dec Nat.eq_dec g gs) as [Hi|Hni].
  - rewrite IH by (rewrite ?length_alter; assumption).
    destruct (Nat.eq_dec a g) as [->|Hne].
    + now rewrite list_lookup_total_alter_eq.
    + now rewrite list_lookup_total_alter_ne.
  - rewrite clear_all_other by assumption.
    destruct Hin as [->|Hin]; [|contradiction].
    now rewrite list_lookup_total_alter_eq.
Qed.

Section Flush.

Context {SM : StorageMgr}.

Lemma flush_loop_spec (n h : nat) :
  (0 < n)%nat -> (h < n)%nat ->
  forall fuel k m1 w1 c w2,
    (k + fuel = n)%nat -> (1 <= fuel)%nat -> nframes m1 = n -> head m1 = h ->
    let todo := List.filter (fun g => loop_test (frame_at m1 g))
                  (map (fun j => hop n j h) (seq k fuel)) in
    write_back (map (frame_at m1) todo) w1 = (c, w2) ->
    (c <= length todo)%nat
    /\ flush_loop fuel n m1 w1 (hop n k h)
       = Some (if (c =? length todo)%nat
               then (RC_OK, flushed c todo m1, w2)
               else (RC_WRITE_FAILED, flushed c todo m1, closePageFile w2)).
Proof.
  intros Hn Hh. induction fuel as [|fuel IH]; intros k m1 w1 c w2 Hk Hfuel Hlen Hhead;
    [lia|].
  cbn [seq map List.filter flush_loop].
  assert (Hg0 : (hop n k h < nframes m1)%nat) by (rewrite Hlen; apply hop_lt; lia).
  assert (Hfresh : forall j, In j (seq (S k) fuel) -> hop n j h <> hop n k h).
  { intros j Hj Heq. apply in_seq in Hj. apply hop_inj in Heq; lia. }
  destruct (loop_test (frame_at m1 (hop n k h))) eqn:Htest;
    pose proof Htest as Htest'; unfold loop_test in Htest'; rewrite Htest'.
  - (* the frame is written *)
    cbn [map write_back length].
    destruct (writeBlock _ _ w1) as [rc w'] eqn:Hwr.
    destruct (rc_is_ok rc) eqn:Hrc.
    + set (m1' := set_writes _ (upd (set_dirty 0) (hop n k h) m1)).
      assert (Hsame : forall j, In j (seq (S k) fuel) ->
                 frame_at m1' (hop n j h) = frame_at m1 (hop n j h)).
      { intros j Hj. unfold m1', frame_at. cbn.
        apply list_lookup_total_alter_ne. intros Heq. now apply (Hfresh j Hj). }
      assert (Htodo : List.filter (fun g => loop_test (frame_at m1' g))
                        (map (fun j => hop n j h) (seq (S k) fuel))
                      = List.filter (fun g => loop_test (frame_at m1 g))
                          (map (fun j => hop n j h) (seq (S k) fuel))).
      { apply List.filter_ext_in. intros g Hg. apply in_map_iff in Hg as (j & <- & Hj).
        now rewrite Hsame. }
      set (todo' := List.filter (fun g => loop_test (frame_at m1 g))
                      (map (fun j => hop n j h) (seq (S k) fuel))) in *.
      assert (Hmap : map (frame_at m1') todo' = map (frame_at m1) todo').
      { apply map_ext_in. intros g Hg. apply List.filter_In in Hg as [Hg _].
        apply in_map_iff in Hg as (j & <- & Hj). now apply Hsame. }
      destruct (write_back (map (frame_at m1) todo') w') as [c' w2'] eqn:Hwb.
      intros [= <- <-].
      change (head m1') with (head m1). rewrite Hhead, next_hop_head by lia.
      destruct (Nat.eqb_spec (S k) n) as [Hlast|Hmore].
      * assert (fuel = 0%nat) by lia. subst fuel. cbn in todo'. subst todo'.
        cbn in Hwb. injection Hwb as <- <-. cbn. split; [lia|].
        unfold m1', flushed, upd. destruct m1; reflexivity.
      * replace (next n (hop n k h)) with (hop n (S k) h)
          by (unfold hop; now rewrite Nat.iter_succ).
        destruct (IH (S k) m1' w' c' w2' ltac:(lia) ltac:(lia)) as [Hc Hloop];
          [unfold m1', nframes; cbn; now rewrite length_alter
          |exact Hhead
          |fold todo'; rewrite Htodo, Hmap; exact Hwb|].
        rewrite Htodo in Hloop, Hc. fold todo' in Hloop, Hc. rewrite Hloop.
        split; [lia|].
        change (S c' =? S (length todo'))%nat with (c' =? length todo')%nat.
        assert (Hfl : flushed c' todo' m1' = flushed (S c') (hop n k h :: todo') m1).
        { unfold flushed, m1', upd. rewrite Nat.iter_succ_r. reflexivity. }
        now rewrite Hfl.
    + intros [= <- <-]. split; [lia|]. cbn.
      f_equal. f_equal. f_equal. unfold flushed. destruct m1; reflexivity.
  - (* the frame is skipped *)
    set (todo' := List.filter (fun g => loop_test (frame_at m1 g))
                    (map (fun j => hop n j h) (seq (S k) fuel))).
    intros Hwb. rewrite Hhead, next_hop_head by lia.
    destruct (Nat.eqb_spec (S k) n) as [Hlast|Hmore].
    + assert (fuel = 0%nat) by lia. subst fuel. cbn in todo'. subst todo'.
      cbn in Hwb. injection Hwb as <- <-. cbn. split; [lia|].
      unfold flushed. destruct m1; reflexivity.
    + replace (next n (hop n k h)) with (hop n (S k) h)
        by (unfold hop; now rewrite Nat.iter_succ).
      apply (IH (S k) m1 w1 c w2); try assumption; lia.
Qed.

End Flush.

Lemma In_ring_order (n h g : nat) :
  (0 < n)%nat -> (h < n)%nat -> In g (ring_order n h) <-> (g < n)%nat.
Proof.
  intros Hn Hh. unfold ring_order. rewrite in_map_iff. split.
  - intros (j & <- & _). now apply hop_lt.
  - intros Hg. destruct (hop_reaches n Hn h g Hh Hg) as (j & Hj & Hjg).
    exists j. split; [exact Hjg|]. apply in_seq. lia.
Qed.

Lemma loop_test_flushable (f : PageFrame) :
  frame_ok f = true -> loop_test f = flushable f.
Proof.
  unfold loop_test, flushable, frame_ok.
  destruct (Z.eqb_spec (dirtyFlagSignal f) 1) as [->|_]; cbn.
  - rewrite orb_false_r. intros ->. cbn. now destruct (fixCount f =? 0).
  - intros _. now rewrite andb_false_r.
Qed.

Lemma clean_when_empty_at (m : BM_BufferPool_Mgmt) (g : nat) :
  clean_when_empty m = true -> (g < nframes m)%nat ->
  frame_ok (frame_at m g) = true.
Proof.
  unfold clean_when_empty, nframes, frame_at. intros Hall Hg.
  rewrite forallb_forall in Hall. apply Hall.
  apply list_elem_of_In. apply list_elem_of_lookup_total_2. exact Hg.
Qed.

Section FlushPool.

Context {SM : StorageMgr}.

Lemma forceFlushPool_run (bm : BM_BufferPool) (w w0 : World)
  (m : BM_BufferPool_Mgmt) (c : nat) (w1 : World) :
  well_formed bm = true ->
  mgmtData bm = Some m ->
  openPageFile (pageFile bm) w = (RC_OK, w0) ->
  let todo := List.filter (fun g => loop_test (frame_at m g))
                (ring_order (nframes m) (head m)) in
  write_back (map (frame_at m) todo) w0 = (c, w1) ->
  (c <= length todo)%nat
  /\ forceFlushPool bm w
     = Some (if (c =? length todo)%nat then RC_OK else RC_WRITE_FAILED,
             set_mgmt (flushed c todo m) bm, closePageFile w1).
Proof.
  intros Hwf Hm Hopen todo Hwb.
  destruct (well_formed_mgmt bm Hwf) as (m0 & Hm0 & Hmo & Hn & Hh & Ht).
  assert (m0 = m) by congruence. subst m0.
  destruct (flush_loop_spec (nframes m) (head m) Hn Hh (nframes m) 0%nat m w0 c w1)
    as [Hc Hloop]; try reflexivity; try lia; [exact Hwb|].
  split; [exact Hc|].
  unfold forceFlushPool. rewrite Hmo, Hopen. cbn [rc_is_ok negb].
  change (hop (nframes m) 0 (head m)) with (head m) in Hloop. rewrite Hloop.
  fold (ring_order (nframes m) (head m)). fold todo.
  now destruct (c =? length todo)%nat.
Qed.

Lemma forceFlushPool_total (bm : BM_BufferPool) (w : World) :
  well_formed bm = true ->
  exists rc bm1 w1,
    forceFlushPool bm w = Some (rc, bm1, w1) /\ strategy bm1 = strategy bm.
Proof.
  intros Hwf. destruct (well_formed_mgmt bm Hwf) as (m & Hm & Hmo & Hw).
  destruct (openPageFile (pageFile bm) w) as [rc w0] eqn:Hopen.
  destruct (rc_is_ok rc) eqn:Hrc.
  - destruct rc; try discriminate.
    destruct (write_back
                (map (frame_at m)
                   (List.filter (fun g => loop_test (frame_at m g))
                      (ring_order (nframes m) (head m)))) w0) as [c w1] eqn:Hwb.
    destruct (forceFlushPool_run bm w w0 m c w1 Hwf Hm Hopen Hwb) as [_ ->].
    eauto.
  - unfold forceFlushPool. rewrite Hmo, Hopen, Hrc. cbn. eauto.
Qed.

(** C6. With the page file open, [forceFlushPool] writes the flushable
    frames (occupied, fix count 0, dirty) in the order from [head], stopping
    at the first write that fails: [c] writes succeed.  It returns [RC_OK]
    when all of them did and [RC_WRITE_FAILED] otherwise.  The write counter
    goes up once per successful write; exactly the [c] frames written have
    their dirty flag cleared and nothing else about them changes; every
    other frame, in particular every frame with a fix count other than 0 and
    every frame after a failed write, is untouched. *)
Theorem forceFlushPool_spec (bm : BM_BufferPool) (w w0 : World)
  (m : BM_BufferPool_Mgmt) (c : nat) (w1 : World) :
  well_formed bm = true ->
  mgmtData bm = Some m ->
  clean_when_empty m = true ->
  openPageFile (pageFile bm) w = (RC_OK, w0) ->
  write_back (map (frame_at m) (flush_order m)) w0 = (c, w1) ->
  let m' := flushed c (flush_order m) m in
  (forall g, In g (flush_order m) <->
             (g < nframes m)%nat /\ flushable (frame_at m g) = true)
  /\ (c <= length (flush_order m))%nat
  /\ forceFlushPool bm w
     = Some (if (c =? length (flush_order m))%nat then RC_OK else RC_WRITE_FAILED,
             set_mgmt m' bm, closePageFile w1)
  /\ getNumWriteIO m' = Nat.iter c incr (getNumWriteIO m)
  /\ getNumReadIO m' = getNumReadIO m
  /\ (forall g, In g (take c (flush_order m)) ->
                frame_at m' g = set_dirty 0 (frame_at m g))
  /\ (forall g, ~ In g (take c (flush_order m)) -> frame_at m' g = frame_at m g)
  /\ (forall g, fixCount (frame_at m g) <> 0 -> frame_at m' g = frame_at m g).
Proof.
  intros Hwf Hm Hclean Hopen Hwb m'.
  destruct (well_formed_mgmt bm Hwf) as (m0 & Hm0 & Hmo & Hn & Hh & Ht).
  assert (m0 = m) by congruence. subst m0.
  assert (Hmem : forall g, In g (flush_order m) <->
                   (g < nframes m)%nat /\ flushable (frame_at m g) = true).
  { intros g. unfold flush_order. rewrite List.filter_In, In_ring_order by assumption.
    reflexivity. }
  assert (Horder : List.filter (fun g => loop_test (frame_at m g))
                     (ring_order (nframes m) (head m)) = flush_order m).
  { apply List.filter_ext_in. intros g Hg. apply In_ring_order in Hg; [|assumption..].
    apply loop_test_flushable. now apply clean_when_empty_at. }
  assert (Hother : forall g, ~ In g (take c (flush_order m)) ->
                     frame_at m' g = frame_at m g).
  { intros g Hg. unfold m', flushed, frame_at. cbn. now apply clear_all_other. }
  pose proof (forceFlushPool_run bm w w0 m c w1 Hwf Hm Hopen) as Hrun.
  cbv zeta in Hrun. rewrite Horder in Hrun. destruct (Hrun Hwb) as [Hc Hres].
  split; [exact Hmem|]. split; [exact Hc|]. split; [exact Hres|].
  split; [reflexivity|]. split; [reflexivity|]. split; [|split; [exact Hother|]].
  - intros g Hg. unfold m', flushed, frame_at. cbn.
    apply clear_all_member; [exact Hg|].
    apply list_elem_of_In, elem_of_take in Hg as (i & Hi & _).
    apply list_elem_of_lookup_2, list_elem_of_In, Hmem in Hi. apply Hi.
  - intros g Hfix. apply Hother. intros Hin.
    apply list_elem_of_In, elem_of_take in Hin as (i & Hi & _).
    apply list_elem_of_lookup_2, list_elem_of_In, Hmem in Hi as [_ Hfl].
    unfold flushable in Hfl. apply andb_prop in Hfl as [Hfl _].
    apply andb_prop in Hfl as [_ H0]. apply Z.eqb_eq in H0. contradiction.
Qed.

(** C5, as the code has it. [shutdownBufferPool] never looks at a fix
    count: it runs [forceFlushPool] and, when that returns [RC_OK], frees
    the pool and returns [RC_OK], also with frames still fixed; it keeps
    the pool only when the flush fails, and then returns the code of the
    flush. *)
Theorem shutdown_follows_flush (bm : BM_BufferPool) (w : World) :
  well_formed bm = true ->
  exists rc bm1 w1,
    forceFlushPool bm w = Some (rc, bm1, w1)
    /\ shutdownBufferPool bm w
       = Some (if rc_is_ok rc
               then (RC_OK, mkPool None 0 (strategy bm) None, w1)
               else (rc, bm1, w1)).
Proof.
  intros Hwf. destruct (forceFlushPool_total bm w Hwf) as (rc & bm1 & w1 & Hfl & Hs).
  exists rc, bm1, w1. split; [exact Hfl|].
  destruct (well_formed_mgmt bm Hwf) as (m & Hm & Hmo & Hw).
  unfold shutdownBufferPool. rewrite Hm.
  unfold mgmt_of in Hmo. rewrite Hm in Hmo.
  destruct (frames m); [discriminate|]. rewrite Hfl, Hs.
  now destruct (rc_is_ok rc).
Qed.

End FlushPool.

(** ** unpinPage *)

(** C4, as the code has it. When the page of the handle is resident in
    frame [f], [unpinPage] takes one from the fix count of [f] and returns
    [RC_OK]; it does so for every fix count, 0 included, which it turns
    into -1.  Nothing else in the pool changes. *)
Theorem unpinPage_decrements (bm : BM_BufferPool) (page : BM_PageHandle)
  (m : BM_BufferPool_Mgmt) (f : nat) :
  well_formed bm = true ->
  mgmtData bm = Some m ->
  resident_in m (ph_pageNum page) f ->
  INT_MIN < fixCount (frame_at m f) <= INT_MAX ->
  exists m',
    unpinPage bm page = Some (RC_OK, set_mgmt m' bm)
    /\ fixCount (frame_at m' f) = fixCount (frame_at m f) - 1
    /\ frame_at m' f = set_fixCount (fixCount (frame_at m f) - 1) (frame_at m f)
    /\ (forall g, g <> f -> frame_at m' g = frame_at m g)
    /\ getNumReadIO m' = getNumReadIO m
    /\ getNumWriteIO m' = getNumWriteIO m
    /\ occupiedFrameCount m' = occupiedFrameCount m.
Proof.
  intros Hwf Hm Hres Hfix.
  destruct (well_formed_mgmt bm Hwf) as (m0 & Hm0 & Hmo & Hw).
  assert (m0 = m) by congruence. subst m0.
  pose proof (find_page_resident m _ f Hw Hres) as Hfind.
  destruct Hres as (Hf & _ & _).
  unfold unpinPage. rewrite Hmo, Hfind.
  exists (upd fix_down f m). split; [reflexivity|].
  rewrite frame_at_upd_eq by exact Hf. unfold fix_down.
  rewrite decr_no_overflow by exact Hfix.
  repeat split; try reflexivity.
  intros g Hg. apply frame_at_upd_ne. congruence.
Qed.

(** ** A failed read *)

Lemma clock_sweep_keeps (n fuel : nat) :
  forall fs frame fs' frame',
    clock_sweep fuel n fs frame = Some (fs', frame') ->
    length fs' = length fs
    /\ forall g, pageNum (fs' !!! g) = pageNum (fs !!! g)
                 /\ fixCount (fs' !!! g) = fixCount (fs !!! g)
                 /\ dirtyFlagSignal (fs' !!! g) = dirtyFlagSignal (fs !!! g)
                 /\ data (fs' !!! g) = data (fs !!! g).
Proof.
  induction fuel as [|fuel IH]; intros fs frame fs' frame'; cbn [clock_sweep];
    destruct (negb _); try discriminate; try (intros [= <- <-]; now auto).
  intros H. apply IH in H as [Hlen Hg]. rewrite Hlen, length_alter.
  split; [reflexivity|]. intros g. destruct (Hg g) as (-> & -> & -> & ->).
  rewrite list_lookup_total_alter. destruct (decide _) as [[-> _]|_]; auto.
Qed.

Section ReadFailure.

Context {SM : StorageMgr}.

Lemma write_victim_keeps (m : BM_BufferPool_Mgmt) (w : World) (frame : nat)
  (m2 : BM_BufferPool_Mgmt) (w2 : World) :
  write_victim m w frame = inr (m2, w2) ->
  frames m2 = frames m /\ getNumReadIO m2 = getNumReadIO m
  /\ head m2 = head m /\ tail m2 = tail m.
Proof.
  unfold write_victim. destruct (dirtyFlagSignal _ =? 1).
  - destruct (writeBlock _ _ _) as [rc w']. destruct (negb _); [discriminate|].
    intros [= <- <-]. auto.
  - intros [= <- <-]. auto.
Qed.

Lemma write_victim_abort (m : BM_BufferPool_Mgmt) (w : World) (frame : nat)
  (a : placed) :
  write_victim m w frame = inl a -> exists w', a = Abort RC_WRITE_FAILED m w'.
Proof.
  unfold write_victim. destruct (dirtyFlagSignal _ =? 1); [|discriminate].
  destruct (writeBlock _ _ _) as [rc w']. destruct (negb _); [|discriminate].
  intros [= <-]. eauto.
Qed.

Lemma rebind_placement (p : PageNumber) (m m2 : BM_BufferPool_Mgmt) (f : nat) :
  frames m2 = frames m -> getNumReadIO m2 = getNumReadIO m ->
  (f < nframes m)%nat ->
  getNumReadIO (upd (rebind p) f m2) = getNumReadIO m
  /\ pageNum (frame_at (upd (rebind p) f m2) f) = p
  /\ fixCount (frame_at (upd (rebind p) f m2) f) = incr (fixCount (frame_at m f)).
Proof.
  intros Hfs Hr Hf. split; [exact Hr|].
  rewrite frame_at_upd_eq by (unfold nframes; now rewrite Hfs).
  unfold frame_at. rewrite Hfs. auto.
Qed.

Lemma replace_FIFO_placement (m : BM_BufferPool_Mgmt) (w : World) (p : PageNumber)
  (m1 : BM_BufferPool_Mgmt) (w1 : World) (frame : nat) :
  wf_mgmt m -> replace_FIFO m w p = Some (Proceed m1 w1 frame) -> placement_of p m m1.
Proof.
  intros (Hn & Hh & Ht). unfold replace_FIFO.
  pose proof (dist_bounds (nframes m) Hn (tail m) (head m) Ht Hh) as Hd.
  destruct (scan_spec (nframes m) Hn (unfixed m) (head m) Hh (nframes m) (tail m) Ht)
    as [(k & _ & -> & _)|(-> & _)]; [lia| |].
  - destruct (write_victim m w _) as [a|[m2 w2]] eqn:Hv;
      [apply write_victim_abort in Hv as (? & ->); discriminate|].
    apply write_victim_keeps in Hv as (Hfs & Hr & _). intros [= <- <- <-].
    assert (Hf : (hop (nframes m) k (tail m) < nframes m)%nat) by now apply hop_lt.
    destruct (rebind_placement p m m2 _ Hfs Hr Hf) as (H1 & H2 & H3).
    split; [exact H1|]. left. eexists. split; [exact Hf|]. split; [exact H2|exact H3].
  - intros [= <- <- <-]. split; [reflexivity|]. now right.
Qed.

Lemma replace_LRU_placement (m : BM_BufferPool_Mgmt) (w : World) (p : PageNumber)
  (m1 : BM_BufferPool_Mgmt) (w1 : World) (frame : nat) :
  wf_mgmt m -> replace_LRU m w p = Some (Proceed m1 w1 frame) -> placement_of p m m1.
Proof.
  intros (Hn & Hh & Ht). unfold replace_LRU.
  pose proof (dist_bounds (nframes m) Hn (tail m) (tail m) Ht Ht) as Hd.
  destruct (scan_spec (nframes m) Hn (unfixed m) (tail m) Ht (nframes m) (tail m) Ht)
    as [(k & _ & -> & _)|(-> & _)]; [lia| |].
  - destruct (write_victim m w _) as [a|[m2 w2]] eqn:Hv;
      [apply write_victim_abort in Hv as (? & ->); discriminate|].
    apply write_victim_keeps in Hv as (Hfs & Hr & _).
    assert (Hf : (hop (nframes m) k (tail m) < nframes m)%nat) by now apply hop_lt.
    assert (Hnf : nframes m2 = nframes m) by (unfold nframes; now rewrite Hfs).
    destruct (negb _); intros [= <- <- <-].
    + destruct (rebind_placement p m m2 _ Hfs Hr Hf) as (H1 & H2 & H3).
      split; [exact H1|]. left. eexists. split; [exact Hf|]. split; [exact H2|exact H3].
    + pose proof (next_lt (nframes m) Hn (hop (nframes m) k (tail m))) as Hf'.
      rewrite Hnf.
      destruct (rebind_placement p m m2 _ Hfs Hr Hf') as (H1 & H2 & H3).
      split; [exact H1|]. left. eexists. split; [exact Hf'|]. split; [exact H2|exact H3].
  - intros [= <- <- <-]. split; [reflexivity|]. now right.
Qed.

Lemma replace_CLOCK_placement (m : BM_BufferPool_Mgmt) (w : World) (p : PageNumber)
  (m1 : BM_BufferPool_Mgmt) (w1 : World) (frame1 : nat) :
  wf_mgmt m ->
  forall fuel frame,
    (frame < nframes m)%nat ->
    replace_CLOCK fuel m w p frame = Some (Proceed m1 w1 frame1) ->
    placement_of p m m1.
Proof.
  intros (Hn & Hh & Ht). induction fuel as [|fuel IH]; intros frame Hf; [discriminate|].
  cbn [replace_CLOCK]. destruct (negb (fixCount (frame_at m frame) =? 0)).
  - destruct (_ =? head m)%nat.
    + intros [= <- <- <-]. split; [reflexivity|]. now right.
    + apply IH. now apply next_lt.
  - destruct (clock_sweep_total (frames m) frame Hf) as (fs' & frame' & Hs & Hlen & Hf' & Hr).
    destruct (clock_sweep_keeps _ _ _ _ _ _ Hs) as [_ Hkeep].
    unfold nframes. rewrite Hs. unfold frame_at at 1. cbn [frames set_frames].
    rewrite Hr. cbn [Z.eqb].
    destruct (write_victim _ w frame') as [a|[m2 w2]] eqn:Hv;
      [apply write_victim_abort in Hv as (? & ->); discriminate|].
    apply write_victim_keeps in Hv as (Hfs & Hrd & _). cbn in Hfs, Hrd.
    intros [= <- <- <-]. split; [exact Hrd|]. left. exists frame'.
    split; [exact Hf'|]. unfold frame_at, upd. cbn. rewrite Hfs.
    rewrite list_lookup_total_alter_eq by (rewrite length_alter, Hlen; exact Hf').
    rewrite list_lookup_total_alter_eq by (rewrite Hlen; exact Hf').
    cbn. destruct (Hkeep frame') as (_ & -> & _). auto.
Qed.

Lemma fill_frame_placement (ref : bool) (m : BM_BufferPool_Mgmt) (p : PageNumber)
  (m1 : BM_BufferPool_Mgmt) (frame : nat) :
  wf_mgmt m -> fill_frame ref m p = (m1, frame) ->
  frame = head m
  /\ getNumReadIO m1 = getNumReadIO m
  /\ pageNum (frame_at m1 (head m)) = p
  /\ fixCount (frame_at m1 (head m)) = incr (fixCount (frame_at m (head m)))
  /\ occupiedFrameCount m1 = incr (occupiedFrameCount m).
Proof.
  intros (Hn & Hh & Ht). unfold fill_frame. intros [= <- <-].
  split; [reflexivity|].
  destruct ref; destruct (negb _); unfold frame_at, upd; cbn;
    rewrite ?list_lookup_total_alter_eq by (rewrite ?length_alter; exact Hh);
    cbn; auto.
Qed.

Lemma read_page_fails (c : bool) (m : BM_BufferPool_Mgmt) (w : World) (frame : nat)
  (page : BM_PageHandle) (p : PageNumber) (m' : BM_BufferPool_Mgmt)
  (page' : BM_PageHandle) (w' : World) :
  read_page c m w frame page p = (RC_READ_NON_EXISTING_PAGE, m', page', w') ->
  page' = page /\ getNumReadIO m' = getNumReadIO m
  /\ occupiedFrameCount m' = occupiedFrameCount m
  /\ forall g, pageNum (frame_at m' g) = pageNum (frame_at m g)
               /\ fixCount (frame_at m' g) = fixCount (frame_at m g).
Proof.
  unfold read_page. destruct (readBlock _ _ _) as [[rc buf] w2].
  destruct (negb (rc_is_ok rc)); [|discriminate].
  intros [= <- <- _]. repeat split; unfold frame_at, upd; cbn;
    rewrite list_lookup_total_alter; destruct (decide _) as [[-> _]|_]; reflexivity.
Qed.

End ReadFailure.

Section ReadFailureTheorem.

Context {SM : StorageMgr}.

Lemma place_switch_placement (bm : BM_BufferPool) (m : BM_BufferPool_Mgmt)
  (w : World) (p : PageNumber) (m1 : BM_BufferPool_Mgmt) (w1 : World) (frame : nat) :
  wf_mgmt m ->
  place_switch bm m w p = Some (Proceed m1 w1 frame) ->
  (occupiedFrameCount m < numPages bm ->
     frame = head m
     /\ getNumReadIO m1 = getNumReadIO m
     /\ pageNum (frame_at m1 (head m)) = p
     /\ fixCount (frame_at m1 (head m)) = incr (fixCount (frame_at m (head m)))
     /\ occupiedFrameCount m1 = incr (occupiedFrameCount m))
  /\ (numPages bm <= occupiedFrameCount m -> placement_of p m m1).
Proof.
  intros Hw. unfold place_switch, place_FIFO, place_LRU, place_CLOCK.
  destruct (Z.ltb_spec (occupiedFrameCount m) (numPages bm)) as [Hlt|Hge].
  - assert (Hfill : forall ref,
              (let '(m0, frame0) := fill_frame ref m p in Some (Proceed m0 w frame0))
              = Some (Proceed m1 w1 frame) ->
              fill_frame ref m p = (m1, frame)).
    { intros ref. destruct (fill_frame ref m p). now intros [= -> _ ->]. }
    intros H. split; [intros _|lia].
    destruct (strategy bm); try discriminate;
      apply Hfill in H; now apply fill_frame_placement in H.
  - intros H. split; [lia|intros _].
    destruct (strategy bm); try discriminate.
    + now apply replace_FIFO_placement in H.
    + now apply replace_LRU_placement in H.
    + destruct Hw as (Hn & Hh & Ht).
      apply replace_CLOCK_placement in H; [exact H|easy|exact Hh].
Qed.

End ReadFailureTheorem.

(** ** The state between calls *)

Lemma prev_lt (n i : nat) : (0 < n)%nat -> (i < n)%nat -> (prev n i < n)%nat.
Proof. intros. unfold prev. destruct (Nat.eqb_spec i 0); lia. Qed.

Lemma forallb_alter (P : PageFrame -> bool) (g : PageFrame -> PageFrame)
  (fs : list PageFrame) (i : nat) :
  forallb P fs = true ->
  ((i < length fs)%nat -> P (g (fs !!! i)) = true) ->
  forallb P (alter g i fs) = true.
Proof.
  revert i. induction fs as [|f fs IH]; intros i Hall Hi; [reflexivity|].
  cbn in Hall. apply andb_prop in Hall as [Hf Hfs]. destruct i as [|i]; cbn.
  - rewrite Hfs, andb_true_r. apply Hi. cbn. lia.
  - rewrite Hf. cbn. apply IH; [exact Hfs|]. intros Hlt. apply Hi. cbn. lia.
Qed.

Lemma forallb_alter_keep (g : PageFrame -> PageFrame) (fs : list PageFrame) (i : nat) :
  (forall f, frame_ok f = true -> frame_ok (g f) = true) ->
  forallb frame_ok fs = true -> forallb frame_ok (alter g i fs) = true.
Proof.
  intros Hg Hall. apply forallb_alter; [exact Hall|]. intros Hi. apply Hg.
  rewrite forallb_forall in Hall. apply Hall.
  apply list_elem_of_In, list_elem_of_lookup_total_2, Hi.
Qed.

(** A pool stays in order when its ring keeps its size, its pointers stay
    inside and its frames stay in order. *)
Lemma inv_of (m m' : BM_BufferPool_Mgmt) :
  inv m ->
  length (frames m') = length (frames m) ->
  (head m' < length (frames m))%nat ->
  (tail m' < length (frames m))%nat ->
  forallb frame_ok (frames m') = true ->
  inv m'.
Proof.
  intros [(Hn & Hh & Ht) Hc] Hlen Hh' Ht' Hok.
  unfold inv, wf_mgmt, clean_when_empty, nframes in *. rewrite Hlen. auto.
Qed.

Lemma inv_pool (bm : BM_BufferPool) :
  pool_inv bm = true ->
  exists m, mgmtData bm = Some m /\ mgmt_of bm = Some m /\ inv m.
Proof.
  unfold pool_inv. intros H. apply andb_prop in H as [Hwf Hc].
  destruct (well_formed_mgmt bm Hwf) as (m & Hm & Hmo & Hw).
  rewrite Hm in Hc. exists m. split; [exact Hm|]. split; [exact Hmo|]. split; [exact Hw|exact Hc].
Qed.

Lemma pool_inv_intro (bm : BM_BufferPool) (m : BM_BufferPool_Mgmt) :
  mgmtData bm = Some m -> inv m -> pool_inv bm = true.
Proof.
  intros Hm [(Hn & Hh & Ht) Hc]. unfold pool_inv, well_formed. rewrite Hm.
  unfold clean_when_empty, nframes in *. rewrite Hc.
  apply Nat.ltb_lt in Hn, Hh, Ht. now rewrite Hn, Hh, Ht.
Qed.

Lemma pool_inv_set (bm : BM_BufferPool) (m : BM_BufferPool_Mgmt) :
  inv m -> pool_inv (set_mgmt m bm) = true.
Proof. now apply pool_inv_intro. Qed.

Lemma clear_all_ok (gs : list nat) (fs : list PageFrame) :
  forallb frame_ok fs = true -> forallb frame_ok (clear_all gs fs) = true.
Proof.
  revert fs. induction gs as [|a gs IH]; intros fs H; [exact H|].
  cbn [clear_all foldl]. fold (clear_all gs (alter (set_dirty 0) a fs)).
  apply IH, forallb_alter; [exact H|]. intros _. unfold frame_ok. cbn.
  apply orb_true_r.
Qed.

Lemma pages_lookup (m : BM_BufferPool_Mgmt) (g : nat) (x : PageNumber) :
  pages m !! g = Some x <-> (g < nframes m)%nat /\ pageNum (frame_at m g) = x.
Proof.
  unfold pages, nframes, frame_at. rewrite list_lookup_fmap. split.
  - intros H. destruct (frames m !! g) as [f|] eqn:Hf; [|discriminate].
    injection H as <-. split; [now apply lookup_lt_Some in Hf|].
    now rewrite (list_lookup_total_correct _ _ _ Hf).
  - intros [Hg <-]. now rewrite (list_lookup_lookup_total_lt _ _ Hg).
Qed.

Lemma init_frames (size k : nat) :
  let m := Nat.iter k
             (fun m => mkMgmt (occupiedFrameCount m)
                         (frames m ++ [mkFrame 0 (-1) 0 0 0 (repeat x00 size)])
                         (start m) (length (frames m)) (start m)
                         (getNumReadIO m) (getNumWriteIO m))
             (mkMgmt 0 [] 0 0 0 0 0) in
  length (frames m) = k /\ head m = 0%nat /\ start m = 0%nat
  /\ forallb frame_ok (frames m) = true
  /\ Forall (fun f => pageNum f = NO_PAGE) (frames m).
Proof.
  induction k as [|k IH]; [cbn; auto|].
  cbn zeta in *. rewrite Nat.iter_succ. cbn [frames head start].
  destruct IH as (Hlen & Hh & Hs & Hok & Hno). rewrite length_app, Hlen. cbn [length].
  split; [lia|]. split; [exact Hs|]. split; [exact Hs|]. split.
  - rewrite forallb_app, Hok. reflexivity.
  - apply Forall_app. split; [exact Hno|]. now constructor.
Qed.

Lemma distinct_empty (m : BM_BufferPool_Mgmt) :
  Forall (fun f => pageNum f = NO_PAGE) (frames m) -> distinct_pages (pages m).
Proof.
  intros Hno i j x Hi _ Hx. apply pages_lookup in Hi as [Hi Hp].
  rewrite Forall_forall in Hno. destruct Hx. rewrite <- Hp. apply Hno.
  apply list_elem_of_lookup_total_2, Hi.
Qed.

Section Invariant.

Context {SM : StorageMgr}.

(** A pool of at least one frame starts in order. *)
Lemma initBufferPool_inv (bm bm' : BM_BufferPool) (name : string) (n : Z)
  (strat : ReplacementStrategy) (w w' : World) :
  1 <= n ->
  initBufferPool bm name n strat w = (RC_OK, bm', w') ->
  pool_inv bm' = true /\ numPages bm' = n /\ strategy bm' = strat
  /\ exists m, mgmtData bm' = Some m /\ nframes m = Z.to_nat n
               /\ occupiedFrameCount m = 0 /\ getNumReadIO m = 0
               /\ getNumWriteIO m = 0 /\ head m = 0%nat /\ tail m = 0%nat
               /\ distinct_pages (pages m).
Proof.
  intros Hn. unfold initBufferPool.
  destruct (openPageFile (Some name) w) as [status w0].
  destruct (negb (rc_is_ok status)) eqn:Hs.
  - intros [= -> _ _]. discriminate.
  - intros [= <- _].
    destruct (init_frames PAGE_SIZE (Z.to_nat n)) as (Hlen & Hh & _ & Hok & Hno).
    fold createPageFrame in Hlen, Hh, Hok, Hno.
    set (m0 := Nat.iter (Z.to_nat n) createPageFrame (mkMgmt 0 [] 0 0 0 0 0)) in *.
    split; [|split; [reflexivity|split; [reflexivity|]]].
    + eapply pool_inv_intro; [reflexivity|]. split.
      * unfold wf_mgmt, nframes. cbn. rewrite Hlen, Hh. lia.
      * exact Hok.
    + eexists. split; [reflexivity|]. cbn. unfold nframes. cbn.
      repeat (split; [assumption || reflexivity|]). now apply distinct_empty.
Qed.

(** Side conditions of [inv_of] for a pool the code has built from [m]. *)
Ltac frame_kept :=
  let f := fresh "f" in
  let Hf := fresh "Hf" in
  intros f Hf; unfold frame_ok, rebind, fix_up, fix_down in *; cbn;
  first [ exact Hf
        | match goal with
          | |- negb (?p =? NO_PAGE) || _ = true =>
              destruct (Z.eqb_spec p NO_PAGE); [unfold NO_PAGE in *; lia|reflexivity]
          end
        | apply orb_true_r ].

Ltac frames_kept :=
  cbn [frames upd set_frames set_head set_tail set_occupied set_reads set_writes];
  repeat (apply forallb_alter_keep; [frame_kept|]);
  assumption.

Ltac ring_kept :=
  unfold nframes;
  cbn [frames head tail upd set_frames set_head set_tail set_occupied set_reads
       set_writes];
  rewrite ?length_alter;
  first [ reflexivity | assumption | apply next_lt; assumption
        | apply prev_lt; [assumption|apply next_lt; assumption] ].

(** The parts of [inv m], with the size of the ring written out. *)
Ltac inv_parts Hi :=
  let Hn := fresh "Hn" in
  let Hh := fresh "Hh" in
  let Ht := fresh "Ht" in
  let Hc := fresh "Hc" in
  pose proof Hi as [(Hn & Hh & Ht) Hc];
  unfold nframes, clean_when_empty in Hn, Hh, Ht, Hc.

Ltac inv_kept m Hi := apply (inv_of m); [exact Hi|ring_kept..|frames_kept].

Lemma write_victim_inv (m : BM_BufferPool_Mgmt) (w : World) (frame : nat) :
  inv m ->
  match write_victim m w frame with
  | inl (Abort _ m' _) => inv m'
  | inl (Proceed _ _ _) => False
  | inr (m', _) => inv m' /\ frames m' = frames m /\ head m' = head m
                   /\ tail m' = tail m
  end.
Proof.
  intros Hi. inv_parts Hi.
  unfold write_victim. destruct (dirtyFlagSignal _ =? 1); [|auto].
  destruct (writeBlock _ _ _) as [rc w']. destruct (negb _); [exact Hi|].
  split; [|auto]. inv_kept m Hi.
Qed.

Lemma fill_frame_inv (ref : bool) (m : BM_BufferPool_Mgmt) (p : PageNumber) :
  inv m -> 0 <= p ->
  inv (fst (fill_frame ref m p))
  /\ (snd (fill_frame ref m p) < nframes (fst (fill_frame ref m p)))%nat.
Proof.
  intros Hi Hp. inv_parts Hi. unfold fill_frame. cbn [fst snd]. split.
  - destruct ref; destruct (negb _); inv_kept m Hi.
  - destruct ref; destruct (negb _); unfold nframes; ring_kept.
Qed.

Lemma replace_FIFO_inv (m : BM_BufferPool_Mgmt) (w : World) (p : PageNumber) :
  inv m -> 0 <= p -> exists r, replace_FIFO m w p = Some r /\ placed_inv r.
Proof.
  intros Hi Hp. pose proof Hi as [(Hn & Hh & Ht) _]. unfold replace_FIFO.
  pose proof (dist_bounds (nframes m) Hn (tail m) (head m) Ht Hh) as Hd.
  destruct (scan_spec (nframes m) Hn (unfixed m) (head m) Hh (nframes m) (tail m) Ht)
    as [(k & _ & -> & _)|(-> & _)]; [lia| |].
  - pose proof (hop_lt (nframes m) Hn k (tail m) Ht) as Hf.
    set (frame := hop (nframes m) k (tail m)) in *.
    pose proof (write_victim_inv m w frame Hi) as Hv.
    destruct (write_victim m w frame) as [[rc m' w'|]|[m2 w2]]; [eauto|easy|].
    destruct Hv as (Hi2 & Hfs & _). inv_parts Hi2.
    unfold nframes in Hf. rewrite <- Hfs in Hf.
    eexists. split; [reflexivity|]. split; [inv_kept m2 Hi2|ring_kept].
  - eexists. split; [reflexivity|]. split; assumption.
Qed.

Lemma replace_LRU_inv (m : BM_BufferPool_Mgmt) (w : World) (p : PageNumber) :
  inv m -> 0 <= p -> exists r, replace_LRU m w p = Some r /\ placed_inv r.
Proof.
  intros Hi Hp. pose proof Hi as [(Hn & Hh & Ht) _]. unfold replace_LRU.
  pose proof (dist_bounds (nframes m) Hn (tail m) (tail m) Ht Ht) as Hd.
  destruct (scan_spec (nframes m) Hn (unfixed m) (tail m) Ht (nframes m) (tail m) Ht)
    as [(k & _ & -> & _)|(-> & _)]; [lia| |].
  - pose proof (hop_lt (nframes m) Hn k (tail m) Ht) as Hf.
    set (frame := hop (nframes m) k (tail m)) in *.
    pose proof (write_victim_inv m w frame Hi) as Hv.
    destruct (write_victim m w frame) as [[rc m' w'|]|[m2 w2]]; [eauto|easy|].
    destruct Hv as (Hi2 & Hfs & _). inv_parts Hi2.
    unfold nframes in Hf. rewrite <- Hfs in Hf.
    destruct (negb _); (eexists; split; [reflexivity|]);
      (split; [inv_kept m2 Hi2|ring_kept]).
  - eexists. split; [reflexivity|]. split; assumption.
Qed.

Lemma clock_sweep_ok (n fuel : nat) :
  forall fs frame fs' frame',
    clock_sweep fuel n fs frame = Some (fs', frame') ->
    forallb frame_ok fs = true -> forallb frame_ok fs' = true.
Proof.
  induction fuel as [|fuel IH]; intros fs frame fs' frame'; cbn [clock_sweep];
    destruct (negb _); try discriminate; try (intros [= <- <-]; now auto).
  intros H Hok. apply IH in H; [exact H|].
  apply forallb_alter_keep; [frame_kept|exact Hok].
Qed.

Lemma replace_CLOCK_inv (m : BM_BufferPool_Mgmt) (w : World) (p : PageNumber) :
  inv m -> 0 <= p ->
  forall fuel frame,
    (frame < nframes m)%nat -> (dist (nframes m) frame (head m) <= fuel)%nat ->
    exists r, replace_CLOCK fuel m w p frame = Some r /\ placed_inv r.
Proof.
  intros Hi Hp. pose proof Hi as [(Hn & Hh & Ht) Hc].
  induction fuel as [|fuel IH]; intros frame Hf Hd.
  - pose proof (dist_bounds (nframes m) Hn frame (head m) Hf Hh). lia.
  - cbn [replace_CLOCK]. destruct (negb (fixCount (frame_at m frame) =? 0)).
    + destruct (dist_next (nframes m) Hn frame (head m) Hf Hh) as [[He _]|[Hne Hd']].
      * apply Nat.eqb_eq in He as He'. rewrite He'.
        eexists. split; [reflexivity|]. split; [exact Hi|]. rewrite He. exact Hh.
      * apply Nat.eqb_neq in Hne as Hne'. rewrite Hne'.
        apply IH; [now apply next_lt|lia].
    + destruct (clock_sweep_total (frames m) frame Hf)
        as (fs' & frame' & Hs & Hlen & Hf' & Hr).
      pose proof (clock_sweep_ok _ _ _ _ _ _ Hs Hc) as Hok.
      unfold nframes. rewrite Hs. unfold frame_at at 1. cbn [frames set_frames].
      rewrite Hr. cbn [Z.eqb].
      assert (Hi1 : inv (set_frames fs' m)).
      { inv_parts Hi. apply (inv_of m); [exact Hi|ring_kept..|]; try exact Hlen.
        exact Hok. }
      pose proof (write_victim_inv (set_frames fs' m) w frame' Hi1) as Hv.
      destruct (write_victim (set_frames fs' m) w frame') as [[rc m' w'|]|[m2 w2]];
        [eauto|easy|].
      destruct Hv as (Hi2 & Hfs & _). inv_parts Hi2. cbn in Hfs.
      rewrite <- Hlen, <- Hfs in Hf'.
      eexists. split; [reflexivity|]. split; [inv_kept m2 Hi2|ring_kept].
Qed.

Lemma read_page_inv (c : bool) (m : BM_BufferPool_Mgmt) (w : World) (frame : nat)
  (page : BM_PageHandle) (p : PageNumber) :
  inv m -> inv (snd (fst (fst (read_page c m w frame page p)))).
Proof.
  intros Hi. inv_parts Hi. unfold read_page.
  destruct (readBlock _ _ _) as [[rc buf] w2]. destruct (negb _); cbn [fst snd];
    inv_kept m Hi.
Qed.

Lemma finish_inv (c : bool) (bm : BM_BufferPool) (page : BM_PageHandle)
  (p : PageNumber) (r : option placed) :
  (exists x, r = Some x /\ placed_inv x) ->
  exists rc m' page' w',
    finish c bm page p r = Some (rc, set_mgmt m' bm, page', w') /\ inv m'.
Proof.
  intros [[rc m w|m w frame] [-> Hr]]; cbn [finish placed_inv] in *.
  - eauto 6.
  - destruct Hr as [Hi _]. pose proof (read_page_inv c m w frame page p Hi) as H.
    destruct (read_page c m w frame page p) as [[[rc m'] page'] w']. eauto 6.
Qed.

Lemma pin_switch_inv (bm : BM_BufferPool) (page : BM_PageHandle)
  (p : PageNumber) (w : World) :
  pool_inv bm = true -> 0 <= p ->
  exists rc bm' page' w',
    pin_switch bm page p w = Some (rc, bm', page', w') /\ pool_inv bm' = true.
Proof.
  intros Hpi Hp. destruct (inv_pool bm Hpi) as (m & Hm & Hmo & Hi).
  inv_parts Hi.
  assert (Hfin : forall c r,
            (exists x, r = Some x /\ placed_inv x) ->
            exists rc bm' page' w',
              finish c bm page p r = Some (rc, bm', page', w')
              /\ pool_inv bm' = true).
  { intros c r Hr. destruct (finish_inv c bm page p r Hr)
      as (rc & m' & page' & w' & -> & Hi').
    do 4 eexists. split; [reflexivity|]. now apply pool_inv_set. }
  assert (Hfill : forall ref w0,
            exists x, (let '(m0, frame) := fill_frame ref m p in
                       Some (Proceed m0 w0 frame)) = Some x /\ placed_inv x).
  { intros ref w0. pose proof (fill_frame_inv ref m p Hi Hp) as H.
    destruct (fill_frame ref m p) as [m0 frame]. eexists. split; [reflexivity|].
    exact H. }
  unfold pin_switch, pinPageFIFO, pinPageLRU, pinPageCLOCK. rewrite Hmo.
  destruct (find_page_total m p (proj1 Hi)) as [(frame & -> & Hf & _)|(-> & _)].
  { unfold nframes in Hf.
    destruct (strategy bm); do 4 eexists; (split; [reflexivity|]);
      try exact Hpi; apply pool_inv_set; inv_kept m Hi. }
  destruct (strategy bm); try (do 4 eexists; split; [reflexivity|exact Hpi]);
    apply Hfin; unfold place_FIFO, place_LRU, place_CLOCK;
    destruct (occupiedFrameCount m <? numPages bm); try apply Hfill.
  - now apply replace_FIFO_inv.
  - now apply replace_LRU_inv.
  - apply replace_CLOCK_inv; try assumption.
    rewrite dist_self by assumption. unfold nframes. lia.
Qed.

Lemma unpinPage_inv (bm : BM_BufferPool) (page : BM_PageHandle) :
  pool_inv bm = true ->
  exists bm', unpinPage bm page = Some (RC_OK, bm') /\ pool_inv bm' = true.
Proof.
  intros Hpi. destruct (inv_pool bm Hpi) as (m & Hm & Hmo & Hi). inv_parts Hi.
  unfold unpinPage. rewrite Hmo.
  destruct (find_page_total m (ph_pageNum page) (proj1 Hi))
    as [(frame & -> & Hf & _)|(-> & _)]; [|eauto].
  eexists. split; [reflexivity|]. apply pool_inv_set. inv_kept m Hi.
Qed.

Lemma markDirty_inv (bm : BM_BufferPool) (page : BM_PageHandle) :
  pool_inv bm = true -> 0 <= ph_pageNum page ->
  exists bm', markDirty bm page = Some (RC_OK, bm') /\ pool_inv bm' = true.
Proof.
  intros Hpi Hp. destruct (inv_pool bm Hpi) as (m & Hm & Hmo & Hi). inv_parts Hi.
  unfold markDirty. rewrite Hmo.
  destruct (find_page_total m (ph_pageNum page) (proj1 Hi))
    as [(frame & -> & Hf & Hpage)|(-> & _)]; [|eauto].
  eexists. split; [reflexivity|]. apply pool_inv_set.
  apply (inv_of m); [exact Hi|ring_kept..|]. cbn [frames upd set_frames].
  apply forallb_alter; [assumption|]. intros _. unfold frame_ok. cbn.
  unfold frame_at in Hpage. rewrite Hpage.
  destruct (Z.eqb_spec (ph_pageNum page) NO_PAGE); [unfold NO_PAGE in *; lia|].
  reflexivity.
Qed.

Lemma forcePage_inv (bm : BM_BufferPool) (page : BM_PageHandle) (w : World) :
  pool_inv bm = true ->
  exists rc bm' w', forcePage bm page w = Some (rc, bm', w') /\ pool_inv bm' = true.
Proof.
  intros Hpi. destruct (inv_pool bm Hpi) as (m & Hm & Hmo & Hi).
  pose proof Hi as [(Hn' & Hh' & _) _]. inv_parts Hi.
  unfold forcePage. rewrite Hmo. destruct (openPageFile _ w) as [rc w0].
  destruct (negb (rc_is_ok rc)); [eauto|].
  match goal with |- context [scan _ _ ?t _ _] => set (test := t) end.
  destruct (scan_spec (nframes m) Hn' test (head m) Hh' (nframes m) (head m) Hh')
    as [(k & _ & -> & _)|(-> & _)]; [rewrite dist_self by assumption; lia| |eauto].
  destruct (writeBlock _ _ w0) as [rc' w1]. destruct (negb (rc_is_ok rc')); [eauto|].
  do 3 eexists. split; [reflexivity|]. apply pool_inv_set. inv_kept m Hi.
Qed.

Lemma forceFlushPool_inv (bm : BM_BufferPool) (w : World) :
  pool_inv bm = true ->
  exists rc bm' w', forceFlushPool bm w = Some (rc, bm', w') /\ pool_inv bm' = true.
Proof.
  intros Hpi. destruct (inv_pool bm Hpi) as (m & Hm & Hmo & Hi). inv_parts Hi.
  assert (Hwf : well_formed bm = true)
    by (unfold pool_inv in Hpi; now apply andb_prop in Hpi as [? _]).
  destruct (openPageFile (pageFile bm) w) as [rc w0] eqn:Hopen.
  destruct (rc_is_ok rc) eqn:Hrc.
  - destruct rc; try discriminate.
    destruct (write_back
                (map (frame_at m)
                   (List.filter (fun g => loop_test (frame_at m g))
                      (ring_order (nframes m) (head m)))) w0) as [c w1] eqn:Hwb.
    destruct (forceFlushPool_run bm w w0 m c w1 Hwf Hm Hopen Hwb) as [_ ->].
    do 3 eexists. split; [reflexivity|]. apply pool_inv_set.
    apply (inv_of m); [exact Hi| |ring_kept..|].
    + unfold flushed. cbn. apply clear_all_length.
    + unfold flushed. cbn. now apply clear_all_ok.
  - unfold forceFlushPool. rewrite Hmo, Hopen, Hrc. cbn. eauto.
Qed.

(** Between the calls of a session the pool is in order, and no call of
    the session is undefined or runs out of fuel. *)
Lemma run_inv (cs : list call) :
  forallb valid_call cs = true ->
  forall bm w,
    pool_inv bm = true ->
    exists bm' w', run cs (bm, w) = Some (bm', w') /\ pool_inv bm' = true.
Proof.
  induction cs as [|c cs IH]; intros Hv bm w Hpi; [cbn; eauto|].
  cbn in Hv. apply andb_prop in Hv as [Hc Hcs]. cbn [run run1].
  destruct c as [p|p|p|p|]; cbn in Hc; try apply Z.leb_le in Hc.
  - destruct (pin_switch_inv bm (mkHandle 0 0) p w Hpi Hc)
      as (rc & bm' & page' & w' & Hs & Hpi').
    unfold pinPage. rewrite Hs. now apply IH.
  - destruct (unpinPage_inv bm (mkHandle p 0) Hpi) as (bm' & -> & Hpi').
    now apply IH.
  - destruct (markDirty_inv bm (mkHandle p 0) Hpi Hc) as (bm' & -> & Hpi').
    now apply IH.
  - destruct (forcePage_inv bm (mkHandle p 0) w Hpi) as (rc & bm' & w' & -> & Hpi').
    now apply IH.
  - destruct (forceFlushPool_inv bm w Hpi) as (rc & bm' & w' & -> & Hpi').
    now apply IH.
Qed.

End Invariant.

(** ** One frame per page *)

Lemma pages_alter_at (g : PageFrame -> PageFrame) (fs : list PageFrame) (i : nat) :
  ((i < length fs)%nat -> pageNum (g (fs !!! i)) = pageNum (fs !!! i)) ->
  map pageNum (alter g i fs) = map pageNum fs.
Proof.
  revert i. induction fs as [|f fs IH]; intros i Hi; [reflexivity|].
  destruct i as [|i]; cbn.
  - f_equal. apply Hi. cbn. lia.
  - f_equal. apply IH. intros Hlt. apply Hi. cbn. lia.
Qed.

Lemma pages_alter_bind (g : PageFrame -> PageFrame) (p : PageNumber)
  (fs : list PageFrame) (i : nat) :
  (forall f, pageNum (g f) = p) ->
  map pageNum (alter g i fs) = <[i:=p]> (map pageNum fs).
Proof.
  intros Hg. revert i. induction fs as [|f fs IH]; intros i; [reflexivity|].
  destruct i as [|i]; cbn; [now rewrite Hg|]. f_equal. apply IH.
Qed.

Lemma unique_insert (l : list PageNumber) (f : nat) (p : PageNumber) :
  distinct_pages l -> (forall i, l !! i <> Some p) -> distinct_pages (<[f:=p]> l).
Proof.
  intros Hu Hp i j x Hi Hj Hx.
  rewrite list_lookup_insert in Hi, Hj.
  destruct (decide (f = i /\ (f < length l)%nat)) as [[E1 _]|_];
    destruct (decide (f = j /\ (f < length l)%nat)) as [[E2 _]|_].
  - congruence.
  - injection Hi as <-. now destruct (Hp j).
  - injection Hj as <-. now destruct (Hp i).
  - exact (Hu i j x Hi Hj Hx).
Qed.

(** In a pool with one frame per page, the frame that holds a page is the
    only one that does. *)
Lemma distinct_resident (m : BM_BufferPool_Mgmt) (p : PageNumber) (f : nat) :
  distinct_pages (pages m) -> p <> NO_PAGE ->
  (f < nframes m)%nat -> pageNum (frame_at m f) = p -> resident_in m p f.
Proof.
  intros Hu Hp Hf Hpf. split; [exact Hf|]. split; [exact Hpf|].
  intros g Hg Hpg. apply (Hu g f p); [now apply pages_lookup..|exact Hp].
Qed.

Lemma clock_sweep_pages (n fuel : nat) :
  forall fs frame fs' frame',
    clock_sweep fuel n fs frame = Some (fs', frame') ->
    map pageNum fs' = map pageNum fs.
Proof.
  induction fuel as [|fuel IH]; intros fs frame fs' frame'; cbn [clock_sweep];
    destruct (negb _); try discriminate; try (intros [= <- <-]; now auto).
  intros H. apply IH in H. rewrite H. now apply pages_alter_at.
Qed.

Lemma clear_all_pages (gs : list nat) (fs : list PageFrame) :
  map pageNum (clear_all gs fs) = map pageNum fs.
Proof.
  revert fs. induction gs as [|a gs IH]; intros fs; [reflexivity|].
  cbn [clear_all foldl]. fold (clear_all gs (alter (set_dirty 0) a fs)).
  rewrite IH. now apply pages_alter_at.
Qed.

Lemma distinct_after (p : PageNumber) (m m' : BM_BufferPool_Mgmt) :
  distinct_pages (pages m) -> pages_after p m m' -> distinct_pages (pages m').
Proof.
  intros Hu [->|[Hmiss [f ->]]]; [exact Hu|]. now apply unique_insert.
Qed.

Section DistinctPages.

Context {SM : StorageMgr}.

(** The page numbers of a pool built from [m] by updates through pointers. *)
Ltac pages_kept :=
  unfold pages;
  cbn [frames upd set_frames set_head set_tail set_occupied set_reads set_writes];
  repeat (rewrite pages_alter_at by (intros; reflexivity));
  try reflexivity.

Lemma fill_frame_pages (ref : bool) (m : BM_BufferPool_Mgmt) (p : PageNumber) :
  pages (fst (fill_frame ref m p)) = <[head m:=p]> (pages m).
Proof.
  unfold fill_frame. cbn [fst].
  destruct ref; destruct (negb _); pages_kept;
    now rewrite (pages_alter_bind (set_pageNum p) p).
Qed.

Lemma rebind_pages (p : PageNumber) (m m2 : BM_BufferPool_Mgmt) (f : nat) :
  frames m2 = frames m ->
  map pageNum (alter (rebind p) f (frames m2)) = <[f:=p]> (pages m).
Proof. intros ->. now rewrite (pages_alter_bind (rebind p) p). Qed.

Lemma replace_FIFO_pages (m : BM_BufferPool_Mgmt) (w : World) (p : PageNumber)
  (r : placed) :
  replace_FIFO m w p = Some r -> placed_pages p m r.
Proof.
  unfold replace_FIFO. destruct (scan _ _ _ _ _) as [[frame|frame]|]; [| |discriminate].
  - destruct (write_victim m w frame) as [a|[m2 w2]] eqn:Hv.
    + apply write_victim_abort in Hv as (w' & ->). now intros [= <-].
    + apply write_victim_keeps in Hv as (Hfs & _). intros [= <-]. right.
      exists frame. pages_kept. now apply rebind_pages.
  - intros [= <-]. now left.
Qed.

Lemma replace_LRU_pages (m : BM_BufferPool_Mgmt) (w : World) (p : PageNumber)
  (r : placed) :
  replace_LRU m w p = Some r -> placed_pages p m r.
Proof.
  unfold replace_LRU. destruct (scan _ _ _ _ _) as [[frame|frame]|]; [| |discriminate].
  - destruct (write_victim m w frame) as [a|[m2 w2]] eqn:Hv.
    + apply write_victim_abort in Hv as (w' & ->). now intros [= <-].
    + apply write_victim_keeps in Hv as (Hfs & _).
      destruct (negb _); intros [= <-]; right; eexists; pages_kept;
        now apply rebind_pages.
  - intros [= <-]. now left.
Qed.

Lemma replace_CLOCK_pages (w : World) (p : PageNumber) (r : placed) :
  forall fuel m frame,
    replace_CLOCK fuel m w p frame = Some r -> placed_pages p m r.
Proof.
  induction fuel as [|fuel IH]; intros m frame; [discriminate|].
  cbn [replace_CLOCK]. destruct (negb (fixCount (frame_at m frame) =? 0)).
  - destruct (_ =? head m)%nat; [|apply IH]. intros [= <-]. now left.
  - destruct (clock_sweep _ _ _ _) as [[fs' frame']|] eqn:Hs; [|discriminate].
    apply clock_sweep_pages in Hs.
    destruct (referenceBit _ =? 0).
    + destruct (write_victim _ w frame') as [a|[m2 w2]] eqn:Hv.
      * apply write_victim_abort in Hv as (w' & ->). intros [= <-]. exact Hs.
      * apply write_victim_keeps in Hv as (Hfs & _). cbn in Hfs.
        intros [= <-]. right. exists frame'. pages_kept.
        rewrite (pages_alter_bind (rebind p) p) by reflexivity.
        rewrite pages_alter_at by (intros; reflexivity).
        now rewrite Hfs, Hs.
    + destruct (_ =? _)%nat.
      * intros [= <-]. left. exact Hs.
      * intros H. apply IH in H.
        assert (Hp : pages (set_frames fs' m) = pages m) by exact Hs.
        destruct r as [rc m' w'|m' w' fr]; cbn in *; now rewrite <- Hp.
Qed.

Lemma read_page_pages (c : bool) (m : BM_BufferPool_Mgmt) (w : World) (frame : nat)
  (page : BM_PageHandle) (p : PageNumber) :
  pages (snd (fst (fst (read_page c m w frame page p)))) = pages m.
Proof.
  unfold read_page. destruct (readBlock _ _ _) as [[rc buf] w2].
  destruct (negb _); cbn [fst snd]; pages_kept.
Qed.

Lemma finish_pages (c : bool) (bm : BM_BufferPool) (page : BM_PageHandle)
  (p : PageNumber) (m : BM_BufferPool_Mgmt) (r : option placed)
  (rc : RC) (bm' : BM_BufferPool) (page' : BM_PageHandle) (w' : World) :
  (forall x, r = Some x -> placed_pages p m x) ->
  finish c bm page p r = Some (rc, bm', page', w') ->
  exists m', mgmtData bm' = Some m'
             /\ (pages m' = pages m \/ exists f, pages m' = <[f:=p]> (pages m)).
Proof.
  intros Hr. destruct r as [[rc0 m0 w0|m0 w0 frame]|]; [| |discriminate];
    specialize (Hr _ eq_refl); cbn [finish placed_pages] in *.
  - intros [= _ <- _ _]. eexists. split; [reflexivity|]. now left.
  - pose proof (read_page_pages c m0 w0 frame page p) as Hp.
    destruct (read_page c m0 w0 frame page p) as [[[rc1 m1] page1] w1].
    cbn [fst snd] in Hp. intros [= _ <- _ _]. eexists. split; [reflexivity|].
    rewrite Hp. exact Hr.
Qed.

Lemma pin_switch_pages (bm : BM_BufferPool) (page : BM_PageHandle) (p : PageNumber)
  (w : World) (m : BM_BufferPool_Mgmt) (rc : RC) (bm' : BM_BufferPool)
  (page' : BM_PageHandle) (w' : World) :
  wf_mgmt m -> mgmtData bm = Some m -> mgmt_of bm = Some m ->
  pin_switch bm page p w = Some (rc, bm', page', w') ->
  exists m', mgmtData bm' = Some m' /\ pages_after p m m'.
Proof.
  intros Hw Hm Hmo. unfold pin_switch, pinPageFIFO, pinPageLRU, pinPageCLOCK.
  rewrite Hmo.
  destruct (find_page_total m p Hw) as [(frame & -> & Hf & Hpage)|(-> & Hmiss)].
  - assert (Hsame : <[frame:=p]> (pages m) = pages m)
      by (apply list_insert_id; now apply pages_lookup).
    destruct (strategy bm); intros [= _ <- _ _];
      [| | |exists m; split; [exact Hm|now left]];
      (eexists; split; [reflexivity|]); left; pages_kept;
      rewrite (pages_alter_bind (rebind p) p) by reflexivity;
      rewrite ?pages_alter_at by (intros; reflexivity); exact Hsame.
  - assert (Hnone : forall i, pages m !! i <> Some p).
    { intros i Hi. apply pages_lookup in Hi as [Hi Hp]. now apply (Hmiss i). }
    assert (Hfill : forall ref w0 x,
              (let '(m0, frame) := fill_frame ref m p in Some (Proceed m0 w0 frame))
              = Some x -> placed_pages p m x).
    { intros ref w0 x. pose proof (fill_frame_pages ref m p) as Hp.
      destruct (fill_frame ref m p) as [m0 frame]. intros [= <-]. right.
      eexists. exact Hp. }
    assert (Hfin : forall c r,
              (forall x, r = Some x -> placed_pages p m x) ->
              finish c bm page p r = Some (rc, bm', page', w') ->
              exists m', mgmtData bm' = Some m' /\ pages_after p m m').
    { intros c r Hr Hfi.
      destruct (finish_pages c bm page p m r rc bm' page' w' Hr Hfi)
        as (m' & Hm' & Hp).
      exists m'. split; [exact Hm'|]. destruct Hp as [Hp|Hp]; [now left|now right]. }
    destruct (strategy bm).
    + apply Hfin. unfold place_FIFO. destruct (_ <? _); [apply Hfill|].
      intros x. apply replace_FIFO_pages.
    + apply Hfin. unfold place_LRU. destruct (_ <? _); [apply Hfill|].
      intros x. apply replace_LRU_pages.
    + apply Hfin. unfold place_CLOCK. destruct (_ <? _); [apply Hfill|].
      intros x. apply replace_CLOCK_pages.
    + intros [= _ <- _ _]. exists m. split; [exact Hm|]. now left.
Qed.

(** The other calls leave the page numbers alone. *)
Lemma run1_pages (c : call) (bm bm' : BM_BufferPool) (w w' : World)
  (m : BM_BufferPool_Mgmt) :
  pool_inv bm = true -> mgmtData bm = Some m ->
  run1 c (bm, w) = Some (bm', w') ->
  exists m', mgmtData bm' = Some m'
             /\ match c with
                | Pin p => pages_after p m m'
                | _ => pages m' = pages m
                end.
Proof.
  intros Hpi Hm. destruct (inv_pool bm Hpi) as (m0 & Hm0 & Hmo & Hi).
  assert (m0 = m) by congruence. subst m0. pose proof Hi as [Hw _].
  assert (Hwf : well_formed bm = true)
    by (unfold pool_inv in Hpi; now apply andb_prop in Hpi as [? _]).
  destruct c as [p|p|p|p|]; cbn [run1].
  - unfold pinPage. destruct (pin_switch bm _ p w) as [[[[rc bm1] page1] w1]|] eqn:Hs;
      [|discriminate].
    intros [= <- _]. exact (pin_switch_pages _ _ _ _ _ _ _ _ _ Hw Hm Hmo Hs).
  - unfold unpinPage. rewrite Hmo.
    destruct (find_page m _) as [[frame|frame]|]; intros [= <- _];
      (eexists; split; [first [reflexivity|exact Hm]|]); pages_kept.
  - unfold markDirty. rewrite Hmo.
    destruct (find_page m _) as [[frame|frame]|]; intros [= <- _];
      (eexists; split; [first [reflexivity|exact Hm]|]); pages_kept.
  - unfold forcePage. rewrite Hmo. destruct (openPageFile _ w) as [rc w0].
    destruct (negb (rc_is_ok rc)).
    + intros [= <- _]. eauto.
    + destruct (scan _ _ _ _ _) as [[Frame|Frame]|]; [| |discriminate].
      * destruct (writeBlock _ _ w0) as [rc' w1]. destruct (negb (rc_is_ok rc'));
          intros [= <- _]; (eexists; split; [first [reflexivity|exact Hm]|]);
          pages_kept.
      * intros [= <- _]. eauto.
  - destruct (openPageFile (pageFile bm) w) as [rc w0] eqn:Hopen.
    destruct (rc_is_ok rc) eqn:Hrc.
    + destruct rc; try discriminate.
      destruct (write_back
                  (map (frame_at m)
                     (List.filter (fun g => loop_test (frame_at m g))
                        (ring_order (nframes m) (head m)))) w0) as [c w1] eqn:Hwb.
      destruct (forceFlushPool_run bm w w0 m c w1 Hwf Hm Hopen Hwb) as [_ ->].
      intros [= <- _]. eexists. split; [reflexivity|].
      unfold pages, flushed. cbn. apply clear_all_pages.
    + unfold forceFlushPool. rewrite Hmo, Hopen, Hrc. cbn. intros [= <- _]. eauto.
Qed.

(** One frame per page, all through a session. *)
Lemma run_distinct (cs : list call) :
  forallb valid_call cs = true ->
  forall bm w bm' w' m,
    pool_inv bm = true -> mgmtData bm = Some m -> distinct_pages (pages m) ->
    run cs (bm, w) = Some (bm', w') ->
    exists m', mgmtData bm' = Some m' /\ distinct_pages (pages m').
Proof.
  induction cs as [|c cs IH]; intros Hv bm w bm' w' m Hpi Hm Hu.
  - cbn. intros [= <- _]. eauto.
  - cbn in Hv. apply andb_prop in Hv as [Hc Hcs]. cbn [run].
    destruct (run1 c (bm, w)) as [[bm1 w1]|] eqn:H1; [|discriminate].
    destruct (run1_pages c bm bm1 w w1 m Hpi Hm H1) as (m1 & Hm1 & Hp).
    assert (Hu1 : distinct_pages (pages m1)).
    { destruct c; try (now rewrite Hp). now apply (distinct_after p m). }
    assert (Hpi1 : pool_inv bm1 = true).
    { destruct (run_inv [c] ltac:(cbn; now rewrite Hc) bm w Hpi)
        as (bm2 & w2 & Hr & Hpi2).
      cbn [run] in Hr. rewrite H1 in Hr. now injection Hr as <- _. }
    now apply (IH Hcs bm1 w1 bm' w' m1).
Qed.

(** Every session on a pool of at least one frame, with page numbers from
    0 on, runs through without an undefined step and ends in a state that
    the statements about single calls apply to. *)
Lemma session_in_order (bm0 bm : BM_BufferPool) (name : string) (n : Z)
  (strat : ReplacementStrategy) (w0 w : World) (cs : list call) :
  1 <= n ->
  initBufferPool bm0 name n strat w0 = (RC_OK, bm, w) ->
  forallb valid_call cs = true ->
  exists bm' w' m',
    run cs (bm, w) = Some (bm', w')
    /\ mgmtData bm' = Some m'
    /\ well_formed bm' = true
    /\ clean_when_empty m' = true
    /\ distinct_pages (pages m').
Proof.
  intros Hn Hinit Hv.
  destruct (initBufferPool_inv bm0 bm name n strat w0 w Hn Hinit)
    as (Hpi & _ & _ & m & Hm & _ & _ & _ & _ & _ & _ & Hu).
  destruct (run_inv cs Hv bm w Hpi) as (bm' & w' & Hrun & Hpi').
  destruct (run_distinct cs Hv bm w bm' w' m Hpi Hm Hu Hrun) as (m' & Hm' & Hu').
  exists bm', w', m'. split; [exact Hrun|]. split; [exact Hm'|].
  unfold pool_inv in Hpi'. apply andb_prop in Hpi' as [Hwf Hc]. rewrite Hm' in Hc.
  auto.
Qed.

End DistinctPages.

(** ** Runs of the code on the in-memory page file *)

Section Runs.

Import MemDisk.

#[local] Existing Instance mem.

(** C1. A fixed frame is not safe from a miss.  Under FIFO, with the one
    frame of the pool fixed on page 1, pinning page 2 reads page 2 into the
    buffer of that frame, which still counts as page 1.  Under LRU a hit on
    page 1 followed by a miss binds page 2 into the frame that holds the
    fixed page 1.  Under CLOCK the frame that holds page 2, fixed once, is
    taken as the victim for page 5. *)
Theorem fixed_frame_overwritten :
  (stats (session RS_FIFO 1 [Pin 1]) = Some ([1], [1], [false], 1, 0)
   /\ buffers (session RS_FIFO 1 [Pin 1]) = Some [[x01; x01]]
   /\ stats (session RS_FIFO 1 [Pin 1; Pin 2]) = Some ([1], [1], [false], 2, 0)
   /\ buffers (session RS_FIFO 1 [Pin 1; Pin 2]) = Some [[x02; x02]])
  /\ (stats (session RS_LRU 3 [Pin 1; Pin 1])
        = Some ([1; -1; -1], [2; 0; 0], [false; false; false], 1, 0)
      /\ stats (session RS_LRU 3 [Pin 1; Pin 1; Pin 2])
        = Some ([2; -1; -1], [3; 0; 0], [false; false; false], 2, 0))
  /\ (stats (session RS_CLOCK 3 [Pin 1; Pin 2; Pin 3; Unpin 1; Pin 4; Unpin 4])
        = Some ([4; 2; 3], [0; 1; 1], [false; false; false], 4, 0)
      /\ stats (session RS_CLOCK 3
                  [Pin 1; Pin 2; Pin 3; Unpin 1; Pin 4; Unpin 4; Pin 5])
        = Some ([4; 5; 3], [0; 2; 1], [false; false; false], 5, 0)).
Proof. vm_compute. repeat split. Qed.

(** C2. With the three frames of a FIFO pool fixed on pages 1, 2 and 3,
    pinning page 4 does not fail: [pinPageFIFO] itself returns [RC_OK] with
    a handle for page 4 on the buffer of frame 0, the read counter goes
    from 3 to 4, and the buffer of frame 0, still bound to page 1, holds
    the bytes of page 4. *)
Theorem all_fixed_pin_succeeds :
  stats (session RS_FIFO 3 [Pin 1; Pin 2; Pin 3])
    = Some ([1; 2; 3], [1; 1; 1], [false; false; false], 3, 0)
  /\ buffers (session RS_FIFO 3 [Pin 1; Pin 2; Pin 3])
     = Some [[x01; x01]; [x02; x02]; [x03; x03]]
  /\ exists bm' w',
       pinPageFIFO (pool_after RS_FIFO 3 [Pin 1; Pin 2; Pin 3]) (mkHandle 0 0) 4
                   six_pages
         = Some (RC_OK, bm', mkHandle 4 0, w')
       /\ stats (Some (bm', w'))
          = Some ([1; 2; 3], [1; 1; 1], [false; false; false], 4, 0)
       /\ buffers (Some (bm', w')) = Some [[x04; x04]; [x02; x02]; [x03; x03]].
Proof. vm_compute. repeat split. do 2 eexists. repeat split. Qed.

(** C7. The scenario of the claim holds: after pin and unpin of pages 1, 2
    and 3 all reference bits are set, and pinning page 4 clears them, takes
    frame 0 and leaves the contents [4; 2; 3] with four reads.  The rule
    behind it does not hold in general: once the sweep has started at a
    frame that is not fixed, it stops at the first frame whose reference
    bit is 0 without looking at its fix count.  With only frame 0 free and
    the bits of the fixed frames 1 and 2 cleared by an earlier sweep,
    pinning page 5 takes frame 1. *)
Theorem clock_second_chance :
  (stats (session RS_CLOCK 3 [Pin 1; Unpin 1; Pin 2; Unpin 2; Pin 3; Unpin 3])
     = Some ([1; 2; 3], [0; 0; 0], [false; false; false], 3, 0)
   /\ reference_bits
        (session RS_CLOCK 3 [Pin 1; Unpin 1; Pin 2; Unpin 2; Pin 3; Unpin 3])
      = Some [1; 1; 1]
   /\ stats (session RS_CLOCK 3
               [Pin 1; Unpin 1; Pin 2; Unpin 2; Pin 3; Unpin 3; Pin 4])
      = Some ([4; 2; 3], [1; 0; 0], [false; false; false], 4, 0)
   /\ reference_bits
        (session RS_CLOCK 3
           [Pin 1; Unpin 1; Pin 2; Unpin 2; Pin 3; Unpin 3; Pin 4])
      = Some [1; 0; 0])
  /\ (stats (session RS_CLOCK 3 [Pin 1; Pin 2; Pin 3; Unpin 1; Pin 4; Unpin 4])
        = Some ([4; 2; 3], [0; 1; 1], [false; false; false], 4, 0)
      /\ reference_bits
           (session RS_CLOCK 3 [Pin 1; Pin 2; Pin 3; Unpin 1; Pin 4; Unpin 4])
         = Some [1; 0; 0]
      /\ getFrameContents
           (pool_after RS_CLOCK 3
              [Pin 1; Pin 2; Pin 3; Unpin 1; Pin 4; Unpin 4; Pin 5])
         = Some [4; 5; 3]
      /\ getFixCounts
           (pool_after RS_CLOCK 3
              [Pin 1; Pin 2; Pin 3; Unpin 1; Pin 4; Unpin 4; Pin 5])
         = Some [0; 2; 1]).
Proof. vm_compute. repeat split. Qed.

(** C9. Under LRU a hit moves [head] to the frame that was hit, and the
    next miss of a pool that is not full binds its page there: after pages
    1 and 2 have gone to frames 0 and 1, a hit on page 1 sends page 3 to
    frame 0 and not to the empty frame 2.  FIFO and CLOCK fill frame 2. *)
Theorem lru_fill_overwrites :
  getFrameContents (pool_after RS_LRU 3 [Pin 1; Unpin 1; Pin 2; Unpin 2])
    = Some [1; 2; -1]
  /\ getFrameContents
       (pool_after RS_LRU 3 [Pin 1; Unpin 1; Pin 2; Unpin 2; Pin 1; Unpin 1; Pin 3])
     = Some [3; 2; -1]
  /\ getFrameContents
       (pool_after RS_FIFO 3 [Pin 1; Unpin 1; Pin 2; Unpin 2; Pin 1; Unpin 1; Pin 3])
     = Some [1; 2; 3]
  /\ getFrameContents
       (pool_after RS_CLOCK 3 [Pin 1; Unpin 1; Pin 2; Unpin 2; Pin 1; Unpin 1; Pin 3])
     = Some [1; 2; 3].
Proof. vm_compute. repeat split. Qed.

End Runs.

(** ** The general statements at work *)

Section Instances.

Import MemDisk.

#[local] Existing Instance mem.

Lemma released_resident : resident_in released_m 1 0.
Proof.
  split; [vm_compute; lia|]. split; [vm_compute; reflexivity|].
  intros [|[|[|g]]] Hg Hp; vm_compute in Hg; try reflexivity;
    try (vm_compute in Hp; discriminate); lia.
Defined.

(** C4, refuted as stated: with the fix count of page 1 at 0, [unpinPage]
    returns [RC_OK] and leaves the fix count at -1; for page 7, which no
    frame holds, it returns [RC_OK] as well. *)
Lemma unpin_reports_nothing :
  getFixCounts released = Some [0; 0; 0]
  /\ (exists bm', unpinPage released (mkHandle 1 0) = Some (RC_OK, bm')
                  /\ getFixCounts bm' = Some [-1; 0; 0])
  /\ unpinPage released (mkHandle 7 0) = Some (RC_OK, released).
Proof. vm_compute. repeat split. eexists. repeat split. Qed.

Lemma unpinPage_decrements_witness :
  well_formed released = true
  /\ mgmtData released = Some released_m
  /\ resident_in released_m (ph_pageNum (mkHandle 1 0)) 0
  /\ INT_MIN < fixCount (frame_at released_m 0) <= INT_MAX
  /\ exists m',
       unpinPage released (mkHandle 1 0) = Some (RC_OK, set_mgmt m' released)
       /\ fixCount (frame_at m' 0) = fixCount (frame_at released_m 0) - 1
       /\ frame_at m' 0
          = set_fixCount (fixCount (frame_at released_m 0) - 1) (frame_at released_m 0)
       /\ (forall g, g <> 0%nat -> frame_at m' g = frame_at released_m g)
       /\ getNumReadIO m' = getNumReadIO released_m
       /\ getNumWriteIO m' = getNumWriteIO released_m
       /\ occupiedFrameCount m' = occupiedFrameCount released_m.
Proof.
  assert (H1 : well_formed released = true) by (vm_compute; reflexivity).
  assert (H2 : mgmtData released = Some released_m) by (vm_compute; reflexivity).
  assert (H4 : INT_MIN < fixCount (frame_at released_m 0) <= INT_MAX)
    by (vm_compute; split; [reflexivity|discriminate]).
  split; [exact H1|]. split; [exact H2|]. split; [exact released_resident|].
  split; [exact H4|].
  exact (unpinPage_decrements released (mkHandle 1 0) released_m 0
           H1 H2 released_resident H4).
Defined.

Lemma pin_resident_page_witness :
  well_formed released = true
  /\ mgmtData released = Some released_m
  /\ strategy released <> RS_OTHER
  /\ resident_in released_m 1 0
  /\ INT_MIN <= fixCount (frame_at released_m 0) < INT_MAX
  /\ exists m' w',
       pinPage released (mkHandle 0 0) 1 six_pages
         = Some (RC_OK, set_mgmt m' released, mkHandle 1 0, w')
       /\ fixCount (frame_at m' 0) = fixCount (frame_at released_m 0) + 1
       /\ pageNum (frame_at m' 0) = 1
       /\ dirtyFlagSignal (frame_at m' 0) = dirtyFlagSignal (frame_at released_m 0)
       /\ data (frame_at m' 0) = data (frame_at released_m 0)
       /\ getNumReadIO m' = getNumReadIO released_m
       /\ getNumWriteIO m' = getNumWriteIO released_m
       /\ occupiedFrameCount m' = occupiedFrameCount released_m
       /\ forall g, g <> 0%nat -> frame_at m' g = frame_at released_m g.
Proof.
  assert (H1 : well_formed released = true) by (vm_compute; reflexivity).
  assert (H2 : mgmtData released = Some released_m) by (vm_compute; reflexivity).
  assert (H3 : strategy released <> RS_OTHER) by (vm_compute; discriminate).
  assert (H5 : INT_MIN <= fixCount (frame_at released_m 0) < INT_MAX)
    by (vm_compute; split; [discriminate|reflexivity]).
  split; [exact H1|]. split; [exact H2|]. split; [exact H3|].
  split; [exact released_resident|]. split; [exact H5|].
  exact (pin_resident_page (SM := mem) released (mkHandle 0 0) 1 six_pages released_m 0
           H1 H2 H3 released_resident H5).
Defined.

(** C5, refuted as stated: with page 1 still fixed, [shutdownBufferPool]
    returns [RC_OK] and the pool is gone. *)
Lemma shutdown_of_pool_in_use :
  getFixCounts in_use = Some [1; 0; 0]
  /\ exists w',
       shutdownBufferPool in_use six_pages
       = Some (RC_OK, mkPool None 0 RS_FIFO None, w').
Proof. vm_compute. split; [reflexivity|]. eexists. reflexivity. Qed.

Lemma shutdown_follows_flush_witness :
  well_formed in_use = true
  /\ exists rc bm1 w1,
       forceFlushPool in_use six_pages = Some (rc, bm1, w1)
       /\ shutdownBufferPool in_use six_pages
          = Some (if rc_is_ok rc
                  then (RC_OK, mkPool None 0 (strategy in_use) None, w1)
                  else (rc, bm1, w1)).
Proof.
  split; [vm_compute; reflexivity|].
  apply (shutdown_follows_flush (SM := mem) in_use six_pages). vm_compute; reflexivity.
Defined.

(** C3, refuted as stated: the read of page 1 fails, [pinPageFIFO] returns
    [RC_READ_NON_EXISTING_PAGE] without counting a read, and frame 0 is
    bound to page 1 with fix count 1; the next pin of page 1 is a hit that
    performs no read at all. *)
Lemma failed_read_keeps_binding :
  exists bm',
    pinPageFIFO fresh (mkHandle 0 0) 1 None
      = Some (RC_READ_NON_EXISTING_PAGE, bm', mkHandle 0 0, None)
    /\ stats (Some (bm', None))
       = Some ([1; -1; -1], [1; 0; 0], [false; false; false], 0, 0)
    /\ exists bm'',
         pinPageFIFO bm' (mkHandle 0 0) 1 six_pages
           = Some (RC_OK, bm'', mkHandle 1 0, six_pages)
         /\ stats (Some (bm'', six_pages))
            = Some ([1; -1; -1], [2; 0; 0], [false; false; false], 0, 0).
Proof.
  eexists. split; [vm_compute; reflexivity|]. split; [vm_compute; reflexivity|].
  eexists. split; vm_compute; reflexivity.
Qed.

Lemma pinPage_always_OK_witness :
  well_formed fresh = true
  /\ exists rc bm' page' w',
       pin_switch fresh (mkHandle 0 0) 1 None = Some (rc, bm', page', w')
       /\ pinPage fresh (mkHandle 0 0) 1 None = Some (RC_OK, bm', page', w').
Proof.
  split; [vm_compute; reflexivity|].
  apply (pinPage_always_OK (SM := mem) fresh (mkHandle 0 0) 1 None). vm_compute; reflexivity.
Defined.

(** The code [pinPage] swallows in that run is the read failure. *)
Lemma pinPage_hides_read_failure :
  exists bm' page' w',
    pin_switch fresh (mkHandle 0 0) 1 None
      = Some (RC_READ_NON_EXISTING_PAGE, bm', page', w')
    /\ pinPage fresh (mkHandle 0 0) 1 None = Some (RC_OK, bm', page', w').
Proof. vm_compute. do 3 eexists. split; reflexivity. Qed.

Lemma forceFlushPool_spec_witness :
  well_formed two_dirty = true
  /\ mgmtData two_dirty = Some two_dirty_m
  /\ clean_when_empty two_dirty_m = true
  /\ openPageFile (pageFile two_dirty) six_pages = (RC_OK, six_pages)
  /\ write_back (map (frame_at two_dirty_m) (flush_order two_dirty_m)) six_pages
     = (1%nat, six_pages)
  /\ let m' := flushed 1 (flush_order two_dirty_m) two_dirty_m in
     (forall g, In g (flush_order two_dirty_m) <->
                (g < nframes two_dirty_m)%nat
                /\ flushable (frame_at two_dirty_m g) = true)
     /\ (1 <= length (flush_order two_dirty_m))%nat
     /\ forceFlushPool two_dirty six_pages
        = Some (if (1 =? length (flush_order two_dirty_m))%nat
                then RC_OK else RC_WRITE_FAILED,
                set_mgmt m' two_dirty, closePageFile six_pages)
     /\ getNumWriteIO m' = Nat.iter 1 incr (getNumWriteIO two_dirty_m)
     /\ getNumReadIO m' = getNumReadIO two_dirty_m
     /\ (forall g, In g (take 1 (flush_order two_dirty_m)) ->
                   frame_at m' g = set_dirty 0 (frame_at two_dirty_m g))
     /\ (forall g, ~ In g (take 1 (flush_order two_dirty_m)) ->
                   frame_at m' g = frame_at two_dirty_m g)
     /\ (forall g, fixCount (frame_at two_dirty_m g) <> 0 ->
                   frame_at m' g = frame_at two_dirty_m g).
Proof.
  assert (H1 : well_formed two_dirty = true) by (vm_compute; reflexivity).
  assert (H2 : mgmtData two_dirty = Some two_dirty_m) by (vm_compute; reflexivity).
  assert (H3 : clean_when_empty two_dirty_m = true) by (vm_compute; reflexivity).
  assert (H4 : openPageFile (pageFile two_dirty) six_pages = (RC_OK, six_pages))
    by (vm_compute; reflexivity).
  assert (H5 : write_back (map (frame_at two_dirty_m) (flush_order two_dirty_m))
                 six_pages = (1%nat, six_pages)) by (vm_compute; reflexivity).
  split; [exact H1|]. split; [exact H2|]. split; [exact H3|]. split; [exact H4|].
  split; [exact H5|].
  exact (forceFlushPool_spec (SM := mem) two_dirty six_pages six_pages two_dirty_m
           1%nat six_pages H1 H2 H3 H4 H5).
Defined.

(** What that flush does to the pool of the run: page 2 is written, page 1
    stays dirty in its fixed frame. *)
Lemma flush_skips_fixed_frame :
  stats (Some (two_dirty, six_pages))
    = Some ([1; 2; -1], [1; 0; 0], [true; true; false], 2, 0)
  /\ flush_order two_dirty_m = [1%nat]
  /\ stats (run [Flush] (two_dirty, six_pages))
     = Some ([1; 2; -1], [1; 0; 0], [true; false; false], 2, 1).
Proof. vm_compute. repeat split. Qed.

Lemma fresh_misses (p : PageNumber) :
  0 <= p -> forall g, (g < nframes fresh_m)%nat -> pageNum (frame_at fresh_m g) <> p.
Proof.
  intros Hp [|[|[|g]]] Hg; vm_compute in Hg; try lia;
    change (pageNum (frame_at fresh_m _)) with (-1); lia.
Defined.

End Instances.

(** * Further properties of the code *)

(** ** The statistics interface *)

Lemma walk_from (A : Type) (g : PageFrame -> A) (fs : list PageFrame) :
  forall k i, (i + k = length fs)%nat -> walk g fs k i = map g (drop i fs).
Proof.
  induction k as [|k IH]; intros i Hik.
  - cbn. rewrite drop_ge by lia. reflexivity.
  - cbn [walk]. assert (Hi : (i < length fs)%nat) by lia.
    destruct (lookup_lt_is_Some_2 fs i Hi) as [f Hf].
    rewrite (drop_S fs f i Hf). cbn [map].
    rewrite (list_lookup_total_correct fs i f Hf). f_equal.
    destruct k as [|k]; [cbn; rewrite drop_ge by lia; reflexivity|].
    unfold next. destruct (Nat.ltb_spec (S i) (length fs)); [|lia].
    apply IH. lia.
Qed.

Lemma statistics_of_shaped (bm : BM_BufferPool) (m : BM_BufferPool_Mgmt) :
  mgmtData bm = Some m ->
  shaped bm m ->
  getFrameContents bm = Some (pages m)
  /\ getFixCounts bm = Some (fix_counts m)
  /\ getDirtyFlags bm = Some (map (fun d => negb (d =? 0)) (dirty_flags m))
  /\ Z.of_nat (length (pages m)) = numPages bm.
Proof.
  intros Hm [Hs Hn]. unfold getFrameContents, getFixCounts, getDirtyFlags.
  rewrite Hm, Hs, Hn, Nat2Z.id. unfold nframes.
  rewrite !walk_from by reflexivity. cbn [drop].
  unfold pages, fix_counts, dirty_flags. rewrite map_map, length_map.
  auto.
Qed.

(** ** Calls that search for a page *)

(** A search once around the ring ends at the only frame that passes the
    test, and runs out at [head] when no frame does. *)
Lemma scan_around (m : BM_BufferPool_Mgmt) (test : nat -> bool) :
  wf_mgmt m ->
  (forall f, (f < nframes m)%nat -> test f = true ->
             (forall g, (g < nframes m)%nat -> test g = true -> g = f) ->
             scan (nframes m) (nframes m) test (head m) (head m) = Some (inl f))
  /\ ((forall g, (g < nframes m)%nat -> test g = false) ->
      scan (nframes m) (nframes m) test (head m) (head m) = Some (inr (head m))).
Proof.
  intros (Hn & Hh & Ht).
  destruct (scan_spec (nframes m) Hn test (head m) Hh (nframes m) (head m) Hh)
    as [(k & Hk & Hs & Htest & _)|(Hs & Hall)];
    [rewrite dist_self by assumption; lia| |].
  - split.
    + intros f Hf Htf Huniq. rewrite Hs. do 2 f_equal.
      apply Huniq; [now apply hop_lt|exact Htest].
    + intros Hnone. rewrite Hnone in Htest by now apply hop_lt. discriminate.
  - split; [|intros _; exact Hs].
    intros f Hf Htf _. destruct (hop_reaches (nframes m) Hn (head m) f Hh Hf)
      as (j & Hj & <-).
    rewrite dist_self in Hall by assumption. rewrite Hall in Htf by exact Hj.
    discriminate.
Qed.

Section Searches.

Context {SM : StorageMgr}.

(** X2. A page that no frame holds is not an error for [markDirty],
    [unpinPage] and [forcePage]: each returns [RC_OK] and leaves the pool
    as it was; [forcePage] has opened and closed the file and written
    nothing. *)
Theorem unknown_page_is_ignored (bm : BM_BufferPool) (page : BM_PageHandle)
  (m : BM_BufferPool_Mgmt) (w w0 : World) :
  well_formed bm = true ->
  mgmtData bm = Some m ->
  no_holder m (ph_pageNum page) ->
  openPageFile (pageFile bm) w = (RC_OK, w0) ->
  markDirty bm page = Some (RC_OK, bm)
  /\ unpinPage bm page = Some (RC_OK, bm)
  /\ forcePage bm page w = Some (RC_OK, bm, closePageFile w0).
Proof.
  intros Hwf Hm Hnone Hopen.
  destruct (well_formed_mgmt bm Hwf) as (m0 & Hm0 & Hmo & Hw).
  assert (m0 = m) by congruence. subst m0.
  assert (Hfind : find_page m (ph_pageNum page) = Some (inr (head m))).
  { destruct (find_page_total m (ph_pageNum page) Hw) as [(g & _ & Hg & Hp)|[H _]];
      [now destruct (Hnone g Hg)|exact H]. }
  unfold markDirty, unpinPage, forcePage. rewrite Hmo, Hfind, Hopen. cbn [rc_is_ok negb].
  split; [reflexivity|]. split; [reflexivity|].
  destruct (scan_around m
              (fun i => holds m (ph_pageNum page) i
                        && (dirtyFlagSignal (frame_at m i) =? 1)) Hw) as [_ Hs].
  rewrite Hs; [reflexivity|]. intros g Hg. unfold holds.
  destruct (Z.eqb_spec (pageNum (frame_at m g)) (ph_pageNum page)) as [He|_];
    [now destruct (Hnone g Hg)|reflexivity].
Qed.

(** X3. [markDirty] on a resident page sets the dirty flag of its frame to
    1 and returns [RC_OK]; nothing else about that frame, no other frame
    and no counter changes, and the fix count plays no part. *)
Theorem markDirty_sets_flag (bm : BM_BufferPool) (page : BM_PageHandle)
  (m : BM_BufferPool_Mgmt) (f : nat) :
  well_formed bm = true ->
  mgmtData bm = Some m ->
  resident_in m (ph_pageNum page) f ->
  exists m',
    markDirty bm page = Some (RC_OK, set_mgmt m' bm)
    /\ frame_at m' f = set_dirty 1 (frame_at m f)
    /\ (forall g, g <> f -> frame_at m' g = frame_at m g)
    /\ getNumReadIO m' = getNumReadIO m
    /\ getNumWriteIO m' = getNumWriteIO m
    /\ occupiedFrameCount m' = occupiedFrameCount m
    /\ head m' = head m /\ tail m' = tail m.
Proof.
  intros Hwf Hm Hres.
  destruct (well_formed_mgmt bm Hwf) as (m0 & Hm0 & Hmo & Hw).
  assert (m0 = m) by congruence. subst m0.
  pose proof (find_page_resident m _ f Hw Hres) as Hfind.
  destruct Hres as (Hf & _ & _).
  unfold markDirty. rewrite Hmo, Hfind.
  exists (upd (set_dirty 1) f m). split; [reflexivity|].
  rewrite frame_at_upd_eq by exact Hf. split; [reflexivity|].
  split; [|auto]. intros g Hg. apply frame_at_upd_ne. congruence.
Qed.

(** X4. [forcePage] on a resident page, with the file open: a frame whose
    dirty flag is 1 is written with its page number and buffer, whatever
    its fix count; if the write succeeds the flag is cleared and the write
    counter goes up by one, if it fails the call returns [RC_WRITE_FAILED]
    and the pool is as before.  A frame whose flag is not 1 is not
    written. *)
Theorem forcePage_writes_dirty_page (bm : BM_BufferPool) (page : BM_PageHandle)
  (m : BM_BufferPool_Mgmt) (f : nat) (w w0 : World) :
  well_formed bm = true ->
  mgmtData bm = Some m ->
  resident_in m (ph_pageNum page) f ->
  openPageFile (pageFile bm) w = (RC_OK, w0) ->
  forcePage bm page w
  = if dirtyFlagSignal (frame_at m f) =? 1 then
      let '(rc, w1) := writeBlock (ph_pageNum page) (data (frame_at m f)) w0 in
      if rc_is_ok rc then
        Some (RC_OK,
              set_mgmt (upd (set_dirty 0) f
                          (set_writes (incr (getNumWriteIO m)) m)) bm,
              closePageFile w1)
      else Some (RC_WRITE_FAILED, bm, closePageFile w1)
    else Some (RC_OK, bm, closePageFile w0).
Proof.
  intros Hwf Hm (Hf & Hp & Huniq) Hopen.
  destruct (well_formed_mgmt bm Hwf) as (m0 & Hm0 & Hmo & Hw).
  assert (m0 = m) by congruence. subst m0.
  unfold forcePage. rewrite Hmo, Hopen. cbn [rc_is_ok negb].
  destruct (scan_around m
              (fun i => holds m (ph_pageNum page) i
                        && (dirtyFlagSignal (frame_at m i) =? 1)) Hw) as [Hhit Hmiss].
  destruct (dirtyFlagSignal (frame_at m f) =? 1) eqn:Hd.
  - rewrite (Hhit f Hf).
    + rewrite Hp. destruct (writeBlock _ _ w0) as [rc w1].
      now destruct (rc_is_ok rc).
    + unfold holds. rewrite Hp, Z.eqb_refl, Hd. reflexivity.
    + intros g Hg Hg'. apply andb_prop in Hg' as [Hg' _]. unfold holds in Hg'.
      apply Z.eqb_eq in Hg'. now apply Huniq.
  - rewrite Hmiss; [reflexivity|]. intros g Hg. unfold holds.
    destruct (Z.eqb_spec (pageNum (frame_at m g)) (ph_pageNum page)) as [He|_];
      [|reflexivity].
    rewrite (Huniq g Hg He), Hd. reflexivity.
Qed.

End Searches.

(** ** Flushing again *)

Lemma filter_nothing (A : Type) (t : A -> bool) (l : list A) :
  (forall x, In x l -> t x = false) -> List.filter t l = [].
Proof.
  induction l as [|a l IH]; intros H; [reflexivity|]. cbn.
  rewrite (H a) by now left. apply IH. intros x Hx. apply H. now right.
Qed.

Section FlushTwice.

Context {SM : StorageMgr}.

(** X5. After a flush that returned [RC_OK] no frame is left that a flush
    would write: a second flush, with the file open, writes nothing,
    returns [RC_OK] and leaves the pool and both counters as the first
    flush left them.  Dirty frames with a fix count other than 0 are
    passed over both times. *)
Theorem flush_again_writes_nothing (bm bm1 : BM_BufferPool) (w w1 w2 : World) :
  well_formed bm = true ->
  forceFlushPool bm w = Some (RC_OK, bm1, w1) ->
  openPageFile (pageFile bm1) w1 = (RC_OK, w2) ->
  forceFlushPool bm1 w1 = Some (RC_OK, bm1, closePageFile w2).
Proof.
  intros Hwf Hfirst Hopen2.
  destruct (well_formed_mgmt bm Hwf) as (m & Hm & Hmo & Hn & Hh & Ht).
  destruct (openPageFile (pageFile bm) w) as [rc w0] eqn:Hopen.
  destruct (rc_is_ok rc) eqn:Hrc.
  2:{ unfold forceFlushPool in Hfirst. rewrite Hmo, Hopen, Hrc in Hfirst.
      discriminate. }
  destruct rc; try discriminate.
  set (todo := List.filter (fun g => loop_test (frame_at m g))
                 (ring_order (nframes m) (head m))) in *.
  destruct (write_back (map (frame_at m) todo) w0) as [c w'] eqn:Hwb.
  destruct (forceFlushPool_run bm w w0 m c w' Hwf Hm Hopen Hwb) as [Hc Hrun].
  fold todo in Hrun, Hc. rewrite Hrun in Hfirst.
  destruct (Nat.eqb_spec c (length todo)) as [->|]; [|discriminate].
  injection Hfirst as <- _.
  set (m1 := flushed (length todo) todo m) in *.
  assert (Hwf1 : well_formed (set_mgmt m1 bm) = true).
  { unfold well_formed, set_mgmt, m1, flushed.
    cbn [mgmtData frames head tail set_writes set_frames].
    rewrite clear_all_length. unfold nframes in Hn, Hh, Ht. apply Nat.ltb_lt in Hn, Hh, Ht.
    now rewrite Hn, Hh, Ht. }
  assert (Hdone : List.filter (fun g => loop_test (frame_at m1 g))
                    (ring_order (nframes m1) (head m1)) = []).
  { apply filter_nothing. intros g Hg.
    assert (Hg' : (g < nframes m)%nat).
    { apply (In_ring_order (nframes m) (head m)); try assumption.
      unfold m1, flushed, nframes in Hg. cbn in Hg.
      rewrite clear_all_length in Hg. exact Hg. }
    unfold m1, flushed, frame_at. cbn [frames set_writes set_frames].
    rewrite firstn_all.
    destruct (in_dec Nat.eq_dec g todo) as [Hin|Hout].
    - rewrite clear_all_member by assumption. unfold loop_test. reflexivity.
    - rewrite clear_all_other by assumption.
      destruct (loop_test (frames m !!! g)) eqn:Hl; [|reflexivity].
      destruct Hout. apply List.filter_In. split; [|exact Hl].
      now apply In_ring_order. }
  destruct (forceFlushPool_run (set_mgmt m1 bm) w1 w2 m1 0%nat w2 Hwf1 eq_refl Hopen2)
    as [_ ->]; [now rewrite Hdone|].
  rewrite Hdone. reflexivity.
Qed.

End FlushTwice.

(** ** What a pin leaves alone *)

Lemma map_alter_keep (A : Type) (proj : PageFrame -> A) (g : PageFrame -> PageFrame)
  (fs : list PageFrame) (i : nat) :
  (forall f, proj (g f) = proj f) -> map proj (alter g i fs) = map proj fs.
Proof.
  intros Hg. revert i. induction fs as [|f fs IH]; intros i; [reflexivity|].
  destruct i as [|i]; cbn; [now rewrite Hg|]. f_equal. apply IH.
Qed.

Lemma map_pointwise (A : Type) (proj : PageFrame -> A) (fs fs' : list PageFrame) :
  length fs' = length fs ->
  (forall g, proj (fs' !!! g) = proj (fs !!! g)) ->
  map proj fs' = map proj fs.
Proof.
  intros Hlen Hg. apply list_eq. intros i. rewrite !list_lookup_fmap.
  destruct (Nat.lt_ge_cases i (length fs)) as [Hi|Hi].
  - rewrite !list_lookup_lookup_total_lt by lia. cbn. now rewrite Hg.
  - rewrite !lookup_ge_None_2 by lia. reflexivity.
Qed.

Lemma clock_sweep_quiet (n fuel : nat) (fs fs' : list PageFrame) (frame frame' : nat) :
  clock_sweep fuel n fs frame = Some (fs', frame') ->
  map pageNum fs' = map pageNum fs /\ map fixCount fs' = map fixCount fs
  /\ map dirtyFlagSignal fs' = map dirtyFlagSignal fs /\ map data fs' = map data fs.
Proof.
  intros H. apply clock_sweep_keeps in H as [Hlen Hg].
  repeat split; apply map_pointwise; try exact Hlen; intros g; apply Hg.
Qed.

Lemma dirty_flag_listed (m : BM_BufferPool_Mgmt) (g : nat) :
  (g < nframes m)%nat -> In (dirtyFlagSignal (frame_at m g)) (dirty_flags m).
Proof.
  intros Hg. unfold dirty_flags, frame_at. apply in_map.
  apply list_elem_of_In, list_elem_of_lookup_total_2, Hg.
Qed.

Lemma walk_same (A : Type) (h : PageFrame -> A) (fs fs' : list PageFrame) :
  length fs' = length fs ->
  (forall g, h (fs' !!! g) = h (fs !!! g)) ->
  forall k i, walk h fs' k i = walk h fs k i.
Proof.
  intros Hlen Hg. induction k as [|k IH]; intros i; [reflexivity|].
  cbn [walk]. now rewrite Hg, Hlen, IH.
Qed.

Lemma dirty_flag_at (m' m : BM_BufferPool_Mgmt) (g : nat) :
  dirty_flags m' = dirty_flags m ->
  dirtyFlagSignal (frames m' !!! g) = dirtyFlagSignal (frames m !!! g).
Proof.
  unfold dirty_flags. intros H.
  assert (Hlen : length (frames m') = length (frames m)).
  { apply (f_equal length) in H. now rewrite !length_map in H. }
  destruct (Nat.lt_ge_cases g (length (frames m))) as [Hg|Hg].
  - assert (He : map dirtyFlagSignal (frames m') !!! g
                 = map dirtyFlagSignal (frames m) !!! g) by now rewrite H.
    rewrite <- !(list_lookup_total_fmap dirtyFlagSignal) by lia. exact He.
  - rewrite !list_lookup_total_alt, !lookup_ge_None_2 by lia. reflexivity.
Qed.

Section PinEffects.

Context {SM : StorageMgr}.

(** The lists of a pool built from [m] by updates that keep them. *)
Ltac kept :=
  unfold pages, fix_counts, dirty_flags, page_buffers;
  cbn [frames head tail start occupiedFrameCount getNumReadIO getNumWriteIO
       upd set_frames set_head set_tail set_occupied set_reads set_writes];
  rewrite ?length_alter;
  repeat (rewrite map_alter_keep by (intros; reflexivity));
  try reflexivity.

Lemma quiet_refl (m : BM_BufferPool_Mgmt) : quiet m m.
Proof. unfold quiet. auto 12. Qed.

Lemma write_victim_effect (m : BM_BufferPool_Mgmt) (w : World) (frame : nat) :
  (frame < nframes m)%nat ->
  match write_victim m w frame with
  | inl a => exists w', a = Abort RC_WRITE_FAILED m w'
  | inr (m2, _) =>
      frames m2 = frames m /\ start m2 = start m
      /\ getNumReadIO m2 = getNumReadIO m
      /\ occupiedFrameCount m2 = occupiedFrameCount m
      /\ (getNumWriteIO m2 = getNumWriteIO m
          \/ getNumWriteIO m2 = incr (getNumWriteIO m))
      /\ (all_clean m -> getNumWriteIO m2 = getNumWriteIO m)
  end.
Proof.
  intros Hf. unfold write_victim.
  destruct (Z.eqb_spec (dirtyFlagSignal (frame_at m frame)) 1) as [Hd|Hd].
  - destruct (writeBlock _ _ _) as [rc w']. destruct (negb _); [eauto|].
    cbn. repeat split; auto. intros Hclean.
    now destruct (Hclean _ (dirty_flag_listed m frame Hf)).
  - repeat split; auto.
Qed.

(** The effect of a placement that has written its victim and goes on
    with a pool [m3] built from the pool [m2] that the write left. *)
Ltac placed_kept Hv :=
  let Hfs := fresh "Hfs" in
  destruct Hv as (Hfs & ? & ? & ? & ? & ?);
  cbn [placed_effect]; unfold dirty_flags, page_buffers;
  cbn [frames head tail start occupiedFrameCount getNumReadIO getNumWriteIO
       upd set_frames set_head set_tail set_occupied set_reads set_writes];
  rewrite ?length_alter;
  repeat (rewrite map_alter_keep by (intros; reflexivity));
  rewrite ?Hfs; auto 10.

Lemma replace_FIFO_effect (m : BM_BufferPool_Mgmt) (w : World) (p : PageNumber)
  (r : placed) :
  wf_mgmt m -> replace_FIFO m w p = Some r -> placed_effect m r.
Proof.
  intros (Hn & Hh & Ht). unfold replace_FIFO.
  pose proof (dist_bounds (nframes m) Hn (tail m) (head m) Ht Hh) as Hd.
  destruct (scan_spec (nframes m) Hn (unfixed m) (head m) Hh (nframes m) (tail m) Ht)
    as [(k & _ & -> & _)|(-> & _)]; [lia| |].
  - pose proof (write_victim_effect m w _ (hop_lt (nframes m) Hn k (tail m) Ht)) as Hv.
    destruct (write_victim m w _) as [a|[m2 w2]].
    + destruct Hv as [w' ->]. intros [= <-]. split; [reflexivity|apply quiet_refl].
    + intros [= <-]. placed_kept Hv.
  - intros [= <-]. cbn. auto 10.
Qed.

Lemma replace_LRU_effect (m : BM_BufferPool_Mgmt) (w : World) (p : PageNumber)
  (r : placed) :
  wf_mgmt m -> replace_LRU m w p = Some r -> placed_effect m r.
Proof.
  intros (Hn & Hh & Ht). unfold replace_LRU.
  pose proof (dist_bounds (nframes m) Hn (tail m) (tail m) Ht Ht) as Hd.
  destruct (scan_spec (nframes m) Hn (unfixed m) (tail m) Ht (nframes m) (tail m) Ht)
    as [(k & _ & -> & _)|(-> & _)]; [lia| |].
  - pose proof (write_victim_effect m w _ (hop_lt (nframes m) Hn k (tail m) Ht)) as Hv.
    destruct (write_victim m w _) as [a|[m2 w2]].
    + destruct Hv as [w' ->]. intros [= <-]. split; [reflexivity|apply quiet_refl].
    + destruct (negb _); intros [= <-]; placed_kept Hv.
  - intros [= <-]. cbn. auto 10.
Qed.

Lemma replace_CLOCK_effect (m : BM_BufferPool_Mgmt) (w : World) (p : PageNumber)
  (r : placed) :
  wf_mgmt m ->
  forall fuel frame,
    (frame < nframes m)%nat ->
    replace_CLOCK fuel m w p frame = Some r -> placed_effect m r.
Proof.
  intros (Hn & Hh & Ht). induction fuel as [|fuel IH]; intros frame Hf; [discriminate|].
  cbn [replace_CLOCK]. destruct (negb (fixCount (frame_at m frame) =? 0)).
  - destruct (_ =? head m)%nat.
    + intros [= <-]. cbn. auto 10.
    + apply IH. now apply next_lt.
  - destruct (clock_sweep_total (frames m) frame Hf)
      as (fs' & frame' & Hs & Hlen & Hf' & Hr).
    destruct (clock_sweep_quiet _ _ _ _ _ _ Hs) as (Hpg & Hfx & Hdf & Hbf).
    unfold nframes. rewrite Hs. unfold frame_at at 1. cbn [frames set_frames].
    rewrite Hr. cbn [Z.eqb].
    assert (Hf1 : (frame' < nframes (set_frames fs' m))%nat)
      by (unfold nframes; cbn; now rewrite Hlen).
    pose proof (write_victim_effect (set_frames fs' m) w frame' Hf1) as Hv.
    assert (Hclean : all_clean m -> all_clean (set_frames fs' m)).
    { unfold all_clean, dirty_flags. cbn. now rewrite Hdf. }
    destruct (write_victim (set_frames fs' m) w frame') as [a|[m2 w2]].
    + destruct Hv as [w' ->]. intros [= <-]. split; [reflexivity|].
      unfold quiet, pages, fix_counts, dirty_flags, page_buffers. cbn.
      rewrite Hpg, Hfx, Hdf, Hbf. auto 12.
    + intros [= <-]. destruct Hv as (Hfs & H1 & H2 & H3 & H4 & H5).
      cbn in Hfs, H1, H2, H3, H4.
      cbn [placed_effect]. unfold dirty_flags, page_buffers.
      cbn [frames head tail start occupiedFrameCount getNumReadIO getNumWriteIO
           upd set_frames set_head set_tail set_occupied set_reads set_writes].
      rewrite ?length_alter.
      repeat (rewrite map_alter_keep by (intros; reflexivity)).
      rewrite Hfs, Hdf, Hbf, Hlen. auto 10.
Qed.

Lemma fill_frame_effect (ref : bool) (m : BM_BufferPool_Mgmt) (p : PageNumber)
  (w : World) :
  placed_effect m (Proceed (fst (fill_frame ref m p)) w (snd (fill_frame ref m p))).
Proof.
  unfold fill_frame. cbn [fst snd placed_effect].
  destruct ref; destruct (negb _); kept; auto 10.
Qed.

Lemma finish_effect (c : bool) (bm : BM_BufferPool) (page : BM_PageHandle)
  (p : PageNumber) (m : BM_BufferPool_Mgmt) (r : option placed)
  (rc : RC) (bm' : BM_BufferPool) (page' : BM_PageHandle) (w' : World) :
  (forall x, r = Some x -> placed_effect m x) ->
  finish c bm page p r = Some (rc, bm', page', w') ->
  exists m', bm' = set_mgmt m' bm /\ pin_effect rc m m'
             /\ (rc = RC_WRITE_FAILED -> page' = page).
Proof.
  intros Hr. destruct r as [[rc0 m0 w0|m0 w0 frame]|]; [| |discriminate];
    specialize (Hr _ eq_refl); cbn [finish placed_effect] in *.
  - destruct Hr as [-> Hq]. intros [= <- <- <- _]. exists m0.
    split; [reflexivity|]. split; [|auto].
    destruct Hq as (Hp & Hf & Hd & Hb & Ho & Hrd & Hwr & Hh & Ht & Hs).
    unfold pin_effect. rewrite Hd, Hs, Hrd, Hwr.
    assert (Hlen : length (frames m0) = length (frames m)).
    { unfold pages in Hp. apply (f_equal length) in Hp.
      now rewrite !length_map in Hp. }
    repeat split; auto; unfold quiet; auto 12.
  - destruct Hr as (Hd & Hb & Hs & Hlen & Hrd & Hwr & Hc).
    unfold read_page. destruct (readBlock _ _ _) as [[rc1 buf] w2].
    destruct (negb (rc_is_ok rc1)); intros [= <- <- <- _];
      (eexists; split; [reflexivity|]); (split; [|discriminate]);
      unfold pin_effect; kept; rewrite ?Hd, ?Hs, ?Hlen, ?Hrd;
      repeat split; auto; discriminate.
Qed.

Lemma pin_switch_effect (bm : BM_BufferPool) (page : BM_PageHandle) (p : PageNumber)
  (w : World) (m : BM_BufferPool_Mgmt) (rc : RC) (bm' : BM_BufferPool)
  (page' : BM_PageHandle) (w' : World) :
  well_formed bm = true -> mgmtData bm = Some m ->
  pin_switch bm page p w = Some (rc, bm', page', w') ->
  exists m', mgmtData bm' = Some m' /\ pin_effect rc m m'
             /\ (rc = RC_WRITE_FAILED -> page' = page)
             /\ numPages bm' = numPages bm /\ strategy bm' = strategy bm
             /\ pageFile bm' = pageFile bm.
Proof.
  intros Hwf Hm. destruct (well_formed_mgmt bm Hwf) as (m0 & Hm0 & Hmo & Hw).
  assert (m0 = m) by congruence. subst m0.
  assert (Hfin : forall c r,
            (forall x, r = Some x -> placed_effect m x) ->
            finish c bm page p r = Some (rc, bm', page', w') ->
            exists m', mgmtData bm' = Some m' /\ pin_effect rc m m'
                       /\ (rc = RC_WRITE_FAILED -> page' = page)
                       /\ numPages bm' = numPages bm /\ strategy bm' = strategy bm
                       /\ pageFile bm' = pageFile bm).
  { intros c r Hr Hfi.
    destruct (finish_effect c bm page p m r rc bm' page' w' Hr Hfi)
      as (m' & -> & He & Hpg). exists m'. auto 10. }
  assert (Hfill : forall ref w0 x,
            (let '(m0, frame) := fill_frame ref m p in Some (Proceed m0 w0 frame))
            = Some x -> placed_effect m x).
  { intros ref w0 x. pose proof (fill_frame_effect ref m p w0) as H.
    destruct (fill_frame ref m p) as [m0 frame]. now intros [= <-]. }
  assert (Hsame : pin_effect RC_OK m m).
  { unfold pin_effect. repeat split; auto; discriminate. }
  unfold pin_switch, pinPageFIFO, pinPageLRU, pinPageCLOCK. rewrite Hmo.
  destruct (find_page_total m p Hw) as [(frame & -> & Hf & Hpage)|(-> & Hmiss)].
  - destruct (strategy bm) eqn:Hst; intros [= <- <- _ _];
      [| | |exists m; split; [exact Hm|]; split; [exact Hsame|];
             split; [discriminate|auto]];
      (eexists; split; [reflexivity|]);
      (split; [|cbn; rewrite ?Hst; repeat split; auto; discriminate]);
      unfold pin_effect; kept; repeat split; auto; discriminate.
  - destruct (strategy bm) eqn:Hst.
    + apply Hfin. unfold place_FIFO. destruct (_ <? _); [apply Hfill|].
      intros x. now apply replace_FIFO_effect.
    + apply Hfin. unfold place_LRU. destruct (_ <? _); [apply Hfill|].
      intros x. now apply replace_LRU_effect.
    + apply Hfin. unfold place_CLOCK. destruct (_ <? _); [apply Hfill|].
      intros x. apply replace_CLOCK_effect; [exact Hw|apply Hw].
    + intros [= <- <- _ _]. exists m. split; [exact Hm|]. split; [exact Hsame|].
      split; [discriminate|auto].
Qed.

Lemma pinPage_effect (bm : BM_BufferPool) (page : BM_PageHandle) (p : PageNumber)
  (w : World) (m : BM_BufferPool_Mgmt) (rc : RC) (bm' : BM_BufferPool)
  (page' : BM_PageHandle) (w' : World) :
  well_formed bm = true -> mgmtData bm = Some m ->
  pinPage bm page p w = Some (rc, bm', page', w') ->
  exists rc0 m', pin_switch bm page p w = Some (rc0, bm', page', w')
                 /\ mgmtData bm' = Some m' /\ pin_effect rc0 m m'
                 /\ numPages bm' = numPages bm.
Proof.
  intros Hwf Hm. unfold pinPage.
  destruct (pin_switch bm page p w) as [[[[rc0 bm0] page0] w0]|] eqn:Hs; [|discriminate].
  intros [= _ <- <- <-].
  destruct (pin_switch_effect _ _ _ _ _ _ _ _ _ Hwf Hm Hs)
    as (m' & Hm' & He & _ & Hnp & _).
  exists rc0, m'. auto.
Qed.

(** X6. No pin changes a dirty flag: after [pinPage], hit or miss, failed
    or not, [getDirtyFlags] shows what it showed before.  In particular
    the flag of a victim that was written back stays set, so the page that
    takes its place is reported dirty from the start. *)
Theorem pinPage_keeps_dirty_flags (bm : BM_BufferPool) (page : BM_PageHandle)
  (p : PageNumber) (w : World) (m : BM_BufferPool_Mgmt) (rc : RC)
  (bm' : BM_BufferPool) (page' : BM_PageHandle) (w' : World) :
  well_formed bm = true ->
  mgmtData bm = Some m ->
  pinPage bm page p w = Some (rc, bm', page', w') ->
  exists m', mgmtData bm' = Some m' /\ dirty_flags m' = dirty_flags m
             /\ getDirtyFlags bm' = getDirtyFlags bm.
Proof.
  intros Hwf Hm Hpin.
  destruct (pinPage_effect _ _ _ _ _ _ _ _ _ Hwf Hm Hpin)
    as (rc0 & m' & _ & Hm' & (Hd & Hst & Hlen & _) & Hnp).
  exists m'. split; [exact Hm'|]. split; [exact Hd|].
  unfold getDirtyFlags. rewrite Hm, Hm', Hnp, Hst. f_equal.
  apply walk_same; [exact Hlen|]. intros g.
  now rewrite (dirty_flag_at m' m g Hd).
Qed.

(** X7. A pin writes back at most one page and reads at most one: each of
    the two counters is as before or one step further.  The write counter
    does not move when no frame carries the dirty flag 1, so replacing a
    clean page costs no write; the read counter moves only when the routine
    returns [RC_OK]. *)
Theorem pinPage_counts_one_transfer (bm : BM_BufferPool) (page : BM_PageHandle)
  (p : PageNumber) (w : World) (m : BM_BufferPool_Mgmt) (rc : RC)
  (bm' : BM_BufferPool) (page' : BM_PageHandle) (w' : World) :
  well_formed bm = true ->
  mgmtData bm = Some m ->
  pinPage bm page p w = Some (rc, bm', page', w') ->
  exists rc0 m',
    pin_switch bm page p w = Some (rc0, bm', page', w')
    /\ mgmtData bm' = Some m'
    /\ (getNumWriteIO m' = getNumWriteIO m
        \/ getNumWriteIO m' = incr (getNumWriteIO m))
    /\ (all_clean m -> getNumWriteIO m' = getNumWriteIO m)
    /\ (getNumReadIO m' = getNumReadIO m
        \/ (rc0 = RC_OK /\ getNumReadIO m' = incr (getNumReadIO m))).
Proof.
  intros Hwf Hm Hpin.
  destruct (pinPage_effect _ _ _ _ _ _ _ _ _ Hwf Hm Hpin)
    as (rc0 & m' & Hs & Hm' & (_ & _ & _ & Hwr & Hc & Hrd & _) & _).
  exists rc0, m'. auto.
Qed.

(** X8. A pin whose routine returns [RC_WRITE_FAILED] has bound nothing:
    the handle, the page numbers, fix counts, dirty flags and buffers of
    all frames, the three counters, [head] and [tail] are as before the
    call.  (The CLOCK routine may have cleared reference bits on its way
    to the victim.) *)
Theorem failed_write_binds_nothing (bm : BM_BufferPool) (page : BM_PageHandle)
  (p : PageNumber) (w : World) (m : BM_BufferPool_Mgmt)
  (bm' : BM_BufferPool) (page' : BM_PageHandle) (w' : World) :
  well_formed bm = true ->
  mgmtData bm = Some m ->
  pin_switch bm page p w = Some (RC_WRITE_FAILED, bm', page', w') ->
  exists m', mgmtData bm' = Some m' /\ page' = page /\ quiet m m'.
Proof.
  intros Hwf Hm Hs.
  destruct (pin_switch_effect _ _ _ _ _ _ _ _ _ Hwf Hm Hs)
    as (m' & Hm' & (_ & _ & _ & _ & _ & _ & Hq) & Hpg & _).
  exists m'. auto.
Qed.

End PinEffects.

(** ** The shape of a pool through a session *)

Lemma init_frames_repeat (size k : nat) :
  frames (Nat.iter k
            (fun m => mkMgmt (occupiedFrameCount m)
                        (frames m ++ [mkFrame 0 (-1) 0 0 0 (repeat x00 size)])
                        (start m) (length (frames m)) (start m)
                        (getNumReadIO m) (getNumWriteIO m))
            (mkMgmt 0 [] 0 0 0 0 0))
  = repeat (mkFrame 0 (-1) 0 0 0 (repeat x00 size)) k.
Proof.
  induction k as [|k IH]; [reflexivity|].
  rewrite Nat.iter_succ. cbn [frames]. rewrite IH.
  change (?l ++ [?x]) with (l ++ repeat x 1). rewrite <- repeat_app.
  f_equal. lia.
Qed.

Section Shape.

Context {SM : StorageMgr}.

(** X9. [initBufferPool] with the page file open builds a pool of
    [numPages] frames, each empty, clean, not fixed, with reference bit 0
    and a zero-filled buffer of [PAGE_SIZE] bytes; the three counters are
    0 and [head], [tail] and the start of the statistics are the first
    frame.  When the file cannot be opened the pool handed in is returned
    untouched with the code of [openPageFile].  (The list pointers of the
    newly allocated management record are read as NULL, which is what the
    first call of [createPageFrame] tests for.) *)
Theorem initBufferPool_fresh_pool (bm : BM_BufferPool) (name : string) (n : Z)
  (strat : ReplacementStrategy) (w : World) :
  initBufferPool bm name n strat w
  = let '(status, w0) := openPageFile (Some name) w in
    if rc_is_ok status then
      (RC_OK,
       mkPool (Some name) n strat
         (Some (mkMgmt 0
                  (repeat (mkFrame 0 NO_PAGE 0 0 0 (repeat x00 PAGE_SIZE))
                          (Z.to_nat n))
                  0 0 0 0 0)),
       closePageFile w0)
    else (status, bm, w0).
Proof.
  unfold initBufferPool. destruct (openPageFile (Some name) w) as [status w0].
  destruct (rc_is_ok status); [|reflexivity]. cbn [negb].
  pose proof (init_frames_repeat PAGE_SIZE (Z.to_nat n)) as Hfs.
  destruct (init_frames PAGE_SIZE (Z.to_nat n)) as (_ & Hh & Hs & _).
  fold createPageFrame in Hfs, Hh, Hs.
  set (m0 := Nat.iter (Z.to_nat n) createPageFrame (mkMgmt 0 [] 0 0 0 0 0)) in *.
  unfold set_writes, set_reads, set_occupied, set_tail. cbn.
  now rewrite Hfs, Hh, Hs.
Qed.

Lemma run1_shaped (c : call) (bm bm' : BM_BufferPool) (w w' : World)
  (m : BM_BufferPool_Mgmt) :
  well_formed bm = true -> mgmtData bm = Some m -> shaped bm m ->
  run1 c (bm, w) = Some (bm', w') ->
  exists m', mgmtData bm' = Some m' /\ shaped bm' m'
             /\ numPages bm' = numPages bm /\ strategy bm' = strategy bm
             /\ ((forall p, c <> Pin p) ->
                 head m' = head m
                 /\ occupiedFrameCount m' = occupiedFrameCount m).
Proof.
  intros Hwf Hm [Hs Hn]. destruct (well_formed_mgmt bm Hwf) as (m0 & Hm0 & Hmo & Hw).
  assert (m0 = m) by congruence. subst m0.
  destruct c as [p|p|p|p|]; cbn [run1].
  - destruct (pinPage bm _ p w) as [[[[rc bm1] page1] w1]|] eqn:Hpin; [|discriminate].
    intros [= <- _].
    destruct (pinPage_effect _ _ _ _ _ _ _ _ _ Hwf Hm Hpin)
      as (rc0 & m' & Hsw & Hm' & (_ & Hst & Hlen & _) & Hnp).
    destruct (pin_switch_effect _ _ _ _ _ _ _ _ _ Hwf Hm Hsw)
      as (m1 & Hm1 & _ & _ & _ & Hstr & _).
    exists m'. split; [exact Hm'|]. split; [|split; [exact Hnp|split; [exact Hstr|]]].
    + unfold shaped, nframes. now rewrite Hst, Hlen, Hnp.
    + intros Hp. now destruct (Hp p).
  - unfold unpinPage. rewrite Hmo.
    destruct (find_page m _) as [[frame|frame]|]; intros [= <- _];
      (eexists; split; [first [reflexivity|exact Hm]|]);
      unfold shaped, nframes; cbn; rewrite ?length_alter; auto 7.
  - unfold markDirty. rewrite Hmo.
    destruct (find_page m _) as [[frame|frame]|]; intros [= <- _];
      (eexists; split; [first [reflexivity|exact Hm]|]);
      unfold shaped, nframes; cbn; rewrite ?length_alter; auto 7.
  - unfold forcePage. rewrite Hmo. destruct (openPageFile _ w) as [rc w0].
    destruct (negb (rc_is_ok rc)).
    + intros [= <- _]. exists m. split; [exact Hm|]. unfold shaped. auto 7.
    + destruct (scan _ _ _ _ _) as [[Frame|Frame]|]; [| |discriminate].
      * destruct (writeBlock _ _ w0) as [rc' w1]. destruct (negb (rc_is_ok rc'));
          intros [= <- _]; (eexists; split; [first [reflexivity|exact Hm]|]);
          unfold shaped, nframes; cbn; rewrite ?length_alter; auto 7.
      * intros [= <- _]. exists m. split; [exact Hm|]. unfold shaped. auto 7.
  - destruct (openPageFile (pageFile bm) w) as [rc w0] eqn:Hopen.
    destruct (rc_is_ok rc) eqn:Hrc.
    + destruct rc; try discriminate.
      destruct (write_back
                  (map (frame_at m)
                     (List.filter (fun g => loop_test (frame_at m g))
                        (ring_order (nframes m) (head m)))) w0) as [c w1] eqn:Hwb.
      destruct (forceFlushPool_run bm w w0 m c w1 Hwf Hm Hopen Hwb) as [_ ->].
      intros [= <- _]. eexists. split; [reflexivity|].
      unfold shaped, nframes, flushed. cbn. rewrite clear_all_length. auto 7.
    + unfold forceFlushPool. rewrite Hmo, Hopen, Hrc. cbn. intros [= <- _].
      exists m. split; [exact Hm|]. unfold shaped. auto 7.
Qed.

Lemma run_shaped (cs : list call) :
  forallb valid_call cs = true ->
  forall bm w bm' w' m,
    pool_inv bm = true -> mgmtData bm = Some m -> shaped bm m ->
    run cs (bm, w) = Some (bm', w') ->
    exists m', mgmtData bm' = Some m' /\ shaped bm' m'
               /\ numPages bm' = numPages bm.
Proof.
  induction cs as [|c cs IH]; intros Hv bm w bm' w' m Hpi Hm Hsh.
  - cbn. intros [= <- _]. eauto.
  - cbn in Hv. apply andb_prop in Hv as [Hc Hcs]. cbn [run].
    destruct (run1 c (bm, w)) as [[bm1 w1]|] eqn:H1; [|discriminate].
    assert (Hwf : well_formed bm = true)
      by (unfold pool_inv in Hpi; now apply andb_prop in Hpi as [? _]).
    destruct (run1_shaped c bm bm1 w w1 m Hwf Hm Hsh H1)
      as (m1 & Hm1 & Hsh1 & Hnp1 & _).
    assert (Hpi1 : pool_inv bm1 = true).
    { destruct (run_inv [c] ltac:(cbn; now rewrite Hc) bm w Hpi)
        as (bm2 & w2 & Hr & Hpi2).
      cbn [run] in Hr. rewrite H1 in Hr. now injection Hr as <- _. }
    intros Hrun.
    destruct (IH Hcs bm1 w1 bm' w' m1 Hpi1 Hm1 Hsh1 Hrun) as (m' & Hm' & Hsh' & Hnp').
    exists m'. split; [exact Hm'|]. split; [exact Hsh'|]. congruence.
Qed.

Lemma init_shaped (bm0 bm : BM_BufferPool) (name : string) (n : Z)
  (strat : ReplacementStrategy) (w0 w : World) (m : BM_BufferPool_Mgmt) :
  1 <= n ->
  initBufferPool bm0 name n strat w0 = (RC_OK, bm, w) ->
  mgmtData bm = Some m ->
  shaped bm m /\ numPages bm = n /\ strategy bm = strat.
Proof.
  intros Hn Hinit Hm.
  destruct (initBufferPool_inv bm0 bm name n strat w0 w Hn Hinit)
    as (Hpi & Hnp & _ & m1 & Hm1 & Hnf & _ & _ & _ & _ & _ & _).
  assert (m1 = m) by congruence. subst m1.
  unfold initBufferPool in Hinit.
  destruct (openPageFile (Some name) w0) as [status w1].
  destruct (negb (rc_is_ok status)) eqn:Hrc;
    [injection Hinit as -> _ _; discriminate|].
  injection Hinit as <- _. split; [|now split]. split; [|cbn; rewrite Hnf; lia].
  injection Hm as <-. cbn.
  destruct (init_frames PAGE_SIZE (Z.to_nat n)) as (_ & _ & Hs & _). exact Hs.
Qed.

(** X1. Through every session on a pool of [n] frames, [n] at least 1, the
    three statistics arrays have [n] entries and list the frames in
    creation order: entry [i] of [getFrameContents], [getFixCounts] and
    [getDirtyFlags] is the page number, the fix count and the dirty flag of
    frame [i], whatever [head] and [tail] point to. *)
Theorem statistics_in_creation_order (bm0 bm bm' : BM_BufferPool) (name : string)
  (n : Z) (strat : ReplacementStrategy) (w0 w w' : World) (cs : list call) :
  1 <= n ->
  initBufferPool bm0 name n strat w0 = (RC_OK, bm, w) ->
  forallb valid_call cs = true ->
  run cs (bm, w) = Some (bm', w') ->
  exists m',
    mgmtData bm' = Some m'
    /\ getFrameContents bm' = Some (pages m')
    /\ getFixCounts bm' = Some (fix_counts m')
    /\ getDirtyFlags bm' = Some (map (fun d => negb (d =? 0)) (dirty_flags m'))
    /\ Z.of_nat (length (pages m')) = n.
Proof.
  intros Hn Hinit Hv Hrun.
  destruct (initBufferPool_inv bm0 bm name n strat w0 w Hn Hinit)
    as (Hpi & _ & _ & m & Hm & _).
  destruct (init_shaped bm0 bm name n strat w0 w m Hn Hinit Hm) as (Hsh & Hnp & _).
  destruct (run_shaped cs Hv bm w bm' w' m Hpi Hm Hsh Hrun)
    as (m' & Hm' & Hsh' & Hnp').
  exists m'. split; [exact Hm'|].
  destruct (statistics_of_shaped bm' m' Hm' Hsh') as (H1 & H2 & H3 & H4).
  rewrite <- Hnp, <- Hnp'. auto.
Qed.

(** X10. No session goes wrong.  On a pool of at least one frame every
    sequence of pins, unpins, [markDirty], [forcePage] and [forceFlushPool]
    calls with page numbers from 0 on runs to its end without a NULL or
    dangling pointer being followed, whatever the storage manager answers.
    In the state it ends in the pool still has its [n] frames, [head] and
    [tail] point into them, no empty frame is dirty, and no page is held
    by two frames. *)
Theorem sessions_stay_in_order (bm0 bm : BM_BufferPool) (name : string) (n : Z)
  (strat : ReplacementStrategy) (w0 w : World) (cs : list call) :
  1 <= n ->
  initBufferPool bm0 name n strat w0 = (RC_OK, bm, w) ->
  forallb valid_call cs = true ->
  exists bm' w' m',
    run cs (bm, w) = Some (bm', w')
    /\ mgmtData bm' = Some m'
    /\ numPages bm' = n /\ Z.of_nat (nframes m') = n
    /\ (head m' < nframes m')%nat /\ (tail m' < nframes m')%nat
    /\ clean_when_empty m' = true
    /\ distinct_pages (pages m').
Proof.
  intros Hn Hinit Hv.
  destruct (session_in_order bm0 bm name n strat w0 w cs Hn Hinit Hv)
    as (bm' & w' & m' & Hrun & Hm' & Hwf' & Hc' & Hu').
  destruct (initBufferPool_inv bm0 bm name n strat w0 w Hn Hinit)
    as (Hpi & _ & _ & m & Hm & _).
  destruct (init_shaped bm0 bm name n strat w0 w m Hn Hinit Hm) as (Hsh & Hnp & _).
  destruct (run_shaped cs Hv bm w bm' w' m Hpi Hm Hsh Hrun)
    as (m1 & Hm1 & [_ Hsh'] & Hnp').
  assert (m1 = m') by congruence. subst m1.
  destruct (well_formed_mgmt bm' Hwf') as (m1 & Hm1' & _ & (_ & Hh & Ht)).
  assert (m1 = m') by congruence. subst m1.
  exists bm', w', m'. rewrite <- Hsh'. repeat split; auto; congruence.
Qed.

End Shape.

(** ** A pin and its unpin *)

Lemma decr_incr (z : Z) : INT_MIN <= z < INT_MAX -> decr (incr z) = z.
Proof.
  intros Hz. rewrite incr_no_overflow by exact Hz.
  rewrite decr_no_overflow by lia. lia.
Qed.

Section RoundTrip.

Context {SM : StorageMgr}.

(** X11. Pinning a resident page and unpinning it with the handle
    returned is a round trip: both calls return [RC_OK], and afterwards the
    page numbers, the fix counts, the dirty flags and the buffers of all
    frames and the three counters are what they were before the pin.  (The
    pin may have moved [head] and [tail] or set a reference bit.) *)
Theorem pin_unpin_round_trip (bm : BM_BufferPool) (page : BM_PageHandle)
  (p : PageNumber) (w : World) (m : BM_BufferPool_Mgmt) (f : nat) :
  well_formed bm = true ->
  mgmtData bm = Some m ->
  strategy bm <> RS_OTHER ->
  resident_in m p f ->
  INT_MIN <= fixCount (frame_at m f) < INT_MAX ->
  exists bm1 page1 w1 bm2 m2,
    pinPage bm page p w = Some (RC_OK, bm1, page1, w1)
    /\ unpinPage bm1 page1 = Some (RC_OK, bm2)
    /\ mgmtData bm2 = Some m2
    /\ pages m2 = pages m /\ fix_counts m2 = fix_counts m
    /\ dirty_flags m2 = dirty_flags m /\ page_buffers m2 = page_buffers m
    /\ occupiedFrameCount m2 = occupiedFrameCount m
    /\ getNumReadIO m2 = getNumReadIO m /\ getNumWriteIO m2 = getNumWriteIO m.
Proof.
  intros Hwf Hm Hstrat Hres Hfix.
  destruct (well_formed_mgmt bm Hwf) as (m0 & Hm0 & Hmo & Hw).
  assert (m0 = m) by congruence. subst m0.
  pose proof (find_page_resident m p f Hw Hres) as Hfind.
  destruct Hw as (Hn & Hh & Ht). destruct Hres as (Hf & Hp & Huniq).
  assert (Hback : forall m1,
            length (frames m1) = length (frames m) ->
            (head m1 < nframes m1)%nat -> (tail m1 < nframes m1)%nat ->
            (forall g, pageNum (frame_at m1 g) = pageNum (frame_at m g)) ->
            unpinPage (set_mgmt m1 bm) (mkHandle p f)
            = Some (RC_OK, set_mgmt (upd fix_down f m1) (set_mgmt m1 bm))).
  { intros m1 Hlen Hh1 Ht1 Hpg.
    assert (Hmo1 : mgmt_of (set_mgmt m1 bm) = Some m1).
    { unfold mgmt_of. cbn. destruct (frames m1); [|reflexivity].
      cbn in Hlen. unfold nframes in Hn. lia. }
    unfold unpinPage. rewrite Hmo1. cbn [ph_pageNum].
    rewrite (find_page_resident m1 p f); [reflexivity| |].
    - unfold wf_mgmt, nframes in *. lia.
    - unfold resident_in, nframes in *. rewrite Hlen.
      split; [exact Hf|]. split; [now rewrite Hpg|].
      intros g Hg Hgp. rewrite Hpg in Hgp. auto. }
  assert (Hlists : forall fs,
            length fs = length (frames m) ->
            (forall g, g <> f -> pageNum (fs !!! g) = pageNum (frames m !!! g)
                                 /\ fixCount (fs !!! g) = fixCount (frames m !!! g)
                                 /\ dirtyFlagSignal (fs !!! g)
                                    = dirtyFlagSignal (frames m !!! g)
                                 /\ data (fs !!! g) = data (frames m !!! g)) ->
            pageNum (fs !!! f) = p ->
            fixCount (fs !!! f) = fixCount (frames m !!! f) ->
            dirtyFlagSignal (fs !!! f) = dirtyFlagSignal (frames m !!! f) ->
            data (fs !!! f) = data (frames m !!! f) ->
            map pageNum fs = pages m /\ map fixCount fs = fix_counts m
            /\ map dirtyFlagSignal fs = dirty_flags m
            /\ map data fs = page_buffers m).
  { intros fs Hlen Ho H1 H2 H3 H4.
    unfold pages, fix_counts, dirty_flags, page_buffers.
    repeat split; apply map_pointwise; try exact Hlen; intros g;
      (destruct (Nat.eq_dec g f) as [->|Hg]; [|now apply Ho]); auto.
    now rewrite H1. }
  unfold pinPage, pin_switch, pinPageFIFO, pinPageLRU, pinPageCLOCK.
  rewrite Hmo, Hfind. unfold frame_at in *. unfold nframes in *.
  destruct (strategy bm); [| | |congruence];
    do 3 eexists; eexists; eexists;
    (split; [reflexivity|]);
    (split; [apply Hback;
             [cbn; now rewrite ?length_alter
             |unfold nframes; cbn; rewrite ?length_alter; auto using next_lt..
             |intros g; unfold frame_at; cbn;
              destruct (Nat.eq_dec g f) as [->|Hg];
              [rewrite ?list_lookup_total_alter_eq
                 by (rewrite ?length_alter; exact Hf); cbn; auto
              |rewrite ?list_lookup_total_alter_ne by congruence; reflexivity]]|]);
    (split; [reflexivity|]);
    match goal with
    | |- pages ?m2 = _ /\ _ =>
        destruct (Hlists (frames m2)) as (L1 & L2 & L3 & L4);
        [cbn; now rewrite ?length_alter
        |intros g Hg; cbn; now rewrite ?list_lookup_total_alter_ne by congruence
        |cbn; rewrite ?list_lookup_total_alter_eq by (rewrite ?length_alter; exact Hf);
         cbn; try reflexivity; auto..
        |]
    end;
    try (unfold fix_down, rebind, fix_up; cbn; now apply decr_incr);
    repeat split; try assumption; reflexivity.
Qed.

End RoundTrip.

(** ** The sweep of the clock hand *)

Lemma clock_sweep_run (n s : nat) :
  (0 < n)%nat -> (s < n)%nat ->
  forall k j fuel fs,
    (k <= fuel)%nat -> (j + k <= n)%nat -> length fs = n ->
    (forall i, (i < j)%nat -> referenceBit (fs !!! hop n i s) = 0) ->
    (forall i, (j <= i < j + k)%nat -> referenceBit (fs !!! hop n i s) <> 0) ->
    ((j + k < n)%nat -> referenceBit (fs !!! hop n (j + k) s) = 0) ->
    exists fs',
      clock_sweep fuel n fs (hop n j s) = Some (fs', hop n (j + k) s)
      /\ length fs' = n
      /\ (forall i, (j <= i < j + k)%nat ->
                    fs' !!! hop n i s = set_referenceBit 0 (fs !!! hop n i s))
      /\ (forall g, (forall i, (j <= i < j + k)%nat -> g <> hop n i s) ->
                    fs' !!! g = fs !!! g).
Proof.
  intros Hn Hs. induction k as [|k IH]; intros j fuel fs Hfuel Hjk Hlen Hpre Hset Hend.
  - exists fs. rewrite Nat.add_0_r in *.
    assert (Hz : referenceBit (fs !!! hop n j s) = 0).
    { destruct (Nat.eq_dec j n) as [->|Hne].
      - rewrite hop_full by assumption. apply (Hpre 0%nat Hn).
      - apply Hend. lia. }
    split.
    + destruct fuel; cbn [clock_sweep]; rewrite Hz; reflexivity.
    + split; [exact Hlen|]. split; [intros; lia|reflexivity].
  - destruct fuel as [|fuel]; [lia|].
    assert (Hj : (j < n)%nat) by lia.
    assert (Hne : forall i, (i <= n)%nat -> (i < n \/ j <> 0)%nat -> i <> j ->
                            hop n i s <> hop n j s).
    { intros i Hi Hor Hij Heq. destruct (Nat.eq_dec i n) as [->|Hin].
      - rewrite hop_full in Heq by assumption.
        change s with (hop n 0 s) in Heq at 1. apply hop_inj in Heq; lia.
      - apply hop_inj in Heq; lia. }
    cbn [clock_sweep].
    destruct (Z.eqb_spec (referenceBit (fs !!! hop n j s)) 0) as [Hz|_];
      [now destruct (Hset j ltac:(lia))|]. cbn [negb].
    replace (next n (hop n j s)) with (hop n (S j) s)
      by (unfold hop; now rewrite Nat.iter_succ).
    destruct (IH (S j) fuel (alter (set_referenceBit 0) (hop n j s) fs))
      as (fs' & Hrun & Hlen' & Hclr & Hoth).
    + lia.
    + lia.
    + now rewrite length_alter.
    + intros i Hi. destruct (Nat.eq_dec i j) as [->|Hij].
      * rewrite list_lookup_total_alter_eq; [reflexivity|].
        rewrite Hlen. now apply hop_lt.
      * rewrite list_lookup_total_alter_ne; [apply Hpre; lia|].
        intros Heq. symmetry in Heq. revert Heq. apply Hne; lia.
    + intros i Hi. rewrite list_lookup_total_alter_ne; [apply Hset; lia|].
      intros Heq. symmetry in Heq. revert Heq. apply Hne; lia.
    + intros Hlt. rewrite list_lookup_total_alter_ne; [|].
      * replace (S j + k)%nat with (j + S k)%nat by lia. apply Hend. lia.
      * intros Heq. symmetry in Heq. revert Heq. apply Hne; lia.
    + exists fs'. replace (j + S k)%nat with (S j + k)%nat by lia.
      split; [exact Hrun|]. split; [exact Hlen'|]. split.
      * intros i Hi. destruct (Nat.eq_dec i j) as [->|Hij].
        -- rewrite Hoth.
           ++ rewrite list_lookup_total_alter_eq; [reflexivity|].
              rewrite Hlen. now apply hop_lt.
           ++ intros i Hi'. intros Heq. symmetry in Heq. revert Heq.
              apply Hne; lia.
        -- rewrite Hclr by lia. rewrite list_lookup_total_alter_ne; [reflexivity|].
           intros Heq. symmetry in Heq. revert Heq. apply Hne; lia.
      * intros g Hg. rewrite Hoth by (intros i Hi; apply Hg; lia).
        rewrite list_lookup_total_alter_ne; [reflexivity|].
        intros Heq. symmetry in Heq. revert Heq. apply Hg. lia.
Qed.

(** X12. The inner loop of the CLOCK replacement gives every frame it
    passes a second chance and looks at nothing but reference bits.
    Started at [frame] with the next [k] frames carrying a set bit and the
    one after them a clear bit, it clears those [k] bits, leaves every
    other field and every other frame as it was, and stops at the frame
    [k] steps on.  When all bits of the pool are set it clears them all
    and stops where it started. *)
Theorem sweep_stops_at_first_clear_bit (fs : list PageFrame) (frame k : nat) :
  (frame < length fs)%nat ->
  (k <= length fs)%nat ->
  (forall i, (i < k)%nat -> referenceBit (fs !!! hop (length fs) i frame) <> 0) ->
  ((k < length fs)%nat -> referenceBit (fs !!! hop (length fs) k frame) = 0) ->
  exists fs',
    clock_sweep (length fs) (length fs) fs frame
    = Some (fs', hop (length fs) k frame)
    /\ length fs' = length fs
    /\ (forall i, (i < k)%nat ->
                  fs' !!! hop (length fs) i frame
                  = set_referenceBit 0 (fs !!! hop (length fs) i frame))
    /\ (forall g, (forall i, (i < k)%nat -> g <> hop (length fs) i frame) ->
                  fs' !!! g = fs !!! g).
Proof.
  intros Hf Hk Hset Hend.
  destruct (clock_sweep_run (length fs) frame ltac:(lia) Hf k 0%nat (length fs) fs)
    as (fs' & Hrun & Hlen & Hclr & Hoth);
    try lia; try reflexivity.
  - intros i Hi. apply Hset. lia.
  - exact Hend.
  - exists fs'. split; [exact Hrun|]. split; [exact Hlen|]. split.
    + intros i Hi. apply Hclr. lia.
    + intros g Hg. apply Hoth. intros i Hi. apply Hg. lia.
Qed.

(** ** A miss while the pool is not full *)

Section Fill.

Context {SM : StorageMgr}.

Lemma no_holder_misses (m : BM_BufferPool_Mgmt) (p : PageNumber) :
  wf_mgmt m -> no_holder m p -> find_page m p = Some (inr (head m)).
Proof.
  intros Hw Hno. destruct (find_page_total m p Hw) as [(g & _ & Hg & Hgp)|(-> & _)].
  - now destruct (Hno g Hg).
  - reflexivity.
Qed.

Lemma fill_frame_spec (ref : bool) (m : BM_BufferPool_Mgmt) (p : PageNumber) :
  (head m < nframes m)%nat ->
  snd (fill_frame ref m p) = head m
  /\ frame_at (fst (fill_frame ref m p)) (head m)
     = fix_up ((if ref then set_referenceBit 1 else fun f => f)
                 (set_pageNum p (frame_at m (head m))))
  /\ (forall g, g <> head m -> frame_at (fst (fill_frame ref m p)) g = frame_at m g)
  /\ head (fst (fill_frame ref m p)) = next (nframes m) (head m)
  /\ tail (fst (fill_frame ref m p)) = tail m
  /\ occupiedFrameCount (fst (fill_frame ref m p)) = incr (occupiedFrameCount m)
  /\ getNumReadIO (fst (fill_frame ref m p)) = getNumReadIO m
  /\ getNumWriteIO (fst (fill_frame ref m p)) = getNumWriteIO m
  /\ nframes (fst (fill_frame ref m p)) = nframes m.
Proof.
  intros Hh. unfold fill_frame, frame_at, nframes in *. cbn [fst snd].
  destruct ref;
    cbn [upd set_frames frames head]; rewrite ?length_alter;
    destruct (Nat.eqb_spec (next (length (frames m)) (head m)) (head m)) as [He|He];
    cbn [negb upd set_frames set_head set_occupied frames head tail
         occupiedFrameCount getNumReadIO getNumWriteIO];
    rewrite ?length_alter;
    rewrite ?list_lookup_total_alter_eq by (rewrite ?length_alter; exact Hh);
    (repeat split; try reflexivity; try (symmetry; exact He));
    intros g Hg; now rewrite ?list_lookup_total_alter_ne by congruence.
Qed.

Lemma read_page_spec (c : bool) (m : BM_BufferPool_Mgmt) (w : World) (frame : nat)
  (page : BM_PageHandle) (p : PageNumber) (rcr : RC) (buf : PageData) (w2 : World) :
  (frame < nframes m)%nat ->
  readBlock p (data (frame_at m frame)) (ensureCapacity (wrap_int (p + 1)) w)
  = (rcr, buf, w2) ->
  exists m' w',
    read_page c m w frame page p
    = (if rc_is_ok rcr then RC_OK else RC_READ_NON_EXISTING_PAGE, m',
       if rc_is_ok rcr then mkHandle p frame else page, w')
    /\ frame_at m' frame = set_data buf (frame_at m frame)
    /\ (forall g, g <> frame -> frame_at m' g = frame_at m g)
    /\ head m' = head m /\ tail m' = tail m
    /\ occupiedFrameCount m' = occupiedFrameCount m
    /\ getNumWriteIO m' = getNumWriteIO m
    /\ getNumReadIO m'
       = (if rc_is_ok rcr then incr (getNumReadIO m) else getNumReadIO m).
Proof.
  intros Hf Hread. unfold read_page. rewrite Hread.
  destruct (rc_is_ok rcr); cbn [negb]; do 2 eexists; (split; [reflexivity|]);
    unfold frame_at, nframes in *;
    cbn [upd set_frames set_reads frames head tail occupiedFrameCount
         getNumReadIO getNumWriteIO];
    rewrite list_lookup_total_alter_eq by exact Hf;
    (repeat split; try reflexivity);
    intros g Hg; now rewrite list_lookup_total_alter_ne by congruence.
Qed.

Lemma fill_path (bm : BM_BufferPool) (page : BM_PageHandle) (p : PageNumber)
  (w0 : World) (m : BM_BufferPool_Mgmt) (rcr : RC) (buf : PageData) (w2 : World)
  (ref c : bool) :
  (head m < nframes m)%nat ->
  readBlock p (data (frame_at m (head m))) (ensureCapacity (wrap_int (p + 1)) w0)
  = (rcr, buf, w2) ->
  exists m' w',
    finish c bm page p
      (let '(m1, frame) := fill_frame ref m p in Some (Proceed m1 w0 frame))
    = Some (if rc_is_ok rcr then RC_OK else RC_READ_NON_EXISTING_PAGE,
            set_mgmt m' bm,
            if rc_is_ok rcr then mkHandle p (head m) else page, w')
    /\ pageNum (frame_at m' (head m)) = p
    /\ fixCount (frame_at m' (head m)) = incr (fixCount (frame_at m (head m)))
    /\ dirtyFlagSignal (frame_at m' (head m)) = dirtyFlagSignal (frame_at m (head m))
    /\ data (frame_at m' (head m)) = buf
    /\ (forall g, g <> head m -> frame_at m' g = frame_at m g)
    /\ head m' = next (nframes m) (head m)
    /\ tail m' = tail m
    /\ occupiedFrameCount m' = incr (occupiedFrameCount m)
    /\ getNumWriteIO m' = getNumWriteIO m
    /\ getNumReadIO m'
       = (if rc_is_ok rcr then incr (getNumReadIO m) else getNumReadIO m).
Proof.
  intros Hh Hread.
  destruct (fill_frame_spec ref m p Hh)
    as (Hfr & Hat & Hoth & Hhd & Htl & Hoc & Hrd & Hwr & Hnf).
  destruct (fill_frame ref m p) as [m1 frame]. cbn [fst snd] in *. subst frame.
  assert (Hdata : data (frame_at m1 (head m)) = data (frame_at m (head m)))
    by (rewrite Hat; now destruct ref).
  rewrite <- Hdata in Hread.
  destruct (read_page_spec c m1 _ (head m) page p rcr buf w2
              ltac:(now rewrite Hnf) Hread)
    as (m' & w' & Hrp & Hat' & Hoth' & Hhd' & Htl' & Hoc' & Hwr' & Hrd').
  exists m', w'. cbn [finish]. rewrite Hrp.
  split; [reflexivity|]. rewrite Hat', Hat.
  repeat split; try congruence; try (now destruct ref).
  - intros g Hg. now rewrite Hoth', Hoth.
  - now rewrite Hrd', Hrd.
Qed.

(** X13. While [occupiedFrameCount] is below [numPages] a miss takes the
    frame [head] points to, whatever that frame holds: the page is bound
    there, the fix count goes up by one, the block read from disk is in
    its buffer, [head] moves one frame on and [occupiedFrameCount] goes up
    by one.  Nothing is written back, the write counter and the dirty flag
    of the frame stay, and no other frame changes.  A failed read leaves
    all this in place and only the read counter and the handle as they
    were. *)
Theorem miss_fills_head_frame (bm : BM_BufferPool) (page : BM_PageHandle)
  (p : PageNumber) (w : World) (m : BM_BufferPool_Mgmt)
  (rcr : RC) (buf : PageData) (w2 : World) :
  well_formed bm = true ->
  mgmtData bm = Some m ->
  strategy bm <> RS_OTHER ->
  no_holder m p ->
  occupiedFrameCount m < numPages bm ->
  readBlock p (data (frame_at m (head m)))
    (ensureCapacity (wrap_int (p + 1)) (snd (openPageFile (pageFile bm) w)))
  = (rcr, buf, w2) ->
  exists m' w',
    pin_switch bm page p w
    = Some (if rc_is_ok rcr then RC_OK else RC_READ_NON_EXISTING_PAGE,
            set_mgmt m' bm,
            if rc_is_ok rcr then mkHandle p (head m) else page, w')
    /\ pageNum (frame_at m' (head m)) = p
    /\ fixCount (frame_at m' (head m)) = incr (fixCount (frame_at m (head m)))
    /\ dirtyFlagSignal (frame_at m' (head m)) = dirtyFlagSignal (frame_at m (head m))
    /\ data (frame_at m' (head m)) = buf
    /\ (forall g, g <> head m -> frame_at m' g = frame_at m g)
    /\ head m' = next (nframes m) (head m)
    /\ tail m' = tail m
    /\ occupiedFrameCount m' = incr (occupiedFrameCount m)
    /\ getNumWriteIO m' = getNumWriteIO m
    /\ getNumReadIO m'
       = (if rc_is_ok rcr then incr (getNumReadIO m) else getNumReadIO m).
Proof.
  intros Hwf Hm Hstrat Hno Hocc Hread.
  destruct (well_formed_mgmt bm Hwf) as (m0 & Hm0 & Hmo & Hw).
  assert (m0 = m) by congruence. subst m0.
  pose proof (no_holder_misses m p Hw Hno) as Hfind.
  destruct Hw as (Hn & Hh & Ht). apply Z.ltb_lt in Hocc.
  unfold pin_switch, pinPageFIFO, pinPageLRU, pinPageCLOCK.
  rewrite Hmo, Hfind. unfold place_FIFO, place_LRU, place_CLOCK. rewrite Hocc.
  destruct (strategy bm); [now apply (fill_path _ _ _ _ _ _ _ w2)..|congruence].
Qed.

End Fill.

(** ** The choice of the victim *)

Lemma scan_first (n : nat) (test : nat -> bool) (stop frame k fuel : nat) :
  (0 < n)%nat -> (stop < n)%nat -> (frame < n)%nat ->
  (dist n frame stop <= fuel)%nat ->
  (k < dist n frame stop)%nat ->
  test (hop n k frame) = true ->
  (forall j, (j < k)%nat -> test (hop n j frame) = false) ->
  scan fuel n test stop frame = Some (inl (hop n k frame)).
Proof.
  intros Hn Hstop Hf Hfuel Hk Ht Hbefore.
  destruct (scan_spec n Hn test stop Hstop fuel frame Hf Hfuel)
    as [(k' & Hk' & Hs & Ht' & Hb')|(_ & Hall)].
  - destruct (Nat.lt_trichotomy k k') as [Hlt|[->|Hgt]]; [|exact Hs|].
    + rewrite (Hb' k Hlt) in Ht. discriminate.
    + rewrite (Hbefore k' Hgt) in Ht'. discriminate.
  - rewrite (Hall k Hk) in Ht. discriminate.
Qed.

Lemma scan_none (n : nat) (test : nat -> bool) (stop frame fuel : nat) :
  (0 < n)%nat -> (stop < n)%nat -> (frame < n)%nat ->
  (dist n frame stop <= fuel)%nat ->
  (forall j, (j < dist n frame stop)%nat -> test (hop n j frame) = false) ->
  scan fuel n test stop frame = Some (inr stop).
Proof.
  intros Hn Hstop Hf Hfuel Hall.
  destruct (scan_spec n Hn test stop Hstop fuel frame Hf Hfuel)
    as [(k & Hk & _ & Ht & _)|(Hs & _)]; [|exact Hs].
  rewrite Hall in Ht by exact Hk. discriminate.
Qed.

Lemma prev_next (n g : nat) : (g < n)%nat -> prev n (next n g) = g.
Proof.
  intros Hg. unfold prev, next.
  destruct (Nat.ltb_spec (S g) n); cbn; [f_equal; lia|lia].
Qed.

Lemma path_found (n : nat) (test : nat -> bool) (frame d k : nat) :
  (k < d)%nat -> test (hop n k frame) = true ->
  existsb test (map (fun j => hop n j frame) (seq 0 d)) = true.
Proof.
  intros Hk Ht. apply existsb_exists. exists (hop n k frame). split; [|exact Ht].
  apply in_map_iff. exists k. split; [reflexivity|]. apply in_seq. lia.
Qed.

Lemma path_clear (n : nat) (test : nat -> bool) (frame d : nat) :
  (forall j, (j < d)%nat -> test (hop n j frame) = false) ->
  existsb test (map (fun j => hop n j frame) (seq 0 d)) = false.
Proof.
  intros H. destruct (existsb _ _) eqn:E; [|reflexivity].
  apply existsb_exists in E as (x & Hin & Hx).
  apply in_map_iff in Hin as (j & <- & Hj). apply in_seq in Hj.
  rewrite H in Hx by lia. discriminate.
Qed.

Section Victim.

Context {SM : StorageMgr}.

Lemma write_victim_spec (m : BM_BufferPool_Mgmt) (w : World) (g : nat) :
  (exists w', write_victim m w g = inl (Abort RC_WRITE_FAILED m w')
              /\ dirtyFlagSignal (frame_at m g) = 1)
  \/ (exists m2 w', write_victim m w g = inr (m2, w')
                    /\ frames m2 = frames m /\ head m2 = head m /\ tail m2 = tail m
                    /\ occupiedFrameCount m2 = occupiedFrameCount m
                    /\ getNumReadIO m2 = getNumReadIO m
                    /\ getNumWriteIO m2
                       = (if dirtyFlagSignal (frame_at m g) =? 1
                          then incr (getNumWriteIO m) else getNumWriteIO m)).
Proof.
  unfold write_victim.
  destruct (Z.eqb_spec (dirtyFlagSignal (frame_at m g)) 1) as [Hd|Hd].
  - destruct (writeBlock _ _ _) as [rc w']. destruct (negb _); [left; eauto|].
    right. do 2 eexists. split; [reflexivity|]. cbn. auto 10.
  - right. do 2 eexists. split; [reflexivity|]. auto 10.
Qed.

(** The write-back of a victim, given what [writeBlock] answers. *)
Lemma write_victim_reply (m : BM_BufferPool_Mgmt) (w : World) (g : nat)
  (rcw : RC) (ww : World) :
  (if dirtyFlagSignal (frame_at m g) =? 1
   then writeBlock (pageNum (frame_at m g)) (data (frame_at m g))
          (ensureCapacity (pageNum (frame_at m g)) w)
   else (RC_OK, w)) = (rcw, ww) ->
  (rc_is_ok rcw = false ->
     write_victim m w g = inl (Abort RC_WRITE_FAILED m (closePageFile ww))
     /\ dirtyFlagSignal (frame_at m g) = 1)
  /\ (rc_is_ok rcw = true ->
      exists m2,
        write_victim m w g = inr (m2, ww)
        /\ frames m2 = frames m /\ head m2 = head m /\ tail m2 = tail m
        /\ occupiedFrameCount m2 = occupiedFrameCount m
        /\ getNumReadIO m2 = getNumReadIO m
        /\ getNumWriteIO m2
           = (if dirtyFlagSignal (frame_at m g) =? 1
              then incr (getNumWriteIO m) else getNumWriteIO m)).
Proof.
  unfold write_victim.
  destruct (Z.eqb_spec (dirtyFlagSignal (frame_at m g)) 1) as [Hd|Hd].
  - intros ->. split; intros Hrc; rewrite Hrc; cbn [negb].
    + split; [reflexivity|exact Hd].
    + eexists. split; [reflexivity|]. cbn. auto 10.
  - intros [= <- <-]. split; [discriminate|]. intros _.
    eexists. split; [reflexivity|]. auto 10.
Qed.

(** The read that ends a routine, given what [readBlock] answers. *)
Lemma finish_reply (c : bool) (bm : BM_BufferPool) (page : BM_PageHandle)
  (p : PageNumber) (m1 : BM_BufferPool_Mgmt) (w1 : World) (g : nat)
  (rcr : RC) (buf : PageData) (w2 : World) :
  (g < nframes m1)%nat ->
  readBlock p (data (frame_at m1 g)) (ensureCapacity (wrap_int (p + 1)) w1)
  = (rcr, buf, w2) ->
  exists m',
    finish c bm page p (Some (Proceed m1 w1 g))
    = Some (if rc_is_ok rcr then RC_OK else RC_READ_NON_EXISTING_PAGE,
            set_mgmt m' bm,
            if rc_is_ok rcr then mkHandle p g else page,
            if rc_is_ok rcr then closePageFile w2
            else if c then closePageFile w2 else w2)
    /\ frame_at m' g = set_data buf (frame_at m1 g)
    /\ (forall g', g' <> g -> frame_at m' g' = frame_at m1 g')
    /\ head m' = head m1 /\ tail m' = tail m1
    /\ occupiedFrameCount m' = occupiedFrameCount m1
    /\ getNumWriteIO m' = getNumWriteIO m1
    /\ getNumReadIO m'
       = (if rc_is_ok rcr then incr (getNumReadIO m1) else getNumReadIO m1).
Proof.
  intros Hg Hread. cbn [finish]. unfold read_page. rewrite Hread.
  destruct (rc_is_ok rcr); cbn [negb]; eexists; (split; [reflexivity|]);
    unfold frame_at, nframes in *;
    cbn [upd set_frames set_reads frames head tail occupiedFrameCount
         getNumReadIO getNumWriteIO];
    rewrite list_lookup_total_alter_eq by exact Hg;
    (repeat split; try reflexivity);
    intros g' Hg'; now rewrite list_lookup_total_alter_ne by congruence.
Qed.

(** What is left of a frame that a replacement has rebound and the read
    has filled. *)
Lemma taken_after (p : PageNumber) (g : nat) (m m3 m' : BM_BufferPool_Mgmt)
  (buf : PageData) (r : Z) :
  (g < nframes m)%nat ->
  frames m3 = alter (rebind p) g (alter (set_referenceBit r) g (frames m))
  \/ frames m3 = alter (rebind p) g (frames m) ->
  frame_at m' g = set_data buf (frame_at m3 g) ->
  (forall g', g' <> g -> frame_at m' g' = frame_at m3 g') ->
  takes_frame p g m m' /\ data (frame_at m' g) = buf.
Proof.
  unfold takes_frame, frame_at, nframes. intros Hg Hfs Hat Hoth.
  rewrite Hat.
  assert (H3 : forall g', g' <> g -> frames m3 !!! g' = frames m !!! g').
  { intros g' Hg'. destruct Hfs as [-> | ->];
      now rewrite ?list_lookup_total_alter_ne by congruence. }
  assert (Hg3 : frames m3 !!! g = rebind p (set_referenceBit r (frames m !!! g))
                \/ frames m3 !!! g = rebind p (frames m !!! g)).
  { destruct Hfs as [-> | ->]; [left|right];
      now rewrite ?list_lookup_total_alter_eq by (rewrite ?length_alter; exact Hg). }
  repeat split; try (destruct Hg3 as [-> | ->]; reflexivity);
    rewrite Hoth, H3 by assumption; reflexivity.
Qed.

Lemma rebound_data (p : PageNumber) (g : nat) (m m3 : BM_BufferPool_Mgmt) (r : Z) :
  (g < nframes m)%nat ->
  frames m3 = alter (rebind p) g (alter (set_referenceBit r) g (frames m))
  \/ frames m3 = alter (rebind p) g (frames m) ->
  data (frame_at m3 g) = data (frame_at m g) /\ nframes m3 = nframes m.
Proof.
  unfold frame_at, nframes. intros Hg [-> | ->];
    rewrite ?length_alter;
    rewrite ?list_lookup_total_alter_eq by (rewrite ?length_alter; exact Hg);
    auto.
Qed.

(** X14. FIFO replacement.  In a full pool a miss takes the first frame
    with fix count 0 on the way from [tail] to the frame before [head].
    When the victim is dirty, [writeBlock] is called with its page number
    and buffer on the file as [openPageFile] and [ensureCapacity] left it;
    when that write fails the call returns [RC_WRITE_FAILED] with the pool
    as it was and the file closed.  Otherwise [readBlock] is called for
    the requested page on the world the write left (the world after
    [openPageFile] for a clean victim), the page is bound to the victim
    with fix count 1, the buffer holds what [readBlock] delivered, the
    write counter has gone up exactly if the victim was dirty, [head]
    points to the victim and [tail] to the frame after it; no other frame
    changes.  The result is [RC_OK] with the handle of the victim when the
    read succeeded and [RC_READ_NON_EXISTING_PAGE] with the handle as it
    was when it failed. *)
Theorem fifo_takes_first_unfixed (bm : BM_BufferPool) (page : BM_PageHandle)
  (p : PageNumber) (w : World) (m : BM_BufferPool_Mgmt) (k g : nat)
  (rcw : RC) (ww : World) (rcr : RC) (buf : PageData) (w2 : World) :
  well_formed bm = true ->
  mgmtData bm = Some m ->
  strategy bm = RS_FIFO ->
  no_holder m p ->
  numPages bm <= occupiedFrameCount m ->
  (k < dist (nframes m) (tail m) (head m))%nat ->
  g = hop (nframes m) k (tail m) ->
  fixCount (frame_at m g) = 0 ->
  (forall j, (j < k)%nat -> fixCount (frame_at m (hop (nframes m) j (tail m))) <> 0) ->
  (if dirtyFlagSignal (frame_at m g) =? 1
   then writeBlock (pageNum (frame_at m g)) (data (frame_at m g))
          (ensureCapacity (pageNum (frame_at m g))
             (snd (openPageFile (pageFile bm) w)))
   else (RC_OK, snd (openPageFile (pageFile bm) w))) = (rcw, ww) ->
  readBlock p (data (frame_at m g)) (ensureCapacity (wrap_int (p + 1)) ww)
  = (rcr, buf, w2) ->
  (rc_is_ok rcw = false ->
     dirtyFlagSignal (frame_at m g) = 1
     /\ pin_switch bm page p w
        = Some (RC_WRITE_FAILED, set_mgmt m bm, page, closePageFile ww))
  /\ (rc_is_ok rcw = true ->
      exists m',
        pin_switch bm page p w
        = Some (if rc_is_ok rcr then RC_OK else RC_READ_NON_EXISTING_PAGE,
                set_mgmt m' bm,
                if rc_is_ok rcr then mkHandle p g else page,
                closePageFile w2)
        /\ takes_frame p g m m'
        /\ fixCount (frame_at m' g) = 1
        /\ data (frame_at m' g) = buf
        /\ head m' = g
        /\ tail m' = next (nframes m) g
        /\ occupiedFrameCount m' = occupiedFrameCount m
        /\ getNumWriteIO m'
           = (if dirtyFlagSignal (frame_at m g) =? 1
              then incr (getNumWriteIO m) else getNumWriteIO m)
        /\ getNumReadIO m'
           = (if rc_is_ok rcr then incr (getNumReadIO m) else getNumReadIO m)).
Proof.
  intros Hwf Hm Hstrat Hno Hfull Hk Hg Hfree Hfixed Hwrite Hread.
  destruct (well_formed_mgmt bm Hwf) as (m0 & Hm0 & Hmo & Hw).
  assert (m0 = m) by congruence. subst m0.
  pose proof (no_holder_misses m p Hw Hno) as Hfind.
  destruct Hw as (Hn & Hh & Ht).
  assert (Hgn : (g < nframes m)%nat) by (subst g; now apply hop_lt).
  assert (Hscan : scan (nframes m) (nframes m) (unfixed m) (head m) (tail m)
                  = Some (inl g)).
  { subst g. apply scan_first; auto.
    - apply dist_bounds; assumption.
    - unfold unfixed. now rewrite Hfree.
    - intros j Hj. unfold unfixed. apply Z.eqb_neq. now apply Hfixed. }
  unfold pin_switch, pinPageFIFO. rewrite Hstrat, Hmo, Hfind.
  unfold place_FIFO. apply Z.ltb_ge in Hfull. rewrite Hfull.
  unfold replace_FIFO. rewrite Hscan.
  destruct (write_victim_reply m _ g rcw ww Hwrite) as [Hfail Hok].
  split.
  - intros Hrc. destruct (Hfail Hrc) as [-> Hd]. split; [exact Hd|reflexivity].
  - intros Hrc.
    destruct (Hok Hrc) as (m2 & -> & Hfs & Hhd & Htl & Hoc & Hrd & Hwr).
    match goal with
    | |- context [Some (Proceed ?m3 ww g)] =>
        assert (Hm3 : frames m3 = alter (rebind p) g (frames m))
          by (cbn; now rewrite Hfs);
        destruct (rebound_data p g m m3 0 Hgn (or_intror Hm3)) as [Hdata Hnf];
        destruct (finish_reply true bm page p m3 ww g rcr buf w2)
          as (m' & Hfin & Hat & Hoth & Hhd' & Htl' & Hoc' & Hwr' & Hrd');
        [now rewrite Hnf|now rewrite Hdata|];
        destruct (taken_after p g m m3 m' buf 0 Hgn (or_intror Hm3) Hat Hoth)
          as [Htake Hbuf]
    end.
    exists m'. split; [rewrite Hfin; now destruct (rc_is_ok rcr)|].
    split; [exact Htake|]. destruct Htake as (_ & Hfx & _).
    cbn in Hhd', Htl', Hoc', Hwr', Hrd'. unfold nframes in *.
    rewrite length_alter, Hfs in Htl'.
    split; [now rewrite Hfx, Hfree|]. split; [exact Hbuf|].
    rewrite Hrd in Hrd'. repeat split; congruence.
Qed.

(** X15. LRU replacement.  In a full pool a miss looks for the first frame
    [g] with fix count 0 from [tail] once around.  When [g] is dirty,
    [writeBlock] is called with its page number and buffer; a failed
    write returns [RC_WRITE_FAILED] with the pool as it was and the file
    closed.  Otherwise [readBlock] is called for the requested page on the
    world the write left, into the buffer of the frame [t] that takes the
    page: [g] itself where [tail] and [head] differ, and the frame AFTER
    [g] where they are the same frame.  That frame is bound with one more
    fix and the dirty flag it had; [tail] moves to the frame after [g] in
    the first case, and [head] to [t] and [tail] to [g] in the second.  A
    failed read returns [RC_READ_NON_EXISTING_PAGE] without closing the
    file. *)
Theorem lru_takes_frame (bm : BM_BufferPool) (page : BM_PageHandle)
  (p : PageNumber) (w : World) (m : BM_BufferPool_Mgmt) (k g t : nat)
  (rcw : RC) (ww : World) (rcr : RC) (buf : PageData) (w2 : World) :
  well_formed bm = true ->
  mgmtData bm = Some m ->
  strategy bm = RS_LRU ->
  no_holder m p ->
  numPages bm <= occupiedFrameCount m ->
  (k < nframes m)%nat ->
  g = hop (nframes m) k (tail m) ->
  t = (if (tail m =? head m)%nat then next (nframes m) g else g) ->
  fixCount (frame_at m g) = 0 ->
  (forall j, (j < k)%nat -> fixCount (frame_at m (hop (nframes m) j (tail m))) <> 0) ->
  (if dirtyFlagSignal (frame_at m g) =? 1
   then writeBlock (pageNum (frame_at m g)) (data (frame_at m g))
          (ensureCapacity (pageNum (frame_at m g))
             (snd (openPageFile (pageFile bm) w)))
   else (RC_OK, snd (openPageFile (pageFile bm) w))) = (rcw, ww) ->
  readBlock p (data (frame_at m t)) (ensureCapacity (wrap_int (p + 1)) ww)
  = (rcr, buf, w2) ->
  (rc_is_ok rcw = false ->
     dirtyFlagSignal (frame_at m g) = 1
     /\ pin_switch bm page p w
        = Some (RC_WRITE_FAILED, set_mgmt m bm, page, closePageFile ww))
  /\ (rc_is_ok rcw = true ->
      exists m',
        pin_switch bm page p w
        = Some (if rc_is_ok rcr then RC_OK else RC_READ_NON_EXISTING_PAGE,
                set_mgmt m' bm,
                if rc_is_ok rcr then mkHandle p t else page,
                if rc_is_ok rcr then closePageFile w2 else w2)
        /\ takes_frame p t m m'
        /\ data (frame_at m' t) = buf
        /\ head m' = (if (tail m =? head m)%nat then t else head m)
        /\ tail m' = (if (tail m =? head m)%nat then g else next (nframes m) g)
        /\ occupiedFrameCount m' = occupiedFrameCount m
        /\ getNumWriteIO m'
           = (if dirtyFlagSignal (frame_at m g) =? 1
              then incr (getNumWriteIO m) else getNumWriteIO m)
        /\ getNumReadIO m'
           = (if rc_is_ok rcr then incr (getNumReadIO m) else getNumReadIO m)).
Proof.
  intros Hwf Hm Hstrat Hno Hfull Hk Hg Ht' Hfree Hfixed Hwrite Hread.
  destruct (well_formed_mgmt bm Hwf) as (m0 & Hm0 & Hmo & Hw).
  assert (m0 = m) by congruence. subst m0.
  pose proof (no_holder_misses m p Hw Hno) as Hfind.
  destruct Hw as (Hn & Hh & Ht).
  assert (Hgn : (g < nframes m)%nat) by (subst g; now apply hop_lt).
  assert (Htn : (t < nframes m)%nat)
    by (subst t; destruct (_ =? _)%nat; [now apply next_lt|exact Hgn]).
  assert (Hscan : scan (nframes m) (nframes m) (unfixed m) (tail m) (tail m)
                  = Some (inl g)).
  { subst g. apply scan_first; auto.
    - rewrite dist_self by assumption. lia.
    - rewrite dist_self by assumption. exact Hk.
    - unfold unfixed. now rewrite Hfree.
    - intros j Hj. unfold unfixed. apply Z.eqb_neq. now apply Hfixed. }
  unfold pin_switch, pinPageLRU. rewrite Hstrat, Hmo, Hfind.
  unfold place_LRU. apply Z.ltb_ge in Hfull. rewrite Hfull.
  unfold replace_LRU. rewrite Hscan.
  destruct (write_victim_reply m _ g rcw ww Hwrite) as [Hfail Hok].
  split.
  - intros Hrc. destruct (Hfail Hrc) as [-> Hd]. split; [exact Hd|reflexivity].
  - intros Hrc.
    destruct (Hok Hrc) as (m2 & -> & Hfs & Hhd & Htl & Hoc & Hrd & Hwr).
    rewrite Htl, Hhd. unfold nframes in *. cbn [upd set_frames frames].
    rewrite ?length_alter, Hfs.
    destruct (Nat.eqb_spec (tail m) (head m)) as [He|He]; cbn [negb]; subst t;
      match goal with
      | |- context [Some (Proceed ?m3 ww ?t0)] =>
          assert (Hm3 : frames m3 = alter (rebind p) t0 (frames m))
            by (cbn; now rewrite Hfs);
          destruct (rebound_data p t0 m m3 0 Htn (or_intror Hm3)) as [Hdata Hnf];
          destruct (finish_reply false bm page p m3 ww t0 rcr buf w2)
            as (m' & Hfin & Hat & Hoth & Hhd' & Htl' & Hoc' & Hwr' & Hrd');
          [now rewrite Hnf|now rewrite Hdata|];
          destruct (taken_after p t0 m m3 m' buf 0 Htn (or_intror Hm3) Hat Hoth)
            as [Htake Hbuf]
      end;
      exists m'; (split; [rewrite Hfin; now destruct (rc_is_ok rcr)|]);
      (split; [exact Htake|]); (split; [exact Hbuf|]);
      cbn in Hhd', Htl', Hoc', Hwr', Hrd'; rewrite ?length_alter, ?Hfs in Htl';
      rewrite ?prev_next in Htl' by exact Hgn;
      rewrite Hrd in Hrd'; repeat split; congruence.
Qed.

Lemma replace_CLOCK_skip (m : BM_BufferPool_Mgmt) (w : World) (p : PageNumber) :
  forall j fuel frame,
    (forall i, (i < j)%nat ->
               fixCount (frame_at m (hop (nframes m) i frame)) <> 0) ->
    (forall i, (0 < i <= j)%nat -> hop (nframes m) i frame <> head m) ->
    replace_CLOCK (j + fuel) m w p frame
    = replace_CLOCK fuel m w p (hop (nframes m) j frame).
Proof.
  induction j as [|j IH]; intros fuel frame Hfixed Hnot; [reflexivity|].
  cbn [Nat.add replace_CLOCK].
  pose proof (Hfixed 0%nat ltac:(lia)) as H0.
  unfold hop, Nat.iter in H0. cbn [nat_rect] in H0.
  apply Z.eqb_neq in H0. rewrite H0. cbn [negb].
  pose proof (Hnot 1%nat ltac:(lia)) as H1.
  unfold hop, Nat.iter in H1. cbn [nat_rect] in H1.
  apply Nat.eqb_neq in H1. rewrite H1.
  rewrite IH.
  - now rewrite <- hop_S.
  - intros i Hi. rewrite <- hop_S. apply Hfixed. lia.
  - intros i Hi. rewrite <- hop_S. apply Hnot. lia.
Qed.

(** The CLOCK replacement in a ring whose frames are all fixed: the loop
    comes back to [head] and leaves through its condition. *)
Lemma replace_CLOCK_none (m : BM_BufferPool_Mgmt) (w : World) (p : PageNumber) :
  wf_mgmt m ->
  (forall i, (i < nframes m)%nat ->
             fixCount (frame_at m (hop (nframes m) i (head m))) <> 0) ->
  replace_CLOCK (nframes m) m w p (head m) = Some (Proceed m w (head m)).
Proof.
  intros (Hn & Hh & Ht) Hfixed.
  replace (nframes m) with ((nframes m - 1) + 1)%nat at 1 by lia.
  rewrite replace_CLOCK_skip.
  - cbn [replace_CLOCK].
    assert (Hf : (fixCount (frame_at m (hop (nframes m) (nframes m - 1) (head m)))
                  =? 0) = false).
    { apply Z.eqb_neq, Hfixed. lia. }
    rewrite Hf. cbn [negb].
    assert (Hback : next (nframes m) (hop (nframes m) (nframes m - 1) (head m))
                    = head m).
    { pose proof (hop_full (nframes m) Hn (head m) Hh) as Hfull'.
      replace (nframes m) with (S (nframes m - 1)) in Hfull' at 2 by lia.
      unfold hop in Hfull' |- *. now rewrite Nat.iter_succ in Hfull'. }
    rewrite Hback, Nat.eqb_refl. reflexivity.
  - intros i Hi. apply Hfixed. lia.
  - intros i Hi Heq.
    change (head m) with (hop (nframes m) 0 (head m)) in Heq at 2.
    apply hop_inj in Heq; lia.
Qed.

(** The CLOCK replacement in a ring with a frame that is not fixed: the
    outer loop walks to the first such frame, the sweep from there ends at
    a frame [g] with a clear bit, and [g] is written back and rebound. *)
Lemma replace_CLOCK_found (m : BM_BufferPool_Mgmt) (w : World) (p : PageNumber)
  (j : nat) :
  wf_mgmt m ->
  (j < nframes m)%nat ->
  fixCount (frame_at m (hop (nframes m) j (head m))) = 0 ->
  (forall i, (i < j)%nat -> fixCount (frame_at m (hop (nframes m) i (head m))) <> 0) ->
  exists fs' g,
    clock_sweep (nframes m) (nframes m) (frames m) (hop (nframes m) j (head m))
    = Some (fs', g)
    /\ length fs' = nframes m /\ (g < nframes m)%nat
    /\ ((exists w', write_victim (set_frames fs' m) w g
                    = inl (Abort RC_WRITE_FAILED (set_frames fs' m) w')
                    /\ replace_CLOCK (nframes m) m w p (head m)
                       = Some (Abort RC_WRITE_FAILED (set_frames fs' m) w'))
        \/ (exists m2 w2 m3,
              write_victim (set_frames fs' m) w g = inr (m2, w2)
              /\ replace_CLOCK (nframes m) m w p (head m) = Some (Proceed m3 w2 g)
              /\ frames m3
                 = alter (rebind p) g (alter (set_referenceBit 1) g (frames m2))
              /\ head m3 = next (nframes m) g /\ tail m3 = tail m2
              /\ occupiedFrameCount m3 = occupiedFrameCount m2
              /\ getNumReadIO m3 = getNumReadIO m2
              /\ getNumWriteIO m3 = getNumWriteIO m2)).
Proof.
  intros (Hn & Hh & Ht) Hj Hfree Hfixed.
  set (g0 := hop (nframes m) j (head m)) in *.
  assert (Hg0 : (g0 < nframes m)%nat) by now apply hop_lt.
  assert (Hskip : replace_CLOCK (nframes m) m w p (head m)
                  = replace_CLOCK (S (nframes m - j - 1)) m w p g0).
  { unfold g0. rewrite <- replace_CLOCK_skip.
    - f_equal. lia.
    - exact Hfixed.
    - intros i Hi Heq.
      change (head m) with (hop (nframes m) 0 (head m)) in Heq at 2.
      apply hop_inj in Heq; lia. }
  destruct (clock_sweep_total (frames m) g0 Hg0)
    as (fs' & g & Hs & Hlen & Hg & Hr).
  exists fs', g. split; [exact Hs|]. split; [exact Hlen|]. split; [exact Hg|].
  rewrite Hskip. cbn [replace_CLOCK]. rewrite Hfree. cbn [Z.eqb negb].
  assert (Hbit : (referenceBit (frame_at (set_frames fs' m) g) =? 0) = true)
    by (unfold frame_at; cbn [frames set_frames]; now rewrite Hr).
  unfold nframes in Hs |- *. rewrite Hs, Hbit.
  destruct (write_victim_spec (set_frames fs' m) w g)
    as [(w1 & Hv & _)|(m2 & w2 & Hv & Hfs & _)]; rewrite Hv.
  - left. exists w1. split; reflexivity.
  - right. eexists m2, w2, _. split; [reflexivity|]. split; [reflexivity|].
    cbn. rewrite !length_alter, Hfs. cbn. rewrite Hlen. auto 10.
Qed.

Lemma takes_frame_from (p : PageNumber) (g : nat) (m ms m' : BM_BufferPool_Mgmt) :
  (forall g', pageNum (frame_at ms g') = pageNum (frame_at m g')
              /\ fixCount (frame_at ms g') = fixCount (frame_at m g')
              /\ dirtyFlagSignal (frame_at ms g') = dirtyFlagSignal (frame_at m g')
              /\ data (frame_at ms g') = data (frame_at m g')) ->
  takes_frame p g ms m' -> takes_frame p g m m'.
Proof.
  intros Hsame (H1 & H2 & H3 & H4). unfold takes_frame.
  destruct (Hsame g) as (_ & E2 & E3 & _). rewrite <- E2, <- E3.
  repeat split; auto; destruct (H4 g' H) as (A1 & A2 & A3 & A4);
    destruct (Hsame g') as (B1 & B2 & B3 & B4); congruence.
Qed.

(** X16. CLOCK replacement.  In a full pool a miss walks from [head] past
    the frames with a fix count other than 0 to the first frame [g0] with
    fix count 0, and sweeps from there: the frames with a set reference
    bit lose it, and the first frame [g] with a clear bit is the victim,
    with whatever fix count it has.  When [g] is dirty, [writeBlock] is
    called with its page number and buffer; a failed write returns
    [RC_WRITE_FAILED] with the file closed and no page number, fix count,
    dirty flag, buffer or counter changed.  Otherwise [readBlock] is
    called for the requested page on the world the write left, the page
    is bound to the victim with its reference bit set and the buffer
    [readBlock] delivered, [head] points to the frame after the victim,
    and the frames swept keep a clear bit. *)
Theorem clock_takes_first_clear_bit (bm : BM_BufferPool) (page : BM_PageHandle)
  (p : PageNumber) (w : World) (m : BM_BufferPool_Mgmt) (j k g0 g : nat)
  (rcw : RC) (ww : World) (rcr : RC) (buf : PageData) (w2 : World) :
  well_formed bm = true ->
  mgmtData bm = Some m ->
  strategy bm = RS_CLOCK ->
  no_holder m p ->
  numPages bm <= occupiedFrameCount m ->
  (j < nframes m)%nat ->
  g0 = hop (nframes m) j (head m) ->
  fixCount (frame_at m g0) = 0 ->
  (forall i, (i < j)%nat -> fixCount (frame_at m (hop (nframes m) i (head m))) <> 0) ->
  (k <= nframes m)%nat ->
  g = hop (nframes m) k g0 ->
  (forall i, (i < k)%nat -> referenceBit (frame_at m (hop (nframes m) i g0)) <> 0) ->
  ((k < nframes m)%nat -> referenceBit (frame_at m g) = 0) ->
  (if dirtyFlagSignal (frame_at m g) =? 1
   then writeBlock (pageNum (frame_at m g)) (data (frame_at m g))
          (ensureCapacity (pageNum (frame_at m g))
             (snd (openPageFile (pageFile bm) w)))
   else (RC_OK, snd (openPageFile (pageFile bm) w))) = (rcw, ww) ->
  readBlock p (data (frame_at m g)) (ensureCapacity (wrap_int (p + 1)) ww)
  = (rcr, buf, w2) ->
  (rc_is_ok rcw = false ->
     dirtyFlagSignal (frame_at m g) = 1
     /\ exists ms,
          pin_switch bm page p w
          = Some (RC_WRITE_FAILED, set_mgmt ms bm, page, closePageFile ww)
          /\ quiet m ms)
  /\ (rc_is_ok rcw = true ->
      exists m',
        pin_switch bm page p w
        = Some (if rc_is_ok rcr then RC_OK else RC_READ_NON_EXISTING_PAGE,
                set_mgmt m' bm,
                if rc_is_ok rcr then mkHandle p g else page,
                closePageFile w2)
        /\ takes_frame p g m m'
        /\ data (frame_at m' g) = buf
        /\ referenceBit (frame_at m' g) = 1
        /\ (forall i, (i < k)%nat -> hop (nframes m) i g0 <> g ->
                      referenceBit (frame_at m' (hop (nframes m) i g0)) = 0)
        /\ head m' = next (nframes m) g
        /\ tail m' = tail m
        /\ occupiedFrameCount m' = occupiedFrameCount m
        /\ getNumWriteIO m'
           = (if dirtyFlagSignal (frame_at m g) =? 1
              then incr (getNumWriteIO m) else getNumWriteIO m)
        /\ getNumReadIO m'
           = (if rc_is_ok rcr then incr (getNumReadIO m) else getNumReadIO m)).
Proof.
  intros Hwf Hm Hstrat Hno Hfull Hj Hg0 Hfree Hfixed Hk Hg Hset Hend Hwrite Hread.
  destruct (well_formed_mgmt bm Hwf) as (m0 & Hm0 & Hmo & Hw).
  assert (m0 = m) by congruence. subst m0.
  pose proof (no_holder_misses m p Hw Hno) as Hfind.
  pose proof Hw as (Hn & Hh & Ht).
  subst g. subst g0.
  set (g0 := hop (nframes m) j (head m)) in *.
  set (g := hop (nframes m) k g0) in *.
  assert (Hg0n : (g0 < nframes m)%nat) by (unfold g0; now apply hop_lt).
  assert (Hgn : (g < nframes m)%nat) by (unfold g; now apply hop_lt).
  destruct (replace_CLOCK_found m (snd (openPageFile (pageFile bm) w)) p j
              Hw Hj Hfree Hfixed)
    as (fs' & g' & Hs & Hlen & Hg' & Hcases).
  fold g0 in Hs.
  destruct (clock_sweep_run (nframes m) g0 Hn Hg0n k 0%nat (nframes m) (frames m))
    as (fs'' & Hrun & _ & Hclr & Hoth); try lia; try reflexivity.
  { intros i Hi. apply Hset. lia. }
  { intros Hlt. exact (Hend Hlt). }
  change (hop (nframes m) 0 g0) with g0 in Hrun.
  change (hop (nframes m) (0 + k) g0) with g in Hrun.
  rewrite Hs in Hrun. injection Hrun as <- ->.
  destruct (clock_sweep_keeps _ _ _ _ _ _ Hs) as [_ Hkeep].
  set (ms := set_frames fs' m) in *.
  assert (Hsame : forall x,
            pageNum (frame_at ms x) = pageNum (frame_at m x)
            /\ fixCount (frame_at ms x) = fixCount (frame_at m x)
            /\ dirtyFlagSignal (frame_at ms x) = dirtyFlagSignal (frame_at m x)
            /\ data (frame_at ms x) = data (frame_at m x))
    by (intros x; apply Hkeep).
  assert (Hmsn : (g < nframes ms)%nat) by (unfold nframes, ms; cbn; now rewrite Hlen).
  destruct (Hsame g) as (E1 & E2 & E3 & E4).
  assert (Hwrite' : (if dirtyFlagSignal (frame_at ms g) =? 1
                     then writeBlock (pageNum (frame_at ms g)) (data (frame_at ms g))
                            (ensureCapacity (pageNum (frame_at ms g))
                               (snd (openPageFile (pageFile bm) w)))
                     else (RC_OK, snd (openPageFile (pageFile bm) w))) = (rcw, ww))
    by (rewrite E1, E3, E4; exact Hwrite).
  destruct (write_victim_reply ms _ g rcw ww Hwrite') as [Hfail Hok].
  assert (Hpin : pin_switch bm page p w
                 = finish true bm page p
                     (replace_CLOCK (nframes m) m (snd (openPageFile (pageFile bm) w))
                        p (head m))).
  { unfold pin_switch, pinPageCLOCK. rewrite Hstrat, Hmo, Hfind.
    unfold place_CLOCK. apply Z.ltb_ge in Hfull. now rewrite Hfull. }
  rewrite Hpin. split.
  - intros Hrc. destruct (Hfail Hrc) as [Hv Hd]. rewrite E3 in Hd.
    split; [exact Hd|]. exists ms.
    destruct Hcases as [(w' & Hv' & ->)|(m2 & w3 & m3 & Hv' & _)];
      rewrite Hv in Hv'; [|discriminate].
    injection Hv' as <-. split; [reflexivity|].
    destruct (clock_sweep_quiet _ _ _ _ _ _ Hs) as (Q1 & Q2 & Q3 & Q4).
    unfold quiet, pages, fix_counts, dirty_flags, page_buffers, ms. cbn.
    rewrite Q1, Q2, Q3, Q4. auto 12.
  - intros Hrc.
    destruct (Hok Hrc) as (m2 & Hv & Hfs & Hhd & Htl & Hoc & Hrd & Hwr).
    destruct Hcases as [(w' & Hv' & _)|(m2' & w3 & m3 & Hv' & -> & Hm3 & Hhd3
                                        & Htl3 & Hoc3 & Hrd3 & Hwr3)];
      rewrite Hv in Hv'; [discriminate|].
    injection Hv' as <- <-. rewrite Hfs in Hm3.
    destruct (rebound_data p g ms m3 1 Hmsn (or_introl Hm3)) as [Hdata Hnf].
    destruct (finish_reply true bm page p m3 ww g rcr buf w2)
      as (m' & Hfin & Hat & Hoth' & Hhd' & Htl' & Hoc' & Hwr' & Hrd');
      [now rewrite Hnf|now rewrite Hdata, E4|].
    destruct (taken_after p g ms m3 m' buf 1 Hmsn (or_introl Hm3) Hat Hoth')
      as [Htake Hbuf].
    exists m'. split; [rewrite Hfin; now destruct (rc_is_ok rcr)|].
    split; [now apply (takes_frame_from p g m ms m' Hsame)|].
    split; [exact Hbuf|].
    assert (Hfs3 : forall x,
              frame_at m' x
              = (if decide (x = g)
                 then set_data buf (rebind p (set_referenceBit 1 (fs' !!! x)))
                 else fs' !!! x)).
    { intros x. destruct (decide (x = g)) as [->|Hx].
      - rewrite Hat. unfold frame_at. rewrite Hm3. unfold ms. cbn [frames set_frames].
        now rewrite !list_lookup_total_alter_eq
          by (rewrite ?length_alter, Hlen; exact Hgn).
      - rewrite (Hoth' x Hx). unfold frame_at. rewrite Hm3. unfold ms.
        cbn [frames set_frames].
        now rewrite !list_lookup_total_alter_ne by congruence. }
    rewrite E3 in Hwr. unfold ms in Htl, Hoc, Hrd, Hwr. cbn in Htl, Hoc, Hrd, Hwr.
    split; [rewrite Hfs3; destruct (decide (g = g)); [reflexivity|congruence]|].
    split.
    { intros i Hi Hne. rewrite Hfs3.
      destruct (decide (_ = g)); [congruence|]. rewrite Hclr by lia. reflexivity. }
    rewrite Hrd3, Hrd in Hrd'. repeat split; congruence.
Qed.

(** X17. A full pool with every frame fixed does not refuse a miss.  No
    routine finds a victim, no frame is rebound and [writeBlock] is not
    called: [readBlock] is called for the requested page on the file as
    [openPageFile] and [ensureCapacity] left it, into the buffer of the
    frame the search stopped at ([head] under FIFO and CLOCK, [tail] under
    LRU).  That frame keeps its page number, fix count and dirty flag and
    its buffer holds what [readBlock] delivered.  When the read succeeds
    the result is [RC_OK] with a handle for the requested page on that
    buffer and one more read counted; when it fails the result is
    [RC_READ_NON_EXISTING_PAGE] with the handle and the counter as they
    were. *)
Theorem all_fixed_miss_binds_nothing (bm : BM_BufferPool) (page : BM_PageHandle)
  (p : PageNumber) (w : World) (m : BM_BufferPool_Mgmt) (t : nat)
  (rcr : RC) (buf : PageData) (w2 : World) :
  well_formed bm = true ->
  mgmtData bm = Some m ->
  strategy bm <> RS_OTHER ->
  no_holder m p ->
  numPages bm <= occupiedFrameCount m ->
  (forall g, (g < nframes m)%nat -> fixCount (frame_at m g) <> 0) ->
  t = match strategy bm with RS_LRU => tail m | _ => head m end ->
  readBlock p (data (frame_at m t))
    (ensureCapacity (wrap_int (p + 1)) (snd (openPageFile (pageFile bm) w)))
  = (rcr, buf, w2) ->
  exists m',
    pin_switch bm page p w
    = Some (if rc_is_ok rcr then RC_OK else RC_READ_NON_EXISTING_PAGE,
            set_mgmt m' bm,
            if rc_is_ok rcr then mkHandle p t else page,
            if rc_is_ok rcr then closePageFile w2
            else match strategy bm with
                 | RS_LRU => w2
                 | _ => closePageFile w2
                 end)
    /\ frame_at m' t = set_data buf (frame_at m t)
    /\ (forall g, g <> t -> frame_at m' g = frame_at m g)
    /\ head m' = head m /\ tail m' = tail m
    /\ occupiedFrameCount m' = occupiedFrameCount m
    /\ getNumWriteIO m' = getNumWriteIO m
    /\ getNumReadIO m'
       = (if rc_is_ok rcr then incr (getNumReadIO m) else getNumReadIO m).
Proof.
  intros Hwf Hm Hstrat Hno Hfull Hfixed Ht' Hread.
  destruct (well_formed_mgmt bm Hwf) as (m0 & Hm0 & Hmo & Hw).
  assert (m0 = m) by congruence. subst m0.
  pose proof (no_holder_misses m p Hw Hno) as Hfind.
  pose proof Hw as (Hn & Hh & Ht).
  assert (Hnone : forall g, (g < nframes m)%nat -> unfixed m g = false).
  { intros g Hg. unfold unfixed. apply Z.eqb_neq. now apply Hfixed. }
  apply Z.ltb_ge in Hfull.
  unfold pin_switch, pinPageFIFO, pinPageLRU, pinPageCLOCK. rewrite Hmo, Hfind.
  unfold place_FIFO, place_LRU, place_CLOCK. rewrite Hfull.
  destruct (strategy bm); [| | |congruence]; subst t.
  - unfold replace_FIFO. rewrite scan_none; auto.
    + destruct (finish_reply true bm page p m _ (head m) rcr buf w2 Hh Hread)
        as (m' & Hfin & Hrest).
      exists m'. split; [rewrite Hfin; now destruct (rc_is_ok rcr)|exact Hrest].
    + now apply dist_bounds.
    + intros j Hj. apply Hnone. now apply hop_lt.
  - unfold replace_LRU. rewrite scan_none; auto.
    + destruct (finish_reply false bm page p m _ (tail m) rcr buf w2 Ht Hread)
        as (m' & Hfin & Hrest).
      exists m'. split; [exact Hfin|exact Hrest].
    + now apply dist_bounds.
    + intros j Hj. apply Hnone. now apply hop_lt.
  - rewrite replace_CLOCK_none;
      [|exact Hw|intros i Hi; apply Hfixed; now apply hop_lt].
    destruct (finish_reply true bm page p m _ (head m) rcr buf w2 Hh Hread)
      as (m' & Hfin & Hrest).
    exists m'. split; [rewrite Hfin; now destruct (rc_is_ok rcr)|exact Hrest].
Qed.

(** ** A failed read after a replacement *)

(** What a placement in a full pool hands to the read. *)
Lemma place_full_taken (bm : BM_BufferPool) (m : BM_BufferPool_Mgmt) (w : World)
  (p : PageNumber) (m1 : BM_BufferPool_Mgmt) (w1 : World) (frame : nat) :
  wf_mgmt m ->
  numPages bm <= occupiedFrameCount m ->
  place_switch bm m w p = Some (Proceed m1 w1 frame) ->
  (frame < nframes m)%nat
  /\ occupiedFrameCount m1 = occupiedFrameCount m
  /\ (victim_found bm m = true ->
      exists fs,
        length fs = nframes m
        /\ (forall x, pageNum (fs !!! x) = pageNum (frame_at m x)
                      /\ fixCount (fs !!! x) = fixCount (frame_at m x)
                      /\ dirtyFlagSignal (fs !!! x) = dirtyFlagSignal (frame_at m x)
                      /\ data (fs !!! x) = data (frame_at m x))
        /\ (frames m1 = alter (rebind p) frame (alter (set_referenceBit 1) frame fs)
            \/ frames m1 = alter (rebind p) frame fs))
  /\ (victim_found bm m = false -> frames m1 = frames m).
Proof.
  intros Hw Hfull Hplace. pose proof Hw as (Hn & Hh & Ht).
  apply Z.ltb_ge in Hfull.
  unfold place_switch, place_FIFO, place_LRU, place_CLOCK in Hplace.
  rewrite Hfull in Hplace. unfold victim_found, search_path, ring_order.
  assert (Hself : forall x, pageNum (frames m !!! x) = pageNum (frame_at m x)
                            /\ fixCount (frames m !!! x) = fixCount (frame_at m x)
                            /\ dirtyFlagSignal (frames m !!! x)
                               = dirtyFlagSignal (frame_at m x)
                            /\ data (frames m !!! x) = data (frame_at m x))
    by (intros x; unfold frame_at; auto).
  destruct (strategy bm); [| | |discriminate].
  - (* FIFO *)
    unfold replace_FIFO in Hplace.
    pose proof (dist_bounds (nframes m) Hn (tail m) (head m) Ht Hh) as Hd.
    destruct (scan_spec (nframes m) Hn (unfixed m) (head m) Hh (nframes m) (tail m) Ht)
      as [(k & Hk & Hs & Htest & _)|(Hs & Hall)]; [lia| |]; rewrite Hs in Hplace.
    + rewrite (path_found _ _ _ _ k Hk Htest).
      assert (Hg : (hop (nframes m) k (tail m) < nframes m)%nat) by now apply hop_lt.
      destruct (write_victim_spec m w (hop (nframes m) k (tail m)))
        as [(w' & Hv & _)|(m2 & w2 & Hv & Hfs & _ & _ & Hoc & _)];
        rewrite Hv in Hplace; [discriminate|].
      injection Hplace as <- <- <-. split; [exact Hg|]. split; [exact Hoc|].
      split; [intros _|discriminate].
      exists (frames m). split; [reflexivity|]. split; [exact Hself|].
      right. cbn. now rewrite Hfs.
    + rewrite (path_clear _ _ _ _ Hall). injection Hplace as <- <- <-.
      split; [exact Hh|]. split; [reflexivity|]. split; [discriminate|reflexivity].
  - (* LRU *)
    unfold replace_LRU in Hplace.
    assert (Hd : dist (nframes m) (tail m) (tail m) = nframes m)
      by (rewrite dist_self; auto).
    destruct (scan_spec (nframes m) Hn (unfixed m) (tail m) Ht (nframes m) (tail m) Ht)
      as [(k & Hk & Hs & Htest & _)|(Hs & Hall)]; [lia| |]; rewrite Hs in Hplace.
    + rewrite Hd in Hk. rewrite (path_found _ _ _ _ k Hk Htest).
      assert (Hg : (hop (nframes m) k (tail m) < nframes m)%nat) by now apply hop_lt.
      destruct (write_victim_spec m w (hop (nframes m) k (tail m)))
        as [(w' & Hv & _)|(m2 & w2 & Hv & Hfs & _ & _ & Hoc & _)];
        rewrite Hv in Hplace; [discriminate|].
      destruct (negb _); injection Hplace as <- <- <-.
      * split; [exact Hg|]. split; [exact Hoc|]. split; [intros _|discriminate].
        exists (frames m). split; [reflexivity|]. split; [exact Hself|].
        right. cbn. now rewrite Hfs.
      * unfold nframes in *. cbn [upd set_frames frames]. rewrite Hfs.
        split; [now apply next_lt|]. split; [exact Hoc|].
        split; [intros _|discriminate].
        exists (frames m). split; [reflexivity|]. split; [exact Hself|].
        right. cbn. now rewrite Hfs.
    + rewrite Hd in Hall. rewrite (path_clear _ _ _ _ Hall).
      injection Hplace as <- <- <-.
      split; [exact Ht|]. split; [reflexivity|]. split; [discriminate|reflexivity].
  - (* CLOCK *)
    assert (Hd : dist (nframes m) (head m) (head m) = nframes m)
      by (rewrite dist_self; auto).
    destruct (scan_spec (nframes m) Hn (unfixed m) (head m) Hh (nframes m) (head m) Hh)
      as [(j & Hj & _ & Htest & Hbefore)|(_ & Hall)]; [lia| |].
    + rewrite Hd in Hj. rewrite (path_found _ _ _ _ j Hj Htest).
      unfold unfixed in Htest, Hbefore. apply Z.eqb_eq in Htest.
      destruct (replace_CLOCK_found m w p j Hw Hj Htest)
        as (fs' & g & Hs & Hlen & Hg & Hcases).
      { intros i Hi. apply Z.eqb_neq. now apply Hbefore. }
      destruct (clock_sweep_keeps _ _ _ _ _ _ Hs) as [_ Hkeep].
      destruct Hcases as [(w' & _ & Hr)|(m2 & w2 & m3 & Hv & Hr & Hm3 & _ & _
                                         & Hoc3 & _)];
        rewrite Hr in Hplace; [discriminate|].
      injection Hplace as <- <- <-.
      destruct (write_victim_spec (set_frames fs' m) w g)
        as [(w' & Hv' & _)|(m2' & w2' & Hv' & Hfs & _ & _ & Hoc & _)];
        rewrite Hv in Hv'; [discriminate|].
      injection Hv' as <- <-.
      split; [exact Hg|]. split; [now rewrite Hoc3, Hoc|].
      split; [intros _|discriminate].
      exists fs'. split; [exact Hlen|]. split; [intros x; apply Hkeep|].
      left. rewrite Hm3. now rewrite Hfs.
    + rewrite Hd in Hall. rewrite (path_clear _ _ _ _ Hall).
      rewrite replace_CLOCK_none in Hplace; [|exact Hw|].
      * injection Hplace as <- <- <-.
        split; [exact Hh|]. split; [reflexivity|]. split; [discriminate|reflexivity].
      * intros i Hi. apply Z.eqb_neq. now apply Hall.
Qed.

(** C3, as the code has it. A pin that misses, reaches the read with the
    local variable [frame] and finds [readBlock] failing ends its routine
    with [RC_READ_NON_EXISTING_PAGE], which [pinPage] turns into [RC_OK];
    the handle and the read counter are as before.  The placement is not
    taken back.  While the pool is filling, the frame at [head] stays
    bound to the requested page with its fix count and the occupied count
    raised.  In a full pool, when the search of the routine has met a
    frame with fix count 0, the frame that the routine took and handed to
    the read stays bound to the requested page with its fix count raised,
    and every other frame has its page, fix count, dirty flag and buffer
    as before; when the search has met no such frame, no frame has
    changed its page or its fix count. *)
Theorem pin_read_failure (bm : BM_BufferPool) (page : BM_PageHandle)
  (p : PageNumber) (w : World) (m m1 : BM_BufferPool_Mgmt) (w1 : World)
  (frame : nat) (rc : RC) (buf : PageData) (w2 : World) :
  well_formed bm = true ->
  mgmtData bm = Some m ->
  (forall g, (g < nframes m)%nat -> pageNum (frame_at m g) <> p) ->
  place_switch bm m (snd (openPageFile (pageFile bm) w)) p
    = Some (Proceed m1 w1 frame) ->
  readBlock p (data (frame_at m1 frame)) (ensureCapacity (wrap_int (p + 1)) w1)
    = (rc, buf, w2) ->
  rc_is_ok rc = false ->
  exists m' w',
    pin_switch bm page p w
      = Some (RC_READ_NON_EXISTING_PAGE, set_mgmt m' bm, page, w')
    /\ pinPage bm page p w = Some (RC_OK, set_mgmt m' bm, page, w')
    /\ getNumReadIO m' = getNumReadIO m
    /\ (occupiedFrameCount m < numPages bm ->
          frame = head m
          /\ pageNum (frame_at m' (head m)) = p
          /\ fixCount (frame_at m' (head m)) = incr (fixCount (frame_at m (head m)))
          /\ occupiedFrameCount m' = incr (occupiedFrameCount m))
    /\ (numPages bm <= occupiedFrameCount m ->
          (frame < nframes m)%nat
          /\ occupiedFrameCount m' = occupiedFrameCount m
          /\ (victim_found bm m = true -> takes_frame p frame m m')
          /\ (victim_found bm m = false ->
              forall g, pageNum (frame_at m' g) = pageNum (frame_at m g)
                        /\ fixCount (frame_at m' g) = fixCount (frame_at m g))).
Proof.
  intros Hwf Hm Hmiss Hplace Hread Hrc.
  destruct (well_formed_mgmt bm Hwf) as (m0 & Hm0 & Hmo & Hw).
  assert (m0 = m) by congruence. subst m0.
  destruct (find_page_total m p Hw) as [(g & _ & Hg & Hgp)|(Hfind & _)];
    [now destruct (Hmiss g Hg)|].
  destruct (read_page (match strategy bm with RS_LRU => false | _ => true end)
              m1 w1 frame page p) as [[[rc' m'] page'] w'] eqn:Hrp.
  assert (Hcode : rc' = RC_READ_NON_EXISTING_PAGE).
  { unfold read_page in Hrp. rewrite Hread, Hrc in Hrp. cbn in Hrp. congruence. }
  subst rc'. pose proof (read_page_fails _ _ _ _ _ _ _ _ _ Hrp) as (-> & Hr & Ho & Hsame).
  exists m', w'.
  assert (Hsw : pin_switch bm page p w
                = Some (RC_READ_NON_EXISTING_PAGE, set_mgmt m' bm, page, w')).
  { unfold pin_switch, pinPageFIFO, pinPageLRU, pinPageCLOCK.
    unfold place_switch in Hplace. rewrite Hmo, Hfind.
    destruct (strategy bm); try discriminate; rewrite Hplace; cbn [finish];
      now rewrite Hrp. }
  split; [exact Hsw|]. split; [unfold pinPage; now rewrite Hsw|].
  destruct (place_switch_placement bm m _ p m1 w1 frame Hw Hplace) as [Hfill Hrepl].
  split; [|split].
  - destruct (Z.ltb_spec (occupiedFrameCount m) (numPages bm)) as [Hlt|Hge].
    + destruct (Hfill Hlt) as (_ & H1 & _). congruence.
    + destruct (Hrepl Hge) as [H1 _]. congruence.
  - intros Hlt. destruct (Hfill Hlt) as (Hfr & _ & Hp & Hfx & Hoc).
    destruct (Hsame (head m)) as [-> ->]. rewrite Ho. auto.
  - intros Hge.
    destruct (place_full_taken bm m _ p m1 w1 frame Hw Hge Hplace)
      as (Hfr & Hoc & Hyes & Hno).
    split; [exact Hfr|]. split; [congruence|]. split.
    + intros Hv. destruct (Hyes Hv) as (fs & Hlen & Hkeep & Hm1).
      assert (Hfr1 : (frame < nframes m1)%nat).
      { unfold nframes in *. destruct Hm1 as [-> | ->];
          rewrite ?length_alter, Hlen; exact Hfr. }
      unfold read_page in Hrp. rewrite Hread, Hrc in Hrp. cbn [negb] in Hrp.
      injection Hrp as <- _.
      apply (takes_frame_from p frame m (set_frames fs m)); [exact Hkeep|].
      refine (proj1 (taken_after p frame (set_frames fs m) m1
                       (upd (set_data buf) frame m1) buf 1 _ Hm1 _ _)).
      * unfold nframes. cbn. now rewrite Hlen.
      * unfold frame_at, nframes in *. cbn.
        now rewrite list_lookup_total_alter_eq by exact Hfr1.
      * intros g' Hg'. unfold frame_at. cbn.
        now rewrite list_lookup_total_alter_ne by congruence.
    + intros Hv. pose proof (Hno Hv) as Hm1. intros g.
      destruct (Hsame g) as [-> ->]. unfold frame_at. now rewrite Hm1.
Qed.

End Victim.

(** ** Filling the pool under FIFO and CLOCK *)

Lemma filled_keep (m m' : BM_BufferPool_Mgmt) :
  nframes m' = nframes m -> head m' = head m ->
  occupiedFrameCount m' = occupiedFrameCount m ->
  (forall g, (g < nframes m)%nat ->
             pageNum (frame_at m' g) = pageNum (frame_at m g)) ->
  filled_in_order m -> filled_in_order m'.
Proof.
  intros Hn Hh Ho Hp (k & Hk & Hle & Hhd & Hfr). exists k.
  rewrite Hn, Hh, Ho. split; [exact Hk|]. split; [exact Hle|]. split; [exact Hhd|].
  intros g Hg. rewrite Hp by exact Hg. now apply Hfr.
Qed.

Lemma pages_at (m m' : BM_BufferPool_Mgmt) :
  pages m' = pages m ->
  nframes m' = nframes m
  /\ forall g, (g < nframes m)%nat ->
               pageNum (frame_at m' g) = pageNum (frame_at m g).
Proof.
  intros Hp.
  assert (Hn : nframes m' = nframes m).
  { unfold nframes. apply (f_equal length) in Hp. unfold pages in Hp.
    now rewrite !length_map in Hp. }
  split; [exact Hn|]. intros g Hg.
  assert (H : pages m' !! g = Some (pageNum (frame_at m g)))
    by (rewrite Hp; now apply pages_lookup).
  now apply pages_lookup in H.
Qed.

Lemma lookup_total_repeat (x : PageFrame) (k g : nat) :
  (g < k)%nat -> repeat x k !!! g = x.
Proof.
  revert g. induction k as [|k IH]; intros [|g] Hg; try lia; [reflexivity|].
  cbn [repeat]. change ((x :: repeat x k) !!! S g) with (repeat x k !!! g). apply IH. lia.
Qed.

Lemma pages_after_length (p : PageNumber) (m m' : BM_BufferPool_Mgmt) :
  pages_after p m m' -> nframes m' = nframes m.
Proof.
  intros H.
  assert (Hl : length (pages m') = length (pages m)).
  { destruct H as [->|(_ & f & ->)]; [reflexivity|apply length_insert]. }
  unfold pages in Hl. now rewrite !length_map in Hl.
Qed.

Section Warmup.

Context {SM : StorageMgr}.

Lemma replace_FIFO_occupied (m : BM_BufferPool_Mgmt) (w : World) (p : PageNumber)
  (r : placed) :
  replace_FIFO m w p = Some r ->
  occupiedFrameCount (placed_mgmt r) = occupiedFrameCount m.
Proof.
  unfold replace_FIFO.
  destruct (scan _ _ _ _ _) as [[g|g]|]; [| |discriminate].
  - destruct (write_victim_spec m w g)
      as [(w1 & -> & _)|(m2 & w1 & -> & _ & _ & _ & Hoc & _)];
      intros [= <-]; [reflexivity|exact Hoc].
  - now intros [= <-].
Qed.

Lemma replace_CLOCK_occupied (w : World) (p : PageNumber) (r : placed) :
  forall fuel m frame,
    replace_CLOCK fuel m w p frame = Some r ->
    occupiedFrameCount (placed_mgmt r) = occupiedFrameCount m.
Proof.
  induction fuel as [|fuel IH]; intros m frame; [discriminate|].
  cbn [replace_CLOCK]. destruct (negb (fixCount (frame_at m frame) =? 0)).
  - destruct (_ =? head m)%nat; [|apply IH]. now intros [= <-].
  - destruct (clock_sweep _ _ _ _) as [[fs' frame']|]; [|discriminate].
    destruct (referenceBit _ =? 0).
    + destruct (write_victim_spec (set_frames fs' m) w frame')
        as [(w1 & -> & _)|(m2 & w1 & -> & _ & _ & _ & Hoc & _)];
        intros [= <-]; [reflexivity|exact Hoc].
    + destruct (_ =? _)%nat; [now intros [= <-]|].
      intros H. now apply IH in H.
Qed.

Lemma finish_occupied (c : bool) (bm : BM_BufferPool) (page : BM_PageHandle)
  (p : PageNumber) (m : BM_BufferPool_Mgmt) (r : option placed)
  (rc : RC) (bm' : BM_BufferPool) (page' : BM_PageHandle) (w' : World) :
  (forall x, r = Some x ->
             occupiedFrameCount (placed_mgmt x) = occupiedFrameCount m) ->
  finish c bm page p r = Some (rc, bm', page', w') ->
  exists m', mgmtData bm' = Some m'
             /\ occupiedFrameCount m' = occupiedFrameCount m.
Proof.
  intros Hr. destruct r as [[rc0 m0 w0|m0 w0 frame]|]; [| |discriminate];
    specialize (Hr _ eq_refl); cbn [finish placed_mgmt] in *.
  - intros [= _ <- _ _]. eexists. split; [reflexivity|exact Hr].
  - unfold read_page. destruct (readBlock _ _ _) as [[rc1 buf] w2].
    destruct (negb _); intros [= _ <- _ _]; (eexists; split; [reflexivity|exact Hr]).
Qed.

Lemma pin_filled (bm : BM_BufferPool) (page : BM_PageHandle) (p : PageNumber)
  (w : World) (m : BM_BufferPool_Mgmt) (rc : RC) (bm' : BM_BufferPool)
  (page' : BM_PageHandle) (w' : World) :
  well_formed bm = true -> mgmtData bm = Some m -> shaped bm m ->
  numPages bm <= INT_MAX ->
  strategy bm = RS_FIFO \/ strategy bm = RS_CLOCK ->
  0 <= p ->
  filled_in_order m ->
  pin_switch bm page p w = Some (rc, bm', page', w') ->
  exists m', mgmtData bm' = Some m' /\ filled_in_order m'.
Proof.
  intros Hwf Hm [_ Hnp] Hmax Hstrat Hp Hfill Hpin.
  destruct (well_formed_mgmt bm Hwf) as (m0 & Hm0 & Hmo & Hw).
  assert (m0 = m) by congruence. subst m0.
  destruct (pin_switch_pages bm page p w m rc bm' page' w' Hw Hm Hmo Hpin)
    as (m' & Hm' & Hpages).
  exists m'. split; [exact Hm'|].
  destruct Hfill as (k & Hk & Hle & Hhd & Hfr).
  destruct (find_page_total m p Hw) as [(f & Hfind & Hf & Hpage)|(Hfind & Hmiss)].
  - (* a hit changes no page number, and neither head nor the count *)
    apply (filled_keep m); [..|now exists k];
      revert Hpin; unfold pin_switch, pinPageFIFO, pinPageCLOCK; rewrite Hmo, Hfind;
      destruct Hstrat as [-> | ->]; intros [= _ <- _ _];
      injection Hm' as <-; unfold nframes, frame_at; cbn;
      rewrite ?length_alter; try reflexivity;
      intros g Hg; destruct (Nat.eq_dec g f) as [->|Hne];
      rewrite ?list_lookup_total_alter_eq by (rewrite ?length_alter; exact Hf);
      rewrite ?list_lookup_total_alter_ne by congruence; cbn; auto.
  - destruct (Z.ltb_spec (occupiedFrameCount m) (numPages bm)) as [Hroom|Hfull].
    + (* the fill path: frame [k], the first empty one, is taken *)
      assert (Hkn : (k < nframes m)%nat) by lia.
      destruct Hw as (Hn & Hh & Ht).
      destruct (readBlock p (data (frame_at m (head m)))
                  (ensureCapacity (wrap_int (p + 1))
                     (snd (openPageFile (pageFile bm) w))))
        as [[rcr buf] w2] eqn:Hread.
      assert (Hgo : exists m1 w1,
                 pin_switch bm page p w
                 = Some (if rc_is_ok rcr then RC_OK else RC_READ_NON_EXISTING_PAGE,
                         set_mgmt m1 bm,
                         if rc_is_ok rcr then mkHandle p (head m) else page, w1)
                 /\ pageNum (frame_at m1 (head m)) = p
                 /\ (forall g, g <> head m -> frame_at m1 g = frame_at m g)
                 /\ head m1 = next (nframes m) (head m)
                 /\ occupiedFrameCount m1 = incr (occupiedFrameCount m)).
      { apply Z.ltb_lt in Hroom.
        unfold pin_switch, pinPageFIFO, pinPageCLOCK. rewrite Hmo, Hfind.
        unfold place_FIFO, place_CLOCK. rewrite Hroom.
        destruct Hstrat as [-> | ->];
          [destruct (fill_path bm page p _ m rcr buf w2 false true Hh Hread)
             as (m1 & w1 & Hfin & H1 & _ & _ & _ & H5 & H6 & _ & H8 & _)
          |destruct (fill_path bm page p _ m rcr buf w2 true true Hh Hread)
             as (m1 & w1 & Hfin & H1 & _ & _ & _ & H5 & H6 & _ & H8 & _)];
          exists m1, w1; auto. }
      destruct Hgo as (m1 & w1 & Hfin & H1 & H5 & H6 & H8).
      rewrite Hpin in Hfin. injection Hfin as _ -> _ _.
      injection Hm' as <-.
      pose proof (pages_after_length p m m1 Hpages) as Hlen.
      rewrite (Hhd Hkn) in *.
      exists (S k). rewrite Hlen, H6, H8, Hk.
      rewrite incr_no_overflow by (unfold INT_MIN; lia).
      split; [lia|]. split; [lia|]. split.
      * intros HS. unfold next. destruct (Nat.ltb_spec (S k) (nframes m)); lia.
      * intros g Hg. destruct (Nat.eq_dec g k) as [->|Hne].
        -- rewrite H1. unfold NO_PAGE. split; lia.
        -- rewrite H5 by exact Hne. rewrite (Hfr g Hg). lia.
    + (* the replacement: the pool is full and stays full *)
      assert (Hkn : k = nframes m) by lia.
      assert (Hocc : occupiedFrameCount m' = occupiedFrameCount m).
      { apply Z.ltb_ge in Hfull. revert Hpin.
        unfold pin_switch, pinPageFIFO, pinPageCLOCK. rewrite Hmo, Hfind.
        unfold place_FIFO, place_CLOCK. rewrite Hfull.
        destruct Hstrat as [-> | ->]; intros Hfin;
          [destruct (finish_occupied true bm page p m _ rc bm' page' w'
                       (fun x => replace_FIFO_occupied m _ p x) Hfin)
             as (m1 & Hm1 & Ho)
          |destruct (finish_occupied true bm page p m _ rc bm' page' w'
                       (fun x => replace_CLOCK_occupied _ p x _ m _) Hfin)
             as (m1 & Hm1 & Ho)];
          congruence. }
      pose proof (pages_after_length p m m' Hpages) as Hlen.
      exists k. rewrite Hlen, Hocc. split; [exact Hk|]. split; [exact Hle|].
      split; [lia|]. intros g Hg.
      assert (Hne : pageNum (frame_at m' g) <> NO_PAGE).
      { assert (Hold : pageNum (frame_at m g) <> NO_PAGE)
          by (intros H; apply Hfr in H; lia).
        destruct Hpages as [Hsame|(_ & f & Hins)].
        - apply pages_at in Hsame as [_ Hsame]. now rewrite Hsame.
        - assert (Hl : pages m' !! g = Some (pageNum (frame_at m' g)))
            by (apply pages_lookup; unfold nframes in *; split; [lia|reflexivity]).
          rewrite Hins in Hl. destruct (Nat.eq_dec f g) as [->|Hfg].
          + rewrite list_lookup_insert_eq in Hl
              by (unfold pages; rewrite length_map; exact Hg).
            injection Hl as <-. unfold NO_PAGE. lia.
          + rewrite list_lookup_insert_ne in Hl by exact Hfg.
            apply pages_lookup in Hl as [_ <-]. exact Hold. }
      split; [intros H; now destruct Hne|lia].
Qed.

Lemma run1_filled (c : call) (bm bm' : BM_BufferPool) (w w' : World)
  (m : BM_BufferPool_Mgmt) :
  pool_inv bm = true -> mgmtData bm = Some m -> shaped bm m ->
  numPages bm <= INT_MAX ->
  strategy bm = RS_FIFO \/ strategy bm = RS_CLOCK ->
  valid_call c = true ->
  filled_in_order m ->
  run1 c (bm, w) = Some (bm', w') ->
  exists m', mgmtData bm' = Some m' /\ filled_in_order m'.
Proof.
  intros Hpi Hm Hsh Hmax Hstrat Hv Hfill Hrun.
  assert (Hwf : well_formed bm = true)
    by (unfold pool_inv in Hpi; now apply andb_prop in Hpi as [? _]).
  destruct (run1_shaped c bm bm' w w' m Hwf Hm Hsh Hrun)
    as (m' & Hm' & _ & _ & _ & Hquiet).
  destruct (run1_pages c bm bm' w w' m Hpi Hm Hrun) as (m1 & Hm1 & Hpages).
  assert (m1 = m') by congruence. subst m1.
  assert (Hother : (forall p, c <> Pin p) -> pages m' = pages m ->
                   exists m', mgmtData bm' = Some m' /\ filled_in_order m').
  { intros Hc Hp. destruct (Hquiet Hc) as [Hh Ho].
    apply pages_at in Hp as [Hn Hp].
    exists m'. split; [exact Hm'|]. now apply (filled_keep m). }
  destruct c as [p|p|p|p|]; try (apply Hother; [discriminate|exact Hpages]).
  cbn [run1] in Hrun. unfold pinPage in Hrun.
  destruct (pin_switch bm (mkHandle 0 0) p w) as [[[[rc bm1] page1] w1]|] eqn:Hpin;
    [|discriminate].
  injection Hrun as <- _. cbn in Hv. apply Z.leb_le in Hv.
  now apply (pin_filled bm (mkHandle 0 0) p w m rc bm1 page1 w1).
Qed.

(** X18. Under FIFO and CLOCK a pool fills up in creation order and never
    reuses a frame before it is full.  At every point of a session the
    occupied frames are exactly the first [occupiedFrameCount] frames, and
    while an empty frame is left [head] points to the first empty one, so
    a miss in a pool that is not full takes an empty frame. *)
Theorem fifo_clock_fill_in_order (bm0 bm bm' : BM_BufferPool) (name : string)
  (n : Z) (strat : ReplacementStrategy) (w0 w w' : World) (cs : list call) :
  1 <= n <= INT_MAX ->
  strat = RS_FIFO \/ strat = RS_CLOCK ->
  initBufferPool bm0 name n strat w0 = (RC_OK, bm, w) ->
  forallb valid_call cs = true ->
  run cs (bm, w) = Some (bm', w') ->
  exists m', mgmtData bm' = Some m' /\ filled_in_order m'.
Proof.
  intros [Hn Hmax] Hstrat Hinit Hv Hrun.
  destruct (initBufferPool_inv bm0 bm name n strat w0 w Hn Hinit)
    as (Hpi & _ & _ & m & Hm & Hnf & Hocc & _ & _ & Hhd & _ & _).
  destruct (init_shaped bm0 bm name n strat w0 w m Hn Hinit Hm) as (Hsh & Hnp & Hst).
  assert (Hfill : filled_in_order m).
  { exists 0%nat. rewrite Hocc. split; [reflexivity|]. split; [lia|].
    split; [now intros _|]. intros g Hg. split; [lia|intros _].
    unfold initBufferPool in Hinit.
    destruct (openPageFile (Some name) w0) as [status w1].
    destruct (negb (rc_is_ok status)) eqn:Hrc;
      [injection Hinit as -> _ _; discriminate|].
    injection Hinit as <- _. injection Hm as <-.
    unfold frame_at, nframes in *. cbn in *.
    pose proof (init_frames_repeat PAGE_SIZE (Z.to_nat n)) as Hfs.
    fold createPageFrame in Hfs. rewrite Hfs in *.
    rewrite repeat_length in Hg.
    now rewrite lookup_total_repeat by exact Hg. }
  assert (Hmax' : numPages bm <= INT_MAX) by lia.
  rewrite <- Hst in Hstrat.
  clear Hinit Hnf Hocc Hhd Hnp Hst Hn Hmax.
  revert bm w m Hpi Hm Hsh Hfill Hmax' Hstrat Hrun.
  induction cs as [|c cs IH]; intros bm w m Hpi Hm Hsh Hfill Hmax Hstrat Hrun.
  - cbn in Hrun. injection Hrun as <- _. eauto.
  - cbn in Hv. apply andb_prop in Hv as [Hc Hcs]. cbn [run] in Hrun.
    destruct (run1 c (bm, w)) as [[bm1 w1]|] eqn:H1; [|discriminate].
    assert (Hwf : well_formed bm = true)
      by (unfold pool_inv in Hpi; now apply andb_prop in Hpi as [? _]).
    destruct (run1_shaped c bm bm1 w w1 m Hwf Hm Hsh H1)
      as (m1 & Hm1 & Hsh1 & Hnp1 & Hst1 & _).
    destruct (run1_filled c bm bm1 w w1 m Hpi Hm Hsh Hmax Hstrat Hc Hfill H1)
      as (m2 & Hm2 & Hfill1).
    assert (m2 = m1) by congruence. subst m2.
    assert (Hpi1 : pool_inv bm1 = true).
    { destruct (run_inv [c] ltac:(cbn; now rewrite Hc) bm w Hpi)
        as (bm2 & w2 & Hr & Hpi2).
      cbn [run] in Hr. rewrite H1 in Hr. now injection Hr as <- _. }
    apply (IH Hcs bm1 w1 m1 Hpi1 Hm1 Hsh1 Hfill1); [lia|congruence|exact Hrun].
Qed.

End Warmup.

(** ** Instances of the further properties on the in-memory page file *)

Section FurtherInstances.

Import MemDisk.

#[local] Existing Instance mem.

(** Case analysis on a frame index of a concrete pool. *)
Ltac each_frame g Hg :=
  do 4 (destruct g as [|g];
        [try (vm_compute; discriminate); try (vm_compute in Hg; lia);
         try (vm_compute; reflexivity)|]);
  vm_compute in Hg; lia.

Lemma two_dirty_resident : resident_in two_dirty_m 2 1.
Proof.
  split; [vm_compute; lia|]. split; [vm_compute; reflexivity|].
  intros [|[|[|g]]] Hg Hp; vm_compute in Hg; try reflexivity;
    try (vm_compute in Hp; discriminate); lia.
Defined.

Lemma statistics_in_creation_order_witness :
  initBufferPool (mkPool None 0 RS_FIFO None) "test.bin"%string 3 RS_FIFO six_pages
  = (RC_OK, fresh, six_pages)
  /\ run [Pin 1; Dirty 1; Pin 2; Dirty 2; Unpin 2] (fresh, six_pages)
     = Some (two_dirty, six_pages)
  /\ exists m',
       mgmtData two_dirty = Some m'
       /\ getFrameContents two_dirty = Some (pages m')
       /\ getFixCounts two_dirty = Some (fix_counts m')
       /\ getDirtyFlags two_dirty
          = Some (map (fun d => negb (d =? 0)) (dirty_flags m'))
       /\ Z.of_nat (length (pages m')) = 3.
Proof.
  assert (H1 : initBufferPool (mkPool None 0 RS_FIFO None) "test.bin"%string 3
                 RS_FIFO six_pages = (RC_OK, fresh, six_pages))
    by (vm_compute; reflexivity).
  assert (H2 : run [Pin 1; Dirty 1; Pin 2; Dirty 2; Unpin 2] (fresh, six_pages)
               = Some (two_dirty, six_pages)) by (vm_compute; reflexivity).
  split; [exact H1|]. split; [exact H2|].
  exact (statistics_in_creation_order (SM := mem) (mkPool None 0 RS_FIFO None)
           fresh two_dirty "test.bin"%string 3 RS_FIFO six_pages six_pages six_pages
           [Pin 1; Dirty 1; Pin 2; Dirty 2; Unpin 2] ltac:(lia) H1 eq_refl H2).
Defined.

Lemma unknown_page_is_ignored_witness :
  well_formed released = true
  /\ mgmtData released = Some released_m
  /\ openPageFile (pageFile released) six_pages = (RC_OK, six_pages)
  /\ markDirty released (mkHandle 5 0) = Some (RC_OK, released)
  /\ unpinPage released (mkHandle 5 0) = Some (RC_OK, released)
  /\ forcePage released (mkHandle 5 0) six_pages
     = Some (RC_OK, released, closePageFile six_pages).
Proof.
  assert (H1 : well_formed released = true) by (vm_compute; reflexivity).
  assert (H2 : mgmtData released = Some released_m) by (vm_compute; reflexivity).
  assert (H3 : no_holder released_m (ph_pageNum (mkHandle 5 0)))
    by (intros g Hg; each_frame g Hg).
  assert (H4 : openPageFile (pageFile released) six_pages = (RC_OK, six_pages))
    by (vm_compute; reflexivity).
  split; [exact H1|]. split; [exact H2|]. split; [exact H4|].
  exact (unknown_page_is_ignored (SM := mem) released (mkHandle 5 0) released_m
           six_pages six_pages H1 H2 H3 H4).
Defined.

Lemma markDirty_sets_flag_witness :
  well_formed released = true
  /\ mgmtData released = Some released_m
  /\ exists m',
       markDirty released (mkHandle 1 0) = Some (RC_OK, set_mgmt m' released)
       /\ frame_at m' 0 = set_dirty 1 (frame_at released_m 0)
       /\ (forall g, g <> 0%nat -> frame_at m' g = frame_at released_m g)
       /\ getNumReadIO m' = getNumReadIO released_m
       /\ getNumWriteIO m' = getNumWriteIO released_m
       /\ occupiedFrameCount m' = occupiedFrameCount released_m
       /\ head m' = head released_m /\ tail m' = tail released_m.
Proof.
  assert (H1 : well_formed released = true) by (vm_compute; reflexivity).
  assert (H2 : mgmtData released = Some released_m) by (vm_compute; reflexivity).
  split; [exact H1|]. split; [exact H2|].
  exact (markDirty_sets_flag released (mkHandle 1 0) released_m 0%nat
           H1 H2 released_resident).
Defined.

Lemma forcePage_writes_dirty_page_witness :
  well_formed two_dirty = true
  /\ mgmtData two_dirty = Some two_dirty_m
  /\ openPageFile (pageFile two_dirty) six_pages = (RC_OK, six_pages)
  /\ forcePage two_dirty (mkHandle 2 0) six_pages
     = if dirtyFlagSignal (frame_at two_dirty_m 1) =? 1 then
         let '(rc, w1) := writeBlock 2 (data (frame_at two_dirty_m 1)) six_pages in
         if rc_is_ok rc then
           Some (RC_OK,
                 set_mgmt (upd (set_dirty 0) 1
                             (set_writes (incr (getNumWriteIO two_dirty_m))
                                two_dirty_m)) two_dirty,
                 closePageFile w1)
         else Some (RC_WRITE_FAILED, two_dirty, closePageFile w1)
       else Some (RC_OK, two_dirty, closePageFile six_pages).
Proof.
  assert (H1 : well_formed two_dirty = true) by (vm_compute; reflexivity).
  assert (H2 : mgmtData two_dirty = Some two_dirty_m) by (vm_compute; reflexivity).
  assert (H4 : openPageFile (pageFile two_dirty) six_pages = (RC_OK, six_pages))
    by (vm_compute; reflexivity).
  split; [exact H1|]. split; [exact H2|]. split; [exact H4|].
  exact (forcePage_writes_dirty_page (SM := mem) two_dirty (mkHandle 2 0) two_dirty_m
           1%nat six_pages six_pages H1 H2 two_dirty_resident H4).
Defined.

Lemma flush_again_writes_nothing_witness :
  well_formed two_dirty = true
  /\ forceFlushPool two_dirty six_pages = Some (RC_OK, two_dirty_flushed, six_pages)
  /\ openPageFile (pageFile two_dirty_flushed) six_pages = (RC_OK, six_pages)
  /\ forceFlushPool two_dirty_flushed six_pages
     = Some (RC_OK, two_dirty_flushed, closePageFile six_pages).
Proof.
  assert (H1 : well_formed two_dirty = true) by (vm_compute; reflexivity).
  assert (H2 : forceFlushPool two_dirty six_pages
               = Some (RC_OK, two_dirty_flushed, six_pages))
    by (vm_compute; reflexivity).
  assert (H3 : openPageFile (pageFile two_dirty_flushed) six_pages
               = (RC_OK, six_pages)) by (vm_compute; reflexivity).
  split; [exact H1|]. split; [exact H2|]. split; [exact H3|].
  exact (flush_again_writes_nothing (SM := mem) two_dirty two_dirty_flushed
           six_pages six_pages six_pages H1 H2 H3).
Defined.

Lemma pinPage_keeps_dirty_flags_witness :
  well_formed two_dirty = true
  /\ mgmtData two_dirty = Some two_dirty_m
  /\ pinPage two_dirty (mkHandle 0 0) 3 six_pages
     = Some (RC_OK, two_dirty_pinned, mkHandle 3 2, six_pages)
  /\ exists m',
       mgmtData two_dirty_pinned = Some m'
       /\ dirty_flags m' = dirty_flags two_dirty_m
       /\ getDirtyFlags two_dirty_pinned = getDirtyFlags two_dirty.
Proof.
  assert (H1 : well_formed two_dirty = true) by (vm_compute; reflexivity).
  assert (H2 : mgmtData two_dirty = Some two_dirty_m) by (vm_compute; reflexivity).
  assert (H3 : pinPage two_dirty (mkHandle 0 0) 3 six_pages
               = Some (RC_OK, two_dirty_pinned, mkHandle 3 2, six_pages))
    by (vm_compute; reflexivity).
  split; [exact H1|]. split; [exact H2|]. split; [exact H3|].
  exact (pinPage_keeps_dirty_flags (SM := mem) two_dirty (mkHandle 0 0) 3 six_pages
           two_dirty_m RC_OK two_dirty_pinned (mkHandle 3 2) six_pages H1 H2 H3).
Defined.

Lemma pinPage_counts_one_transfer_witness :
  well_formed dirty_full = true
  /\ mgmtData dirty_full = Some dirty_full_m
  /\ pinPage dirty_full (mkHandle 0 0) 3 six_pages
     = Some (RC_OK, dirty_full_pinned, mkHandle 3 0, six_pages)
  /\ exists rc0 m',
       pin_switch dirty_full (mkHandle 0 0) 3 six_pages
       = Some (rc0, dirty_full_pinned, mkHandle 3 0, six_pages)
       /\ mgmtData dirty_full_pinned = Some m'
       /\ (getNumWriteIO m' = getNumWriteIO dirty_full_m
           \/ getNumWriteIO m' = incr (getNumWriteIO dirty_full_m))
       /\ (all_clean dirty_full_m -> getNumWriteIO m' = getNumWriteIO dirty_full_m)
       /\ (getNumReadIO m' = getNumReadIO dirty_full_m
           \/ (rc0 = RC_OK /\ getNumReadIO m' = incr (getNumReadIO dirty_full_m))).
Proof.
  assert (H1 : well_formed dirty_full = true) by (vm_compute; reflexivity).
  assert (H2 : mgmtData dirty_full = Some dirty_full_m) by (vm_compute; reflexivity).
  assert (H3 : pinPage dirty_full (mkHandle 0 0) 3 six_pages
               = Some (RC_OK, dirty_full_pinned, mkHandle 3 0, six_pages))
    by (vm_compute; reflexivity).
  split; [exact H1|]. split; [exact H2|]. split; [exact H3|].
  exact (pinPage_counts_one_transfer (SM := mem) dirty_full (mkHandle 0 0) 3 six_pages
           dirty_full_m RC_OK dirty_full_pinned (mkHandle 3 0) six_pages H1 H2 H3).
Defined.

Lemma failed_write_binds_nothing_witness :
  well_formed dirty_full = true
  /\ mgmtData dirty_full = Some dirty_full_m
  /\ pin_switch dirty_full (mkHandle 0 0) 3 None
     = Some (RC_WRITE_FAILED, dirty_full, mkHandle 0 0, None)
  /\ exists m',
       mgmtData dirty_full = Some m' /\ mkHandle 0 0 = mkHandle 0 0
       /\ quiet dirty_full_m m'.
Proof.
  assert (H1 : well_formed dirty_full = true) by (vm_compute; reflexivity).
  assert (H2 : mgmtData dirty_full = Some dirty_full_m) by (vm_compute; reflexivity).
  assert (H3 : pin_switch dirty_full (mkHandle 0 0) 3 None
               = Some (RC_WRITE_FAILED, dirty_full, mkHandle 0 0, None))
    by (vm_compute; reflexivity).
  split; [exact H1|]. split; [exact H2|]. split; [exact H3|].
  exact (failed_write_binds_nothing (SM := mem) dirty_full (mkHandle 0 0) 3 None
           dirty_full_m dirty_full (mkHandle 0 0) None H1 H2 H3).
Defined.

Lemma sessions_stay_in_order_witness :
  initBufferPool (mkPool None 0 RS_LRU None) "test.bin"%string 2 RS_LRU six_pages
  = (RC_OK, pool_after RS_LRU 2 [], six_pages)
  /\ exists bm' w' m',
       run [Pin 1; Dirty 1; Unpin 1; Pin 2; Unpin 2; Pin 3; Force 3; Flush]
         (pool_after RS_LRU 2 [], six_pages) = Some (bm', w')
       /\ mgmtData bm' = Some m'
       /\ numPages bm' = 2 /\ Z.of_nat (nframes m') = 2
       /\ (head m' < nframes m')%nat /\ (tail m' < nframes m')%nat
       /\ clean_when_empty m' = true
       /\ distinct_pages (pages m').
Proof.
  assert (H1 : initBufferPool (mkPool None 0 RS_LRU None) "test.bin"%string 2 RS_LRU
                 six_pages = (RC_OK, pool_after RS_LRU 2 [], six_pages))
    by (vm_compute; reflexivity).
  split; [exact H1|].
  exact (sessions_stay_in_order (SM := mem) (mkPool None 0 RS_LRU None)
           (pool_after RS_LRU 2 []) "test.bin"%string 2 RS_LRU six_pages six_pages
           [Pin 1; Dirty 1; Unpin 1; Pin 2; Unpin 2; Pin 3; Force 3; Flush]
           ltac:(lia) H1 eq_refl).
Defined.

Lemma pin_unpin_round_trip_witness :
  well_formed released = true
  /\ mgmtData released = Some released_m
  /\ exists bm1 page1 w1 bm2 m2,
       pinPage released (mkHandle 0 0) 1 six_pages = Some (RC_OK, bm1, page1, w1)
       /\ unpinPage bm1 page1 = Some (RC_OK, bm2)
       /\ mgmtData bm2 = Some m2
       /\ pages m2 = pages released_m /\ fix_counts m2 = fix_counts released_m
       /\ dirty_flags m2 = dirty_flags released_m
       /\ page_buffers m2 = page_buffers released_m
       /\ occupiedFrameCount m2 = occupiedFrameCount released_m
       /\ getNumReadIO m2 = getNumReadIO released_m
       /\ getNumWriteIO m2 = getNumWriteIO released_m.
Proof.
  assert (H1 : well_formed released = true) by (vm_compute; reflexivity).
  assert (H2 : mgmtData released = Some released_m) by (vm_compute; reflexivity).
  assert (H3 : strategy released <> RS_OTHER) by (vm_compute; discriminate).
  assert (H5 : INT_MIN <= fixCount (frame_at released_m 0) < INT_MAX)
    by (vm_compute; split; [discriminate|reflexivity]).
  split; [exact H1|]. split; [exact H2|].
  exact (pin_unpin_round_trip (SM := mem) released (mkHandle 0 0) 1 six_pages
           released_m 0%nat H1 H2 H3 released_resident H5).
Defined.

Lemma sweep_stops_at_first_clear_bit_witness :
  map referenceBit (frames clock_two_m) = [1; 1; 0]
  /\ exists fs',
       clock_sweep 3 3 (frames clock_two_m) 0 = Some (fs', 2%nat)
       /\ length fs' = 3%nat
       /\ (forall i, (i < 2)%nat ->
                     fs' !!! hop 3 i 0
                     = set_referenceBit 0 (frames clock_two_m !!! hop 3 i 0))
       /\ (forall g, (forall i, (i < 2)%nat -> g <> hop 3 i 0) ->
                     fs' !!! g = frames clock_two_m !!! g).
Proof.
  split; [vm_compute; reflexivity|].
  assert (H1 : (0 < length (frames clock_two_m))%nat) by (vm_compute; lia).
  assert (H2 : (2 <= length (frames clock_two_m))%nat) by (vm_compute; lia).
  assert (H3 : forall i, (i < 2)%nat ->
                 referenceBit
                   (frames clock_two_m !!! hop (length (frames clock_two_m)) i 0)
                 <> 0)
    by (intros [|[|i]] Hi; [vm_compute; discriminate..|lia]).
  assert (H4 : (2 < length (frames clock_two_m))%nat ->
               referenceBit
                 (frames clock_two_m !!! hop (length (frames clock_two_m)) 2 0) = 0)
    by (intros _; vm_compute; reflexivity).
  exact (sweep_stops_at_first_clear_bit (frames clock_two_m) 0 2 H1 H2 H3 H4).
Defined.

Lemma miss_fills_head_frame_witness :
  well_formed fresh = true
  /\ mgmtData fresh = Some fresh_m
  /\ occupiedFrameCount fresh_m < numPages fresh
  /\ readBlock 1 (data (frame_at fresh_m (head fresh_m)))
       (ensureCapacity (wrap_int (1 + 1))
          (snd (openPageFile (pageFile fresh) six_pages)))
     = (RC_OK, [x01; x01], six_pages)
  /\ exists m' w',
       pin_switch fresh (mkHandle 0 0) 1 six_pages
       = Some (RC_OK, set_mgmt m' fresh, mkHandle 1 (head fresh_m), w')
       /\ pageNum (frame_at m' (head fresh_m)) = 1
       /\ fixCount (frame_at m' (head fresh_m))
          = incr (fixCount (frame_at fresh_m (head fresh_m)))
       /\ dirtyFlagSignal (frame_at m' (head fresh_m))
          = dirtyFlagSignal (frame_at fresh_m (head fresh_m))
       /\ data (frame_at m' (head fresh_m)) = [x01; x01]
       /\ (forall g, g <> head fresh_m -> frame_at m' g = frame_at fresh_m g)
       /\ head m' = next (nframes fresh_m) (head fresh_m)
       /\ tail m' = tail fresh_m
       /\ occupiedFrameCount m' = incr (occupiedFrameCount fresh_m)
       /\ getNumWriteIO m' = getNumWriteIO fresh_m
       /\ getNumReadIO m' = incr (getNumReadIO fresh_m).
Proof.
  assert (H1 : well_formed fresh = true) by (vm_compute; reflexivity).
  assert (H2 : mgmtData fresh = Some fresh_m) by (vm_compute; reflexivity).
  assert (H3 : strategy fresh <> RS_OTHER) by (vm_compute; discriminate).
  assert (H4 : no_holder fresh_m 1) by exact (fresh_misses 1 ltac:(lia)).
  assert (H5 : occupiedFrameCount fresh_m < numPages fresh)
    by (vm_compute; reflexivity).
  assert (H6 : readBlock 1 (data (frame_at fresh_m (head fresh_m)))
                 (ensureCapacity (wrap_int (1 + 1))
                    (snd (openPageFile (pageFile fresh) six_pages)))
               = (RC_OK, [x01; x01], six_pages)) by (vm_compute; reflexivity).
  split; [exact H1|]. split; [exact H2|]. split; [exact H5|]. split; [exact H6|].
  exact (miss_fills_head_frame (SM := mem) fresh (mkHandle 0 0) 1 six_pages fresh_m
           RC_OK [x01; x01] six_pages H1 H2 H3 H4 H5 H6).
Defined.

Lemma fifo_takes_first_unfixed_witness :
  well_formed dirty_full = true
  /\ mgmtData dirty_full = Some dirty_full_m
  /\ numPages dirty_full <= occupiedFrameCount dirty_full_m
  /\ 0%nat = hop (nframes dirty_full_m) 0 (tail dirty_full_m)
  /\ dirtyFlagSignal (frame_at dirty_full_m 0) = 1
  /\ writeBlock 1 [x01; x01]
       (ensureCapacity 1 (snd (openPageFile (pageFile dirty_full) six_pages)))
     = (RC_OK, six_pages)
  /\ readBlock 3 [x01; x01] (ensureCapacity (wrap_int (3 + 1)) six_pages)
     = (RC_OK, [x03; x03], six_pages)
  /\ exists m',
       pin_switch dirty_full (mkHandle 0 0) 3 six_pages
       = Some (RC_OK, set_mgmt m' dirty_full, mkHandle 3 0, closePageFile six_pages)
       /\ takes_frame 3 0 dirty_full_m m'
       /\ fixCount (frame_at m' 0) = 1
       /\ data (frame_at m' 0) = [x03; x03]
       /\ head m' = 0%nat
       /\ tail m' = 1%nat
       /\ occupiedFrameCount m' = occupiedFrameCount dirty_full_m
       /\ getNumWriteIO m' = incr (getNumWriteIO dirty_full_m)
       /\ getNumReadIO m' = incr (getNumReadIO dirty_full_m).
Proof.
  assert (H1 : well_formed dirty_full = true) by (vm_compute; reflexivity).
  assert (H2 : mgmtData dirty_full = Some dirty_full_m) by (vm_compute; reflexivity).
  assert (H3 : strategy dirty_full = RS_FIFO) by (vm_compute; reflexivity).
  assert (H4 : no_holder dirty_full_m 3) by (intros g Hg; each_frame g Hg).
  assert (H5 : numPages dirty_full <= occupiedFrameCount dirty_full_m)
    by (vm_compute; discriminate).
  assert (H6 : (0 < dist (nframes dirty_full_m) (tail dirty_full_m)
                      (head dirty_full_m))%nat) by (vm_compute; lia).
  assert (Hg : 0%nat = hop (nframes dirty_full_m) 0 (tail dirty_full_m))
    by (vm_compute; reflexivity).
  assert (H7 : fixCount (frame_at dirty_full_m 0) = 0) by (vm_compute; reflexivity).
  assert (H8 : forall j, (j < 0)%nat ->
                 fixCount
                   (frame_at dirty_full_m
                      (hop (nframes dirty_full_m) j (tail dirty_full_m))) <> 0)
    by (intros j Hj; lia).
  assert (H9 : (if dirtyFlagSignal (frame_at dirty_full_m 0) =? 1
                then writeBlock (pageNum (frame_at dirty_full_m 0))
                       (data (frame_at dirty_full_m 0))
                       (ensureCapacity (pageNum (frame_at dirty_full_m 0))
                          (snd (openPageFile (pageFile dirty_full) six_pages)))
                else (RC_OK, snd (openPageFile (pageFile dirty_full) six_pages)))
               = (RC_OK, six_pages)) by (vm_compute; reflexivity).
  assert (H10 : readBlock 3 (data (frame_at dirty_full_m 0))
                  (ensureCapacity (wrap_int (3 + 1)) six_pages)
                = (RC_OK, [x03; x03], six_pages)) by (vm_compute; reflexivity).
  split; [exact H1|]. split; [exact H2|]. split; [exact H5|]. split; [exact Hg|].
  split; [vm_compute; reflexivity|]. split; [vm_compute; reflexivity|].
  split; [exact H10|].
  exact (proj2 (fifo_takes_first_unfixed (SM := mem) dirty_full (mkHandle 0 0) 3
                  six_pages dirty_full_m 0%nat 0%nat RC_OK six_pages RC_OK
                  [x03; x03] six_pages H1 H2 H3 H4 H5 H6 Hg H7 H8 H9 H10) eq_refl).
Defined.

Lemma lru_takes_frame_witness :
  well_formed lru_full = true
  /\ mgmtData lru_full = Some lru_full_m
  /\ tail lru_full_m = head lru_full_m
  /\ 0%nat = hop (nframes lru_full_m) 0 (tail lru_full_m)
  /\ dirtyFlagSignal (frame_at lru_full_m 0) = 1
  /\ writeBlock 1 [x01; x01]
       (ensureCapacity 1 (snd (openPageFile (pageFile lru_full) six_pages)))
     = (RC_OK, six_pages)
  /\ readBlock 3 [x02; x02] (ensureCapacity (wrap_int (3 + 1)) six_pages)
     = (RC_OK, [x03; x03], six_pages)
  /\ exists m',
       pin_switch lru_full (mkHandle 0 0) 3 six_pages
       = Some (RC_OK, set_mgmt m' lru_full, mkHandle 3 1, closePageFile six_pages)
       /\ takes_frame 3 1 lru_full_m m'
       /\ data (frame_at m' 1) = [x03; x03]
       /\ head m' = 1%nat
       /\ tail m' = 0%nat
       /\ occupiedFrameCount m' = occupiedFrameCount lru_full_m
       /\ getNumWriteIO m' = incr (getNumWriteIO lru_full_m)
       /\ getNumReadIO m' = incr (getNumReadIO lru_full_m).
Proof.
  assert (H1 : well_formed lru_full = true) by (vm_compute; reflexivity).
  assert (H2 : mgmtData lru_full = Some lru_full_m) by (vm_compute; reflexivity).
  assert (H3 : strategy lru_full = RS_LRU) by (vm_compute; reflexivity).
  assert (H4 : no_holder lru_full_m 3) by (intros g Hg; each_frame g Hg).
  assert (H5 : numPages lru_full <= occupiedFrameCount lru_full_m)
    by (vm_compute; discriminate).
  assert (H6 : (0 < nframes lru_full_m)%nat) by (vm_compute; lia).
  assert (Hg : 0%nat = hop (nframes lru_full_m) 0 (tail lru_full_m))
    by (vm_compute; reflexivity).
  assert (Ht : 1%nat = (if (tail lru_full_m =? head lru_full_m)%nat
                        then next (nframes lru_full_m) 0 else 0%nat))
    by (vm_compute; reflexivity).
  assert (H7 : fixCount (frame_at lru_full_m 0) = 0) by (vm_compute; reflexivity).
  assert (H8 : forall j, (j < 0)%nat ->
                 fixCount
                   (frame_at lru_full_m
                      (hop (nframes lru_full_m) j (tail lru_full_m))) <> 0)
    by (intros j Hj; lia).
  assert (H9 : (if dirtyFlagSignal (frame_at lru_full_m 0) =? 1
                then writeBlock (pageNum (frame_at lru_full_m 0))
                       (data (frame_at lru_full_m 0))
                       (ensureCapacity (pageNum (frame_at lru_full_m 0))
                          (snd (openPageFile (pageFile lru_full) six_pages)))
                else (RC_OK, snd (openPageFile (pageFile lru_full) six_pages)))
               = (RC_OK, six_pages)) by (vm_compute; reflexivity).
  assert (H10 : readBlock 3 (data (frame_at lru_full_m 1))
                  (ensureCapacity (wrap_int (3 + 1)) six_pages)
                = (RC_OK, [x03; x03], six_pages)) by (vm_compute; reflexivity).
  split; [exact H1|]. split; [exact H2|]. split; [reflexivity|]. split; [exact Hg|].
  split; [vm_compute; reflexivity|]. split; [vm_compute; reflexivity|].
  split; [exact H10|].
  exact (proj2 (lru_takes_frame (SM := mem) lru_full (mkHandle 0 0) 3 six_pages
                  lru_full_m 0%nat 0%nat 1%nat RC_OK six_pages RC_OK [x03; x03]
                  six_pages H1 H2 H3 H4 H5 H6 Hg Ht H7 H8 H9 H10) eq_refl).
Defined.

Lemma clock_takes_first_clear_bit_witness :
  well_formed clock_full = true
  /\ mgmtData clock_full = Some clock_full_m
  /\ map referenceBit (frames clock_full_m) = [1; 1; 1]
  /\ readBlock 4 [x01; x01]
       (ensureCapacity (wrap_int (4 + 1))
          (snd (openPageFile (pageFile clock_full) six_pages)))
     = (RC_OK, [x04; x04], six_pages)
  /\ exists m',
       pin_switch clock_full (mkHandle 0 0) 4 six_pages
       = Some (RC_OK, set_mgmt m' clock_full, mkHandle 4 0, closePageFile six_pages)
       /\ takes_frame 4 0 clock_full_m m'
       /\ data (frame_at m' 0) = [x04; x04]
       /\ referenceBit (frame_at m' 0) = 1
       /\ referenceBit (frame_at m' 1) = 0
       /\ referenceBit (frame_at m' 2) = 0
       /\ head m' = 1%nat
       /\ getNumWriteIO m' = getNumWriteIO clock_full_m
       /\ getNumReadIO m' = incr (getNumReadIO clock_full_m).
Proof.
  assert (H1 : well_formed clock_full = true) by (vm_compute; reflexivity).
  assert (H2 : mgmtData clock_full = Some clock_full_m) by (vm_compute; reflexivity).
  assert (H3 : strategy clock_full = RS_CLOCK) by (vm_compute; reflexivity).
  assert (H4 : no_holder clock_full_m 4) by (intros g Hg; each_frame g Hg).
  assert (H5 : numPages clock_full <= occupiedFrameCount clock_full_m)
    by (vm_compute; discriminate).
  assert (H6 : (0 < nframes clock_full_m)%nat) by (vm_compute; lia).
  assert (Hg0 : 0%nat = hop (nframes clock_full_m) 0 (head clock_full_m))
    by (vm_compute; reflexivity).
  assert (H7 : fixCount (frame_at clock_full_m 0) = 0) by (vm_compute; reflexivity).
  assert (H8 : forall i, (i < 0)%nat ->
                 fixCount
                   (frame_at clock_full_m
                      (hop (nframes clock_full_m) i (head clock_full_m))) <> 0)
    by (intros i Hi; lia).
  assert (H9 : (3 <= nframes clock_full_m)%nat) by (vm_compute; lia).
  assert (Hg : 0%nat = hop (nframes clock_full_m) 3 0) by (vm_compute; reflexivity).
  assert (H10 : forall i, (i < 3)%nat ->
                  referenceBit
                    (frame_at clock_full_m (hop (nframes clock_full_m) i 0)) <> 0)
    by (intros [|[|[|i]]] Hi; [vm_compute; discriminate..|lia]).
  assert (H11 : (3 < nframes clock_full_m)%nat ->
                referenceBit (frame_at clock_full_m 0) = 0)
    by (intros H; vm_compute in H; lia).
  assert (H12 : (if dirtyFlagSignal (frame_at clock_full_m 0) =? 1
                 then writeBlock (pageNum (frame_at clock_full_m 0))
                        (data (frame_at clock_full_m 0))
                        (ensureCapacity (pageNum (frame_at clock_full_m 0))
                           (snd (openPageFile (pageFile clock_full) six_pages)))
                 else (RC_OK, snd (openPageFile (pageFile clock_full) six_pages)))
                = (RC_OK, six_pages)) by (vm_compute; reflexivity).
  assert (H13 : readBlock 4 (data (frame_at clock_full_m 0))
                  (ensureCapacity (wrap_int (4 + 1)) six_pages)
                = (RC_OK, [x04; x04], six_pages)) by (vm_compute; reflexivity).
  split; [exact H1|]. split; [exact H2|]. split; [vm_compute; reflexivity|].
  split; [exact H13|].
  destruct (proj2 (clock_takes_first_clear_bit (SM := mem) clock_full (mkHandle 0 0)
                     4 six_pages clock_full_m 0%nat 3%nat 0%nat 0%nat RC_OK six_pages
                     RC_OK [x04; x04] six_pages
                     H1 H2 H3 H4 H5 H6 Hg0 H7 H8 H9 Hg H10 H11 H12 H13) eq_refl)
    as (m' & Hpin & Ht & Hbuf & Hb & Hsw & Hh & _ & _ & Hwr & Hrd).
  exists m'. split; [exact Hpin|]. split; [exact Ht|]. split; [exact Hbuf|].
  split; [exact Hb|].
  split; [apply (Hsw 1%nat); [lia|vm_compute; discriminate]|].
  split; [apply (Hsw 2%nat); [lia|vm_compute; discriminate]|].
  split; [exact Hh|]. split; [exact Hwr|exact Hrd].
Defined.

Lemma all_fixed_miss_binds_nothing_witness :
  well_formed all_fixed = true
  /\ mgmtData all_fixed = Some all_fixed_m
  /\ fix_counts all_fixed_m = [1; 1; 1]
  /\ readBlock 4 [x01; x01]
       (ensureCapacity (wrap_int (4 + 1))
          (snd (openPageFile (pageFile all_fixed) six_pages)))
     = (RC_OK, [x04; x04], six_pages)
  /\ exists m',
       pin_switch all_fixed (mkHandle 0 0) 4 six_pages
       = Some (RC_OK, set_mgmt m' all_fixed, mkHandle 4 0, closePageFile six_pages)
       /\ frame_at m' 0 = set_data [x04; x04] (frame_at all_fixed_m 0)
       /\ (forall g, g <> 0%nat -> frame_at m' g = frame_at all_fixed_m g)
       /\ head m' = head all_fixed_m /\ tail m' = tail all_fixed_m
       /\ occupiedFrameCount m' = occupiedFrameCount all_fixed_m
       /\ getNumWriteIO m' = getNumWriteIO all_fixed_m
       /\ getNumReadIO m' = incr (getNumReadIO all_fixed_m).
Proof.
  assert (H1 : well_formed all_fixed = true) by (vm_compute; reflexivity).
  assert (H2 : mgmtData all_fixed = Some all_fixed_m) by (vm_compute; reflexivity).
  assert (H3 : strategy all_fixed <> RS_OTHER) by (vm_compute; discriminate).
  assert (H4 : no_holder all_fixed_m 4) by (intros g Hg; each_frame g Hg).
  assert (H5 : numPages all_fixed <= occupiedFrameCount all_fixed_m)
    by (vm_compute; discriminate).
  assert (H6 : forall g, (g < nframes all_fixed_m)%nat ->
                 fixCount (frame_at all_fixed_m g) <> 0)
    by (intros g Hg; each_frame g Hg).
  assert (Ht : 0%nat = match strategy all_fixed with
                       | RS_LRU => tail all_fixed_m
                       | _ => head all_fixed_m
                       end) by (vm_compute; reflexivity).
  assert (H7 : readBlock 4 (data (frame_at all_fixed_m 0))
                 (ensureCapacity (wrap_int (4 + 1))
                    (snd (openPageFile (pageFile all_fixed) six_pages)))
               = (RC_OK, [x04; x04], six_pages)) by (vm_compute; reflexivity).
  split; [exact H1|]. split; [exact H2|]. split; [vm_compute; reflexivity|].
  split; [exact H7|].
  exact (all_fixed_miss_binds_nothing (SM := mem) all_fixed (mkHandle 0 0) 4
           six_pages all_fixed_m 0%nat RC_OK [x04; x04] six_pages
           H1 H2 H3 H4 H5 H6 Ht H7).
Defined.

Lemma clean_full_misses : no_holder clean_full_m 3.
Proof. intros g Hg; each_frame g Hg. Defined.

Lemma pin_read_failure_witness :
  (well_formed fresh = true
   /\ mgmtData fresh = Some fresh_m
   /\ occupiedFrameCount fresh_m < numPages fresh
   /\ place_switch fresh fresh_m (snd (openPageFile (pageFile fresh) None)) 1
      = Some (Proceed fresh_placed None 0)
   /\ readBlock 1 (data (frame_at fresh_placed 0))
        (ensureCapacity (wrap_int (1 + 1)) None)
      = (RC_ERROR 2, [x00; x00], None)
   /\ exists m' w',
        pin_switch fresh (mkHandle 0 0) 1 None
        = Some (RC_READ_NON_EXISTING_PAGE, set_mgmt m' fresh, mkHandle 0 0, w')
        /\ pinPage fresh (mkHandle 0 0) 1 None
           = Some (RC_OK, set_mgmt m' fresh, mkHandle 0 0, w')
        /\ getNumReadIO m' = getNumReadIO fresh_m
        /\ pageNum (frame_at m' (head fresh_m)) = 1
        /\ fixCount (frame_at m' (head fresh_m))
           = incr (fixCount (frame_at fresh_m (head fresh_m)))
        /\ occupiedFrameCount m' = incr (occupiedFrameCount fresh_m))
  /\ (well_formed clean_full = true
      /\ mgmtData clean_full = Some clean_full_m
      /\ numPages clean_full <= occupiedFrameCount clean_full_m
      /\ victim_found clean_full clean_full_m = true
      /\ place_switch clean_full clean_full_m
           (snd (openPageFile (pageFile clean_full) None)) 3
         = Some (Proceed clean_full_placed None 0)
      /\ readBlock 3 (data (frame_at clean_full_placed 0))
           (ensureCapacity (wrap_int (3 + 1)) None)
         = (RC_ERROR 2, [x01; x01], None)
      /\ exists m' w',
           pin_switch clean_full (mkHandle 0 0) 3 None
           = Some (RC_READ_NON_EXISTING_PAGE, set_mgmt m' clean_full,
                   mkHandle 0 0, w')
           /\ pinPage clean_full (mkHandle 0 0) 3 None
              = Some (RC_OK, set_mgmt m' clean_full, mkHandle 0 0, w')
           /\ getNumReadIO m' = getNumReadIO clean_full_m
           /\ occupiedFrameCount m' = occupiedFrameCount clean_full_m
           /\ takes_frame 3 0 clean_full_m m').
Proof.
  split.
  - assert (H1 : well_formed fresh = true) by (vm_compute; reflexivity).
    assert (H2 : mgmtData fresh = Some fresh_m) by (vm_compute; reflexivity).
    assert (H3 : forall g, (g < nframes fresh_m)%nat ->
                   pageNum (frame_at fresh_m g) <> 1)
      by (apply fresh_misses; lia).
    assert (H4 : place_switch fresh fresh_m
                   (snd (openPageFile (pageFile fresh) None)) 1
                 = Some (Proceed fresh_placed None 0)) by (vm_compute; reflexivity).
    assert (H5 : readBlock 1 (data (frame_at fresh_placed 0))
                   (ensureCapacity (wrap_int (1 + 1)) None)
                 = (RC_ERROR 2, [x00; x00], None)) by (vm_compute; reflexivity).
    assert (H6 : rc_is_ok (RC_ERROR 2) = false) by reflexivity.
    assert (H7 : occupiedFrameCount fresh_m < numPages fresh)
      by (vm_compute; reflexivity).
    split; [exact H1|]. split; [exact H2|]. split; [exact H7|]. split; [exact H4|].
    split; [exact H5|].
    destruct (pin_read_failure (SM := mem) fresh (mkHandle 0 0) 1 None fresh_m
                fresh_placed None 0%nat (RC_ERROR 2) [x00; x00] None
                H1 H2 H3 H4 H5 H6)
      as (m' & w' & Hsw & Hpin & Hrd & Hfill & _).
    destruct (Hfill H7) as (_ & Hp & Hfx & Hoc).
    exists m', w'. auto 10.
  - assert (H1 : well_formed clean_full = true) by (vm_compute; reflexivity).
    assert (H2 : mgmtData clean_full = Some clean_full_m)
      by (vm_compute; reflexivity).
    assert (H4 : place_switch clean_full clean_full_m
                   (snd (openPageFile (pageFile clean_full) None)) 3
                 = Some (Proceed clean_full_placed None 0))
      by (vm_compute; reflexivity).
    assert (H5 : readBlock 3 (data (frame_at clean_full_placed 0))
                   (ensureCapacity (wrap_int (3 + 1)) None)
                 = (RC_ERROR 2, [x01; x01], None)) by (vm_compute; reflexivity).
    assert (H6 : rc_is_ok (RC_ERROR 2) = false) by reflexivity.
    assert (H7 : numPages clean_full <= occupiedFrameCount clean_full_m)
      by (vm_compute; discriminate).
    assert (H8 : victim_found clean_full clean_full_m = true)
      by (vm_compute; reflexivity).
    split; [exact H1|]. split; [exact H2|]. split; [exact H7|]. split; [exact H8|].
    split; [exact H4|]. split; [exact H5|].
    destruct (pin_read_failure (SM := mem) clean_full (mkHandle 0 0) 3 None
                clean_full_m clean_full_placed None 0%nat (RC_ERROR 2) [x01; x01]
                None H1 H2 clean_full_misses H4 H5 H6)
      as (m' & w' & Hsw & Hpin & Hrd & _ & Hfull).
    destruct (Hfull H7) as (_ & Hoc & Hyes & _).
    exists m', w'. split; [exact Hsw|]. split; [exact Hpin|]. split; [exact Hrd|].
    split; [exact Hoc|exact (Hyes H8)].
Defined.

Lemma fifo_clock_fill_in_order_witness :
  initBufferPool (mkPool None 0 RS_FIFO None) "test.bin"%string 3 RS_FIFO six_pages
  = (RC_OK, fresh, six_pages)
  /\ run [Pin 1; Dirty 1; Pin 2; Dirty 2; Unpin 2] (fresh, six_pages)
     = Some (two_dirty, six_pages)
  /\ exists m', mgmtData two_dirty = Some m' /\ filled_in_order m'.
Proof.
  assert (H1 : initBufferPool (mkPool None 0 RS_FIFO None) "test.bin"%string 3
                 RS_FIFO six_pages = (RC_OK, fresh, six_pages))
    by (vm_compute; reflexivity).
  assert (H2 : run [Pin 1; Dirty 1; Pin 2; Dirty 2; Unpin 2] (fresh, six_pages)
               = Some (two_dirty, six_pages)) by (vm_compute; reflexivity).
  assert (H0 : 1 <= 3 <= INT_MAX) by (vm_compute; split; discriminate).
  split; [exact H1|]. split; [exact H2|].
  exact (fifo_clock_fill_in_order (SM := mem) (mkPool None 0 RS_FIFO None)
           fresh two_dirty "test.bin"%string 3 RS_FIFO six_pages six_pages six_pages
           [Pin 1; Dirty 1; Pin 2; Dirty 2; Unpin 2] H0 (or_introl eq_refl) H1
           eq_refl H2).
Defined.

End FurtherInstances.
